(** * HDP reference architecture: authorization substrate

    A shallow embedding of the PCM authorization server
    ([pcm-core/src/routes/auth.js]), the PCM FHIR routes
    ([pcm-core/src/routes/fhir.js]), the in-memory stores
    ([pcm-core/src/store.js], [pcm-core/src/fhir/store.js]), the thumbprint
    helper ([pcm-core/src/crypto.js]), the approval of the patient portal
    ([pcm-core/src/routes/ui.js]) and the Data Source policy enforcement
    point ([ds-auth-adapter/src/index.js], [ds-auth-adapter/src/mapper.js],
    [ds-auth-adapter/src/mtls.js]), followed by the properties of the
    specification stated over it and by further properties of the code.

    Conventions.  A JavaScript property that may be missing is an [option];
    a string is a byte string; a [Map] is a [gmap]; handlers are functions
    from the stores and the request to a response and the new stores.  The
    Node platform functions the code calls ([jwt.decode], [jwt.verify],
    [fs.readFileSync]) are the fields of a class [Platform]. *)

From Stdlib Require Import ZArith String Ascii List Bool Lia.
From stdpp Require Import base option strings gmap list.
Import ListNotations.

Local Open Scope string_scope.
Local Open Scope Z_scope.

(* ===================================================================== *)
(** * JavaScript strings *)
(* ===================================================================== *)

Module JS.

(** [s.split(sep)] for a one-character separator.  The result is never
    empty: [''.split('/')] is [['']]. *)
Fixpoint split (sep : ascii) (s : string) : list string :=
  match s with
  | EmptyString => [EmptyString]
  | String c rest =>
      if Ascii.eqb c sep then EmptyString :: split sep rest
      else match split sep rest with
           | [] => [String c EmptyString]
           | h :: t => String c h :: t
           end
  end.

(** [arr.pop()] read as an expression: the last element, [undefined] on an
    empty array. *)
Fixpoint pop (l : list string) : option string :=
  match l with
  | [] => None
  | [x] => Some x
  | _ :: t => pop t
  end.

(** [s.includes(c)] for a one-character needle. *)
Fixpoint includes (c : ascii) (s : string) : bool :=
  match s with
  | EmptyString => false
  | String d rest => Ascii.eqb d c || includes c rest
  end.

(** [s.startsWith(p)]. *)
Definition startsWith (p s : string) : bool := String.prefix p s.

(** Truthiness of a string value: [undefined], [null] and [''] are falsy. *)
Definition truthy (o : option string) : bool :=
  match o with
  | Some EmptyString | None => false
  | Some _ => true
  end.

(** The white space [trim] removes: WhiteSpace and LineTerminator of
    ECMAScript.  A string is held as the bytes of its UTF-8 encoding, so
    that a white space character is one, two or three bytes.  One byte:
    TAB, LF, VT, FF, CR and the space. *)
Definition is_space (c : ascii) : bool :=
  let n := nat_of_ascii c in
  (Nat.eqb n 32 || Nat.eqb n 9 || Nat.eqb n 10 || Nat.eqb n 11
   || Nat.eqb n 12 || Nat.eqb n 13)%bool.

(** Two bytes: U+00A0. *)
Definition is_space2 (a b : ascii) : bool :=
  (Nat.eqb (nat_of_ascii a) 194 && Nat.eqb (nat_of_ascii b) 160)%bool.

(** Three bytes: U+1680, U+2000 to U+200A, U+2028, U+2029, U+202F,
    U+205F, U+3000 and U+FEFF. *)
Definition is_space3 (a b c : ascii) : bool :=
  let x := nat_of_ascii a in
  let y := nat_of_ascii b in
  let z := nat_of_ascii c in
  (Nat.eqb x 225 && Nat.eqb y 154 && Nat.eqb z 128
   || Nat.eqb x 226 && Nat.eqb y 128
      && (Nat.leb 128 z && Nat.leb z 138 || Nat.eqb z 168 || Nat.eqb z 169 || Nat.eqb z 175)
   || Nat.eqb x 226 && Nat.eqb y 129 && Nat.eqb z 159
   || Nat.eqb x 227 && Nat.eqb y 128 && Nat.eqb z 128
   || Nat.eqb x 239 && Nat.eqb y 187 && Nat.eqb z 191)%bool.

(** What is left without the longest prefix of white space. *)
Fixpoint trimStart (s : string) : string :=
  match s with
  | EmptyString => EmptyString
  | String a rest =>
      if is_space a then trimStart rest
      else
        match rest with
        | EmptyString => s
        | String b rest2 =>
            if is_space2 a b then trimStart rest2
            else
              match rest2 with
              | EmptyString => s
              | String c rest3 => if is_space3 a b c then trimStart rest3 else s
              end
        end
  end.

(** Whether [s] is white space only. *)
Definition blank (s : string) : bool :=
  match trimStart s with
  | EmptyString => true
  | String _ _ => false
  end.

(** What is left without the longest suffix of white space. *)
Fixpoint trimEnd (s : string) : string :=
  match s with
  | EmptyString => EmptyString
  | String c rest => if blank s then EmptyString else String c (trimEnd rest)
  end.

Definition trim (s : string) : string := trimEnd (trimStart s).

(** The bytes of a string, as [update(value)] feeds them to a hash. *)
Fixpoint bytes (s : string) : list Z :=
  match s with
  | EmptyString => []
  | String c rest => Z.of_nat (nat_of_ascii c) :: bytes rest
  end.

Fixpoint of_bytes (l : list Z) : string :=
  match l with
  | [] => EmptyString
  | b :: rest => String (ascii_of_nat (Z.to_nat b)) (of_bytes rest)
  end.

End JS.

(* ===================================================================== *)
(** * [crypto.createHash('sha256')] and the digest encodings *)
(* ===================================================================== *)

Module SHA256.

Definition w32 (x : Z) : Z := x mod 2 ^ 32.
Definition add32 (x y : Z) : Z := w32 (x + y).
Definition rotr (n x : Z) : Z :=
  w32 (Z.lor (Z.shiftr x n) (Z.shiftl x (32 - n))).
Definition not32 (x : Z) : Z := Z.lxor x 0xffffffff.

Definition Ch (x y z : Z) : Z := Z.lxor (Z.land x y) (Z.land (not32 x) z).
Definition Maj (x y z : Z) : Z :=
  Z.lxor (Z.lxor (Z.land x y) (Z.land x z)) (Z.land y z).
Definition Sigma0 (x : Z) : Z := Z.lxor (Z.lxor (rotr 2 x) (rotr 13 x)) (rotr 22 x).
Definition Sigma1 (x : Z) : Z := Z.lxor (Z.lxor (rotr 6 x) (rotr 11 x)) (rotr 25 x).
Definition sigma0 (x : Z) : Z := Z.lxor (Z.lxor (rotr 7 x) (rotr 18 x)) (Z.shiftr x 3).
Definition sigma1 (x : Z) : Z := Z.lxor (Z.lxor (rotr 17 x) (rotr 19 x)) (Z.shiftr x 10).

(** The constants of FIPS 180-4: the first 32 bits of the fractional parts
    of the cube roots of the first 64 primes, and of the square roots of
    the first 8. *)
Definition is_prime (n : Z) : bool :=
  forallb (fun d => (n <=? d) || negb (n mod d =? 0))
          (List.map Z.of_nat (seq 2 16)).

Definition primes : list Z :=
  List.filter is_prime (List.map Z.of_nat (seq 2 310)).

(** The integer cube root, one bit at a time from bit [bits - 1] down. *)
Fixpoint icbrt (bits : nat) (n r : Z) : Z :=
  match bits with
  | O => r
  | S b =>
      let c := r + 2 ^ Z.of_nat b in
      icbrt b n (if c * c * c <=? n then c else r)
  end.

Definition K : list Z :=
  List.map (fun p => w32 (icbrt 35 (p * 2 ^ 96) 0)) primes.

Definition H0 : list Z :=
  List.map (fun p => w32 (Z.sqrt (p * 2 ^ 64))) (firstn 8 primes).

(** Padding: one [0x80] byte, zero bytes up to 56 modulo 64, and the bit
    length as a 64-bit big-endian number. *)
Fixpoint be_bytes (n : nat) (x : Z) : list Z :=
  match n with
  | O => []
  | S k => (Z.shiftr x (8 * Z.of_nat k)) mod 256 :: be_bytes k x
  end.

Definition pad (msg : list Z) : list Z :=
  let len := Z.of_nat (length msg) in
  let zeros := Z.to_nat ((55 - len) mod 64) in
  msg ++ [0x80] ++ repeat 0 zeros ++ be_bytes 8 (8 * len).

Fixpoint words (fuel : nat) (bs : list Z) : list Z :=
  match fuel, bs with
  | S f, a :: b :: c :: d :: rest =>
      (Z.shiftl a 24 + Z.shiftl b 16 + Z.shiftl c 8 + d) :: words f rest
  | _, _ => []
  end.

Fixpoint schedule (n : nat) (w : list Z) : list Z :=
  match n with
  | O => w
  | S k =>
      let t := length w in
      let at_ i := nth (t - i) w 0 in
      schedule k (w ++ [w32 (sigma1 (at_ 2%nat) + at_ 7%nat
                              + sigma0 (at_ 15%nat) + at_ 16%nat)])
  end.

Record regs := Regs { ra : Z; rb : Z; rc : Z; rd : Z; re : Z; rf : Z; rg : Z; rh : Z }.

Definition round (s : regs) (kw : Z * Z) : regs :=
  let '(k, w) := kw in
  let t1 := w32 (rh s + Sigma1 (re s) + Ch (re s) (rf s) (rg s) + k + w) in
  let t2 := w32 (Sigma0 (ra s) + Maj (ra s) (rb s) (rc s)) in
  Regs (add32 t1 t2) (ra s) (rb s) (rc s) (add32 (rd s) t1) (re s) (rf s) (rg s).

Definition of_list (h : list Z) : regs :=
  Regs (nth 0 h 0) (nth 1 h 0) (nth 2 h 0) (nth 3 h 0)
       (nth 4 h 0) (nth 5 h 0) (nth 6 h 0) (nth 7 h 0).

Definition to_list (s : regs) : list Z :=
  [ra s; rb s; rc s; rd s; re s; rf s; rg s; rh s].

Definition compress (h : list Z) (block : list Z) : list Z :=
  let w := schedule 48 (words 16 block) in
  let s := fold_left round (combine K w) (of_list h) in
  List.map (fun p => add32 (fst p) (snd p)) (combine h (to_list s)).

Fixpoint blocks (fuel : nat) (bs : list Z) : list (list Z) :=
  match fuel with
  | O => []
  | S f =>
      match bs with
      | [] => []
      | _ => firstn 64 bs :: blocks f (skipn 64 bs)
      end
  end.

(** The digest as 32 bytes. *)
Definition digest (msg : list Z) : list Z :=
  let p := pad msg in
  let h := fold_left compress (blocks (length p) p) H0 in
  List.concat (List.map (be_bytes 4) h).

End SHA256.

Module Encoding.

Definition hex_digit (n : Z) : ascii :=
  ascii_of_nat (Z.to_nat (if n <? 10 then 48 + n else 87 + n)).

(** [digest('hex')]: two lower-case digits per byte. *)
Fixpoint hex (bs : list Z) : string :=
  match bs with
  | [] => EmptyString
  | b :: rest => String (hex_digit (b / 16)) (String (hex_digit (b mod 16)) (hex rest))
  end.

(** The URL-safe alphabet of RFC 4648, section 5. *)
Definition b64url_char (n : Z) : ascii :=
  ascii_of_nat (Z.to_nat
    (if n <? 26 then 65 + n
     else if n <? 52 then 71 + n
     else if n <? 62 then n - 4
     else if n =? 62 then 45 else 95)).

(** [digest('base64url')]: no padding characters. *)
Fixpoint base64url (bs : list Z) : string :=
  match bs with
  | a :: b :: c :: rest =>
      String (b64url_char (a / 4))
     (String (b64url_char ((a mod 4) * 16 + b / 16))
     (String (b64url_char ((b mod 16) * 4 + c / 64))
     (String (b64url_char (c mod 64)) (base64url rest))))
  | [a; b] =>
      String (b64url_char (a / 4))
     (String (b64url_char ((a mod 4) * 16 + b / 16))
     (String (b64url_char ((b mod 16) * 4)) EmptyString))
  | [a] =>
      String (b64url_char (a / 4))
     (String (b64url_char ((a mod 4) * 16)) EmptyString)
  | [] => EmptyString
  end.

(** The value of a character in either base64 alphabet. *)
Definition unbase64 (c : ascii) : option Z :=
  let n := Z.of_nat (nat_of_ascii c) in
  if (65 <=? n) && (n <=? 90) then Some (n - 65)
  else if (97 <=? n) && (n <=? 122) then Some (n - 71)
  else if (48 <=? n) && (n <=? 57) then Some (n + 4)
  else if (n =? 43) || (n =? 45) then Some 62
  else if (n =? 47) || (n =? 95) then Some 63
  else None.

(** The sextets of a base64 text as [Buffer.from(s, 'base64')] reads them:
    characters outside the alphabets are skipped and decoding stops at the
    first ['=']. *)
Fixpoint sextets (s : string) : list Z :=
  match s with
  | EmptyString => []
  | String c rest =>
      if Ascii.eqb c "="%char then []
      else match unbase64 c with
           | Some v => v :: sextets rest
           | None => sextets rest
           end
  end.

Fixpoint unsextets (fuel : nat) (l : list Z) : list Z :=
  match fuel with
  | O => []
  | S f =>
      match l with
      | a :: b :: c :: d :: rest =>
          (a * 4 + b / 16) :: ((b mod 16) * 16 + c / 4)
            :: ((c mod 4) * 64 + d) :: unsextets f rest
      | [a; b; c] => [a * 4 + b / 16; (b mod 16) * 16 + c / 4]
      | [a; b] => [a * 4 + b / 16]
      | _ => []
      end
  end.

(** [Buffer.from(s, 'base64')]. *)
Definition from_base64 (s : string) : list Z :=
  let l := sextets s in unsextets (length l) l.

End Encoding.

(* ===================================================================== *)
(** * FHIR resources as the code reads them *)
(* ===================================================================== *)

(** A value that [ensureArray] / [toArray] normalises: an array, or a single
    object that is wrapped into a one-element array. *)
Inductive array_or (A : Type) : Type :=
| Arr (l : list A)
| Obj (a : A).
Arguments Arr {A} l.
Arguments Obj {A} a.

(** [ensureArray(value)] of [routes/fhir.js], [toArray(value)] of
    [fhir/context.js]: [Array.isArray(value) ? value : (value ? [value] : [])]. *)
Definition ensureArray {A} (value : option (array_or A)) : list A :=
  match value with
  | Some (Arr l) => l
  | Some (Obj a) => [a]
  | None => []
  end.

(** [ref ? ref.split('/').pop() : null]. *)
Definition getRefId (ref : option string) : option string :=
  if JS.truthy ref then ref ≫= (fun r => JS.pop (JS.split "/" r)) else None.

(** [ref?.split('/').pop()]: unlike [getRefId], the empty string is split. *)
Definition lastSegment (ref : option string) : option string :=
  ref ≫= (fun r => JS.pop (JS.split "/" r)).

Module Coding.
Record t := mk {
  system : option string;
  code : option string;
  display : option string }.
End Coding.

Module CodeableConcept.
Record t := mk { coding : option (list Coding.t) }.
End CodeableConcept.

Module Reference.
Record t := mk { reference : option string; display : option string }.
End Reference.

Module Identifier.
Record t := mk { system : option string; value : option string }.
End Identifier.

Module Extension.
Record t := mk { url : option string; valueReference : option Reference.t }.
End Extension.

Module Actor.
Record t := mk { role : option CodeableConcept.t; reference : option Reference.t }.
End Actor.

Module Organization.
Record t := mk {
  id : option string;
  active : option bool;
  name : option string;
  type : option (list CodeableConcept.t);
  partOf : option Reference.t;
  endpoint : option (list Reference.t) }.
End Organization.

Module Endpoint.
Record t := mk {
  id : option string;
  address : option string;
  managingOrganization : option Reference.t }.
End Endpoint.

Module Meta.
Record t := mk { tag : option (array_or Coding.t) }.
End Meta.

Module HealthcareService.
Record t := mk {
  id : option string;
  active : option bool;
  name : option string;
  providedBy : option Reference.t;
  identifier : option (array_or Identifier.t);
  extension : option (array_or Extension.t);
  meta : option Meta.t }.
End HealthcareService.

Module Consent.
Record Patient := mkPatient { identifier_of : option (array_or Identifier.t) }.
Record Provision := mkProvision { actor : option (list Actor.t) }.
Record t := mk {
  id : option string;
  status : option string;
  identifier : option (list Identifier.t);
  patient : option Patient;
  provision : option Provision;
  extension : option (list Extension.t) }.

(** [consent.provision?.actor || []]. *)
Definition actors (c : t) : list Actor.t :=
  match provision c with
  | Some p => default [] (actor p)
  | None => []
  end.

Definition set_status (s : option string) (c : t) : t :=
  mk (id c) s (identifier c) (patient c) (provision c) (extension c).
Definition set_id (i : option string) (c : t) : t :=
  mk i (status c) (identifier c) (patient c) (provision c) (extension c).
End Consent.

Module VerificationResult.
Record t := mk { id : option string; status : option string }.
End VerificationResult.

(* ===================================================================== *)
(** * [fhir/store.js]: the in-memory FHIR store *)
(* ===================================================================== *)

Module FHIRStore.

(** [this.data]: one [Map] per resource type. *)
Record t := mk {
  Organization : gmap string Organization.t;
  Endpoint : gmap string Endpoint.t;
  HealthcareService : gmap string HealthcareService.t;
  VerificationResult : gmap string VerificationResult.t;
  Consent : gmap string Consent.t }.

Definition empty : t := mk ∅ ∅ ∅ ∅ ∅.

Inductive resource :=
| ROrganization (o : Organization.t)
| REndpoint (e : Endpoint.t)
| RHealthcareService (h : HealthcareService.t)
| RVerificationResult (v : VerificationResult.t)
| RConsent (c : Consent.t).

(** The property names [this.data] inherits from [Object.prototype]: for
    these [this.data[type]] is truthy and is no [Map]. *)
Definition inherited : list string :=
  ["constructor"; "__proto__"; "toString"; "toLocaleString"; "valueOf";
   "hasOwnProperty"; "isPrototypeOf"; "propertyIsEnumerable";
   "__defineGetter__"; "__defineSetter__"; "__lookupGetter__"; "__lookupSetter__"].

(** [get(type, id)]: [None] is the TypeError of [this.data[type].get] for
    an inherited name; [Some None] is [null] or [undefined]: a type
    [this.data] does not have, or an id the [Map] does not
    ([Map.get(undefined)] finds nothing). *)
Definition get (st : t) (type : string) (id : option string) : option (option resource) :=
  if bool_decide (type ∈ inherited) then None
  else Some
    match id with
    | None => None
    | Some i =>
        if String.eqb type "Organization" then ROrganization <$> Organization st !! i
        else if String.eqb type "Endpoint" then REndpoint <$> Endpoint st !! i
        else if String.eqb type "HealthcareService" then RHealthcareService <$> HealthcareService st !! i
        else if String.eqb type "VerificationResult" then RVerificationResult <$> VerificationResult st !! i
        else if String.eqb type "Consent" then RConsent <$> Consent st !! i
        else None
    end.

Definition getOrganization (st : t) (id : option string) : option Organization.t :=
  id ≫= (fun i => Organization st !! i).
Definition getEndpoint (st : t) (id : option string) : option Endpoint.t :=
  id ≫= (fun i => Endpoint st !! i).
Definition getHealthcareService (st : t) (id : option string) : option HealthcareService.t :=
  id ≫= (fun i => HealthcareService st !! i).
Definition getConsent (st : t) (id : option string) : option Consent.t :=
  id ≫= (fun i => Consent st !! i).

Definition with_Organization (m : gmap string Organization.t) (st : t) : t :=
  mk m (Endpoint st) (HealthcareService st) (VerificationResult st) (Consent st).
Definition with_Endpoint (m : gmap string Endpoint.t) (st : t) : t :=
  mk (Organization st) m (HealthcareService st) (VerificationResult st) (Consent st).
Definition with_HealthcareService (m : gmap string HealthcareService.t) (st : t) : t :=
  mk (Organization st) (Endpoint st) m (VerificationResult st) (Consent st).
Definition with_Consent (m : gmap string Consent.t) (st : t) : t :=
  mk (Organization st) (Endpoint st) (HealthcareService st) (VerificationResult st) m.

(** [add(resource)] for an Endpoint: an id is generated when the resource
    has none ([!resource.id]); [Map.set] replaces an entry of the same id.
    [uuid] is the value the next [uuidv4()] returns. *)
Definition addEndpoint (uuid : string) (e : Endpoint.t) (st : t) : Endpoint.t * t :=
  let i := if JS.truthy (Endpoint.id e) then default uuid (Endpoint.id e) else uuid in
  let e' := Endpoint.mk (Some i) (Endpoint.address e) (Endpoint.managingOrganization e) in
  (e', with_Endpoint (<[i := e']> (Endpoint st)) st).

(** [update(resource)] for an Endpoint whose id is known to be stored
    (the route reads it with [get] first). *)
Definition updateEndpoint (i : string) (e : Endpoint.t) (st : t) : t :=
  with_Endpoint (<[i := e]> (Endpoint st)) st.

Definition addOrganization (i : string) (o : Organization.t) (st : t) : t :=
  with_Organization (<[i := o]> (Organization st)) st.
Definition addConsent (i : string) (c : Consent.t) (st : t) : t :=
  with_Consent (<[i := c]> (Consent st)) st.
Definition addHealthcareService (i : string) (h : HealthcareService.t) (st : t) : t :=
  with_HealthcareService (<[i := h]> (HealthcareService st)) st.

(** [update(resource)] for an Organization: the entry is found by the
    [id] of the resource itself; [None] is the thrown
    [Resource not found] ([Map.has(undefined)] is false). *)
Definition updateOrganization (o : Organization.t) (st : t) : option t :=
  match Organization.id o with
  | Some i =>
      if bool_decide (is_Some (Organization st !! i))
      then Some (with_Organization (<[i := o]> (Organization st)) st)
      else None
  | None => None
  end.

(** [update(resource)] for a Consent, likewise. *)
Definition updateConsent (c : Consent.t) (st : t) : option t :=
  match Consent.id c with
  | Some i =>
      if bool_decide (is_Some (Consent st !! i))
      then Some (with_Consent (<[i := c]> (Consent st)) st)
      else None
  | None => None
  end.

(** [getAll('Organization')].  A [gmap] does not record the order in which
    the keys were set, which is the order [Map.values()] follows: the list
    has the stored Organizations in the order of their keys, and what is
    stated about it does not depend on the order. *)
Definition getAllOrganization (st : t) : list Organization.t :=
  (map_to_list (Organization st)).*2.

End FHIRStore.

(* ===================================================================== *)
(** * [store.js]: registered clients and the opaque token store *)
(* ===================================================================== *)

Module Client.
Record t := mk {
  clientId : string;
  name : string;
  scopes : list string;
  certPath : string;
  organizationId : string }.
End Client.

Definition clients : list Client.t :=
  [ Client.mk "http://pcm.fhir.health.gov.il/Organization/org-sp" "Doctor Portal"
      ["fhir/Consent.write"; "fhir/Patient.read"; "fhir/Observation.read";
       "system/*.cruds"; "patient/Observation.rs"]
      "/app/certs/sp-client.crt" "org-sp";
    Client.mk "http://pcm.fhir.health.gov.il/Organization/org-vaccine-repo"
      "Data Source Auth Adapter" ["introspection"]
      "/app/certs/ds-gateway.crt" "org-vaccine-repo";
    Client.mk "hospital-b-sp" "Hospital B Doctor Portal"
      ["fhir/Consent.write"; "fhir/Patient.read"; "fhir/Observation.read"]
      "/app/certs/hospital-b-sp.crt" "org-hospital-b-sp";
    Client.mk "pcm-core" "Patient Consent Manager" ["system/*.cruds"]
      "/app/certs/pcm-core.crt" "org-pcm-system" ].

Module FhirContext.
Record entry := mk { type : string; system : option string; value : option string }.
End FhirContext.

Module Token.
(** [tokenData] of [issueToken]; [cnf] is [null] or [{ "x5t#S256": ... }]. *)
Record t := mk {
  active : bool;
  sub : string;
  scope : string;
  iss : string;
  aud : string;
  client_id : string;
  organization_id : string;
  patient : option string;
  fhirContext : list FhirContext.entry;
  cnf : option string;
  exp : Z;
  iat : Z }.
End Token.

(** [tokens]: [Map<string, object>]. *)
Abbreviation TokenStore := (gmap string Token.t).

(* ===================================================================== *)
(** * [crypto.js]: certificate thumbprints *)
(* ===================================================================== *)

(** The argument of [certToX5tS256]: a PEM string or a DER buffer. *)
Inductive certInput :=
| Pem (text : string)
| Der (raw : list Z).

(** The loop over the lines of a PEM text: lines that start with five
    dashes (after trimming) are skipped, the others are concatenated. *)
Fixpoint base64Body (lines : list string) : string :=
  match lines with
  | [] => EmptyString
  | line :: rest =>
      if JS.startsWith "-----" (JS.trim line) then base64Body rest
      else JS.trim line +:+ base64Body rest
  end.

Definition pemToDer (text : string) : list Z :=
  Encoding.from_base64 (base64Body (JS.split "010" text)).

(** [certToX5tS256(certInput)].  Both constructors of [certInput] end as a
    buffer, so the guard [!Buffer.isBuffer(der)] never fires. *)
Definition certToX5tS256 (c : certInput) : string :=
  let der := match c with
             | Pem text => pemToDer text
             | Der raw => raw
             end in
  Encoding.base64url (SHA256.digest der).

Arguments SHA256.digest : simpl never.
Arguments Encoding.base64url : simpl never.
Arguments Encoding.hex : simpl never.
Arguments Encoding.from_base64 : simpl never.
Arguments pemToDer : simpl never.
Arguments certToX5tS256 : simpl never.

(* ===================================================================== *)
(** * [ds-auth-adapter/src/mtls.js]: the certificate header of the gateway *)
(* ===================================================================== *)

(** [mtls.js] repeats [certToX5tS256] of [crypto.js] word for word; the
    adapter's helpers below call the definition above. *)

Module Mtls.

(** The value of a hexadecimal digit, in either case. *)
Definition hexval (c : ascii) : option Z :=
  let n := Z.of_nat (nat_of_ascii c) in
  if (48 <=? n) && (n <=? 57) then Some (n - 48)
  else if (65 <=? n) && (n <=? 70) then Some (n - 55)
  else if (97 <=? n) && (n <=? 102) then Some (n - 87)
  else None.

(** What may follow the first byte of a UTF-8 sequence: the number of
    continuation bytes and the range of the first of them.  The bytes that
    start no well-formed sequence ([80..C1], [F5..FF]) have no entry. *)
Definition lead (b : Z) : option (nat * Z * Z) :=
  if (0xC2 <=? b) && (b <=? 0xDF) then Some (1%nat, 0x80, 0xBF)
  else if b =? 0xE0 then Some (2%nat, 0xA0, 0xBF)
  else if (0xE1 <=? b) && (b <=? 0xEC) then Some (2%nat, 0x80, 0xBF)
  else if b =? 0xED then Some (2%nat, 0x80, 0x9F)
  else if (0xEE <=? b) && (b <=? 0xEF) then Some (2%nat, 0x80, 0xBF)
  else if b =? 0xF0 then Some (3%nat, 0x90, 0xBF)
  else if (0xF1 <=? b) && (b <=? 0xF3) then Some (3%nat, 0x80, 0xBF)
  else if b =? 0xF4 then Some (3%nat, 0x80, 0x8F)
  else None.

Definition byte (b : Z) : ascii := ascii_of_nat (Z.to_nat b).

(** [decodeURIComponent(s)] on the bytes of [s]; [None] is the thrown
    [URIError].  An escape is a percent sign and two hexadecimal digits;
    an escaped byte above [7F] must start a well-formed UTF-8 sequence
    whose other bytes are escaped as well.  [pending] counts the
    continuation bytes still owed and [lo], [hi] bound the next one. *)
Fixpoint decode (pending : nat) (lo hi : Z) (s : string) : option string :=
  match s with
  | EmptyString => if pending is O then Some EmptyString else None
  | String c rest =>
      if Ascii.eqb c "%"%char then
        match rest with
        | String h1 (String h2 rest') =>
            match hexval h1, hexval h2 with
            | Some a, Some b =>
                let B := 16 * a + b in
                match pending with
                | O =>
                    if B <? 0x80 then String (byte B) <$> decode O 0 0 rest'
                    else match lead B with
                         | Some (n, lo', hi') => String (byte B) <$> decode n lo' hi' rest'
                         | None => None
                         end
                | S p =>
                    if (lo <=? B) && (B <=? hi)
                    then String (byte B) <$> decode p 0x80 0xBF rest'
                    else None
                end
            | _, _ => None
            end
        | _ => None
        end
      else if pending is O then String c <$> decode O 0 0 rest else None
  end.

Definition decodeURIComponent (s : string) : option string := decode O 0 0 s.

(** [s.replace(/\+/g, '%20')]. *)
Fixpoint replacePlus (s : string) : string :=
  match s with
  | EmptyString => EmptyString
  | String c rest =>
      if Ascii.eqb c "+"%char then String "%" (String "2" (String "0" (replacePlus rest)))
      else String c (replacePlus rest)
  end.

(** [decodeEscapedPem(escapedPem)]: [inl] is the thrown error, [inr None]
    is [null]. *)
Definition decodeEscapedPem (escapedPem : option string) : string + option string :=
  if JS.truthy escapedPem then
    match decodeURIComponent (replacePlus (default "" escapedPem)) with
    | Some decoded => inr (Some decoded)
    | None => inl "URIError"
    end
  else inr None.

(** [thumbprintFromEscapedPem(escapedPem)]. *)
Definition thumbprintFromEscapedPem (escapedPem : option string)
    : string + option string :=
  match decodeEscapedPem escapedPem with
  | inl e => inl e
  | inr pem =>
      if JS.truthy pem then inr (Some (certToX5tS256 (Pem (default "" pem))))
      else inr None
  end.

End Mtls.

(* ===================================================================== *)
(** * [routes/auth.js]: token issuance and introspection *)
(* ===================================================================== *)

Module Assertion.
Inductive audience :=
| AudString (s : string)
| AudArray (l : list string).
(** [extensions['hl7-b2b']]. *)
Record b2b := mkB2B {
  organization_id : option string;
  consent_reference : option (list string) }.
Record t := mk {
  sub : option string;
  iss : option string;
  aud : option audience;
  hl7_b2b : option b2b }.
End Assertion.

(** The three ways [jwt.decode] can end. *)
Inductive decoded :=
| DecodeThrows
| DecodeNull
| Decoded (a : Assertion.t).

(** The Node platform as the authorization server uses it.
    [jwt_verify assertion cert audiences] holds when
    [jwt.verify(assertion, cert, { algorithms: ['RS256'], audience })]
    returns; [readFileSync path] is [None] when the read throws. *)
Class Platform := {
  jwt_decode : string -> decoded;
  jwt_verify : string -> string -> list string -> bool;
  readFileSync : string -> option string }.

Module Response.
Inductive body :=
| Error (error : string) (error_description : option string)
| AccessToken (access_token token_type : string) (expires_in : Z) (scope : string)
| Rejected (error : string)
| Inactive
| Claims (claims : Token.t)
| Uncaught.
(** [Rejected e] is [{ error: e, active: false }], [Inactive] is
    [{ active: false }], [Claims t] is the token record itself, and
    [Uncaught] is Express's answer to an exception nobody caught. *)
Record t := mk { status : Z; json : body }.

Definition error (st : Z) (e : string) (d : option string) : t := mk st (Error e d).
Definition uncaught : t := mk 500 Uncaught.
End Response.

Module TokenRequest.
(** What [issueToken] reads of [req]: the TLS socket, the [Host] header
    and the form body. *)
Record t := mk {
  socket_authorized : bool;
  peer_raw : option (list Z);
  host : string;
  grant_type : option string;
  client_assertion_type : option string;
  client_assertion : option string;
  resource : option string;
  scope : option string }.
End TokenRequest.

Module Log.
Inductive level := warn | info | error.
Record entry := mk { lvl : level; message : string }.
End Log.

Module IssueOutcome.
Record t := mk {
  response : Response.t;
  tokens : TokenStore;
  log : list Log.entry }.
End IssueOutcome.

Definition EXT_PCM_SERVICE : string :=
  "http://pcm.fhir.health.gov.il/StructureDefinition/ext-pcm-service".
Definition EXT_BASED_ON_CANONICAL : string :=
  "http://pcm.fhir.health.gov.il/StructureDefinition/ext-based-on-canonical-healthcareservice".
Definition CATALOG_ID_SYSTEM : string :=
  "http://pcm.fhir.health.gov.il/identifier/pcm-healthcareservice-catalog-id".
Definition CONSENT_ID_SYSTEM : string :=
  "http://pcm.fhir.health.gov.il/identifier/pcm-consent-id".
Definition B2B_SCOPE : string :=
  "patient/Observation.rs?_security=http://fhir.health.gov.il/cs/hdp-information-buckets|laboratoryTests&date=ge2024-01-01".

(** [x === s] for a possibly missing [x]. *)
Definition str_is (x : option string) (s : string) : bool :=
  match x with
  | Some y => String.eqb y s
  | None => false
  end.

(** [list.includes(x)]. *)
Definition includes_str (l : list string) (x : string) : bool :=
  existsb (String.eqb x) l.

(** [when c leave r ;; k] reads [if (c) return r; k]. *)
Notation "'when' c 'leave' r ;; k" := (if (c : bool) then r else k)
  (at level 10, c at level 99, r at level 99, k at level 200,
   format "'[v' 'when'  c  'leave'  r  ;; '/' k ']'").

Section AuthorizationServer.
Context `{Platform}.

(** [isAllowedAudience(aud, allowedAudiences)]. *)
Definition isAllowedAudience (aud : option Assertion.audience)
    (allowedAudiences : list string) : bool :=
  match aud with
  | None => false
  | Some (Assertion.AudArray l) => existsb (includes_str allowedAudiences) l
  | Some (Assertion.AudString s) =>
      JS.truthy (Some s) && includes_str allowedAudiences s
  end.

(** [a.role?.coding?.some(c => c.code === code)]. *)
Definition hasRole (code : string) (a : Actor.t) : bool :=
  match Actor.role a with
  | Some r =>
      match CodeableConcept.coding r with
      | Some cs => existsb (fun c => str_is (Coding.code c) code) cs
      | None => false
      end
  | None => false
  end.

(** [a.reference?.reference]. *)
Definition actorRef (a : Actor.t) : option string :=
  Actor.reference a ≫= Reference.reference.

(** The body of the inner loop of step 5.3: does this Endpoint reference
    of a custodian resolve to an Endpoint whose address is [resource]? *)
Definition endpointIs (st : FHIRStore.t) (resource : string)
    (epRefObj : Reference.t) : bool :=
  let epId := lastSegment (Reference.reference epRefObj) in
  match FHIRStore.getEndpoint st epId with
  | Some endpoint => str_is (Endpoint.address endpoint) resource
  | None => false
  end.

(** The body of the outer loop of step 5.3 for one custodian actor. *)
Definition custodianOwns (st : FHIRStore.t) (resource : string)
    (actor : Actor.t) : bool :=
  let orgId := lastSegment (actorRef actor) in
  match FHIRStore.getOrganization st orgId with
  | Some org =>
      match Organization.endpoint org with
      | Some eps => existsb (endpointIs st resource) eps
      | None => false
      end
  | None => false
  end.

Definition custodianActors (actors : list Actor.t) : list Actor.t :=
  List.filter (hasRole "CST") actors.

Definition resourceMatchFound (st : FHIRStore.t) (resource : string)
    (actors : list Actor.t) : bool :=
  existsb (custodianOwns st resource) (custodianActors actors).

(** Step 5.4: [actors.some(a => refId === client.organizationId)]. *)
Definition isActor (client : Client.t) (actors : list Actor.t) : bool :=
  existsb (fun a => str_is (lastSegment (actorRef a)) (Client.organizationId client))
          actors.

(** The patient business identifier of a consent as ["system|value"]. *)
Definition patientContextOf (consent : Consent.t) : option string :=
  match Consent.patient consent ≫= Consent.identifier_of with
  | Some idObj =>
      let pid := match idObj with
                 | Arr l => head l
                 | Obj x => Some x
                 end in
      match pid with
      | Some p =>
          match Identifier.system p, Identifier.value p with
          | Some sy, Some v =>
              if JS.truthy (Some sy) && JS.truthy (Some v)
              then Some (sy +:+ "|" +:+ v) else None
          | _, _ => None
          end
      | None => None
      end
  | None => None
  end.

(** Step 5 of [issueToken] for an assertion that carries the B2B
    extension: an early response, or the patient context. *)
Definition b2bBinding (st : FHIRStore.t) (client : Client.t) (resource : string)
    (udapExt : Assertion.b2b) : Response.t + option string :=
  let claimedOrgId := lastSegment (Assertion.organization_id udapExt) in
  when negb (str_is claimedOrgId (Client.organizationId client))
    leave inl (Response.error 401 "unauthorized_client" (Some "Organization ID mismatch")) ;;
  let consentRefUrl := Assertion.consent_reference udapExt ≫= head in
  if JS.truthy consentRefUrl then
    let consentId := lastSegment consentRefUrl in
    match FHIRStore.getConsent st consentId with
    | None => inl (Response.error 400 "invalid_grant" (Some "Consent not found"))
    | Some consent =>
        when negb (str_is (Consent.status consent) "active")
          leave inl (Response.error 400 "invalid_grant" (Some "Consent not active")) ;;
        let patientContext := patientContextOf consent in
        let actors := Consent.actors consent in
        when negb (resourceMatchFound st resource actors)
          leave inl (Response.error 400 "invalid_target"
                (Some "Requested resource is not authorized by the referenced consent")) ;;
        when negb (isActor client actors)
          leave inl (Response.error 401 "access_denied"
                (Some "Client is not a party to this consent")) ;;
        inr patientContext
    end
  else inr None.

(** [findCatalogIdentifier(service)] of [fhir/context.js]. *)
Definition findCatalogIdentifier (service : option HealthcareService.t)
    : option Identifier.t :=
  match service with
  | None => None
  | Some s =>
      List.find (fun i => str_is (Identifier.system i) CATALOG_ID_SYSTEM)
                (ensureArray (HealthcareService.identifier s))
  end.

(** [a || b] on string values. *)
Definition or_str (a b : option string) : option string :=
  if JS.truthy a then a else b.

(** [buildHealthcareServiceContext(service, canonicalService)]. *)
Definition buildHealthcareServiceContext
    (service canonicalService : option HealthcareService.t)
    : option FhirContext.entry :=
  match service, canonicalService with
  | None, None => None
  | _, _ =>
      let catalogIdentifier :=
        match findCatalogIdentifier service with
        | Some i => Some i
        | None => findCatalogIdentifier canonicalService
        end in
      let value :=
        or_str (or_str (catalogIdentifier ≫= Identifier.value)
                       (service ≫= HealthcareService.id))
               (canonicalService ≫= HealthcareService.id) in
      if JS.truthy value
      then Some (FhirContext.mk "HealthcareService" (Some CATALOG_ID_SYSTEM) value)
      else None
  end.

(** [arr?.find(e => e.url === url)] on an extension property; [None] when
    the property is an object without [find] (a [TypeError]). *)
Definition findExtension (url : string) (ext : option (array_or Extension.t))
    : option (option Extension.t) :=
  match ext with
  | None => Some None
  | Some (Arr l) => Some (List.find (fun e => str_is (Extension.url e) url) l)
  | Some (Obj _) => None
  end.

(** The HealthcareService part of step 6; [None] is a [TypeError]. *)
Definition serviceContext (st : FHIRStore.t) (consent : Consent.t)
    : option (list FhirContext.entry) :=
  match Consent.extension consent
        ≫= List.find (fun e => str_is (Extension.url e) EXT_PCM_SERVICE) with
  | None => Some []
  | Some pcmServiceExt =>
      match Extension.valueReference pcmServiceExt with
      | None => Some []
      | Some vr =>
          match Reference.reference vr with
          | None => None
          | Some r =>
              let serviceId := JS.pop (JS.split "/" r) in
              match FHIRStore.getHealthcareService st serviceId with
              | None => Some []
              | Some service =>
                  match findExtension EXT_BASED_ON_CANONICAL
                          (HealthcareService.extension service) with
                  | None => None
                  | Some basedOnExt =>
                      let ref := (basedOnExt ≫= Extension.valueReference)
                                   ≫= Reference.reference in
                      let canonicalService :=
                        if JS.truthy ref
                        then FHIRStore.getHealthcareService st (lastSegment ref)
                        else None in
                      Some (option_list
                              (buildHealthcareServiceContext (Some service)
                                                             canonicalService))
                  end
              end
          end
      end
  end.

(** Step 6 of [issueToken]: the [fhirContext] array. *)
Definition buildFhirContext (st : FHIRStore.t) (udapExt : option Assertion.b2b)
    : option (list FhirContext.entry) :=
  let ref := (udapExt ≫= Assertion.consent_reference) ≫= head in
  if JS.truthy ref then
    match FHIRStore.getConsent st (lastSegment ref) with
    | None => Some []
    | Some consent =>
        let bizId :=
          match Consent.identifier consent ≫= head with
          | Some i => i
          | None => Identifier.mk (Some CONSENT_ID_SYSTEM) (Consent.id consent)
          end in
        cons (FhirContext.mk "Consent" (Identifier.system bizId) (Identifier.value bizId))
          <$> serviceContext st consent
    end
  else Some [].

Definition MISMATCH_WARNING : Log.entry :=
  Log.mk Log.warn "Client assertion cert thumbprint does not match mTLS peer cert".
Definition TOKEN_ISSUED : Log.entry := Log.mk Log.info "Token Issued (Opaque)".

(** The comparison of the two thumbprints after step 5: a warning entry
    when both are known and differ, nothing otherwise. *)
Definition compareThumbprints (assertionThumbprint peerThumbprint : option string)
    : list Log.entry :=
  match assertionThumbprint, peerThumbprint with
  | Some a, Some p =>
      if JS.truthy (Some a) && JS.truthy (Some p) && negb (String.eqb a p)
      then [MISMATCH_WARNING] else []
  | _, _ => []
  end.

(** Steps 1 to 4 of [issueToken]: the early response, or the registered
    client, the decoded assertion and the requested resource. *)
Definition authenticate (req : TokenRequest.t)
    : Response.t + (Client.t * Assertion.t * string) :=
  (* 1. Basic validation *)
  when negb (str_is (TokenRequest.grant_type req) "client_credentials")
    leave inl (Response.error 400 "unsupported_grant_type" None) ;;
  when negb (str_is (TokenRequest.client_assertion_type req)
                    "urn:ietf:params:oauth:client-assertion-type:jwt-bearer")
       || negb (JS.truthy (TokenRequest.client_assertion req))
    leave inl (Response.error 401 "invalid_client"
                 (Some "Missing or invalid client_assertion")) ;;
  when negb (JS.truthy (TokenRequest.resource req))
    leave inl (Response.error 400 "invalid_request"
                 (Some "Missing resource parameter (RFC 8707)")) ;;
  let client_assertion := default "" (TokenRequest.client_assertion req) in
  let resource := default "" (TokenRequest.resource req) in
  (* 2. Decode assertion *)
  match jwt_decode client_assertion with
  | DecodeThrows => inl (Response.error 401 "invalid_client" (Some "Invalid JWT"))
  | DecodeNull =>
      inl (Response.error 401 "invalid_client" (Some "Invalid JWT structure"))
  | Decoded decodedAssertion =>
      when negb (JS.truthy (Assertion.sub decodedAssertion))
           || negb (JS.truthy (Assertion.iss decodedAssertion))
        leave inl (Response.error 401 "invalid_client" (Some "Invalid JWT structure")) ;;
      (* 3. Find client *)
      let clientId := default "" (Assertion.iss decodedAssertion) in
      match List.find (fun c => String.eqb (Client.clientId c) clientId) clients with
      | None =>
          inl (Response.error 401 "invalid_client" (Some "Client not registered"))
      | Some client =>
          (* 4. Signature, audience and issuer checks *)
          let failed := inl (Response.error 401 "invalid_client"
                               (Some "Signature verification failed")) in
          match readFileSync (Client.certPath client) with
          | None => failed
          | Some cert =>
              let tokenEndpointCandidates :=
                [ "https://" +:+ TokenRequest.host req +:+ "/token";
                  "http://" +:+ TokenRequest.host req +:+ "/token";
                  "https://pcm-core:3000/token";
                  "http://pcm-core:3000/token" ] in
              when negb (bool_decide (Assertion.sub decodedAssertion
                                      = Assertion.iss decodedAssertion))
                leave inl (Response.error 401 "invalid_client"
                             (Some "Invalid JWT subject/issuer")) ;;
              when negb (isAllowedAudience (Assertion.aud decodedAssertion)
                                           tokenEndpointCandidates)
                leave inl (Response.error 401 "invalid_client"
                             (Some "Invalid JWT audience")) ;;
              when negb (jwt_verify client_assertion cert tokenEndpointCandidates)
                leave failed ;;
              inr (client, decodedAssertion, resource)
          end
      end
  end.

(** Step 5 of [issueToken]: the consented scope and the patient context,
    or the early response of the B2B validation. *)
Definition bindConsent (fhirStore : FHIRStore.t) (client : Client.t)
    (resource : string) (udapExt : option Assertion.b2b)
    : Response.t + (string * option string) :=
  match udapExt with
  | Some ext =>
      match b2bBinding fhirStore client resource ext with
      | inl r => inl r
      | inr patientContext => inr (B2B_SCOPE, patientContext)
      end
  | None => inr ("system/*.cruds", None)
  end.

(** [issueToken(req, res)].  [uuid] is what [uuidv4()] returns and [now]
    is [Math.floor(Date.now() / 1000)]. *)
Definition issueToken (tokens : TokenStore) (fhirStore : FHIRStore.t)
    (uuid : string) (now : Z) (req : TokenRequest.t) : IssueOutcome.t :=
  let answer r := IssueOutcome.mk r tokens [] in
  match authenticate req with
  | inl r => answer r
  | inr (client, decodedAssertion, resource) =>
      (* 5. B2B validation and actor binding *)
      let udapExt := Assertion.hl7_b2b decodedAssertion in
      match bindConsent fhirStore client resource udapExt with
      | inl r => answer r
      | inr (consentedScopes, patientContext) =>
          (* 5. cnf from the registered certificate *)
          let assertionThumbprint :=
            (fun pem => certToX5tS256 (Pem pem))
              <$> readFileSync (Client.certPath client) in
          let cnf := assertionThumbprint in
          let peerThumbprint :=
            (fun raw => certToX5tS256 (Der raw)) <$> TokenRequest.peer_raw req in
          let warnings := compareThumbprints assertionThumbprint peerThumbprint in
          (* 6. fhirContext *)
          match buildFhirContext fhirStore udapExt with
          | None => IssueOutcome.mk Response.uncaught tokens warnings
          | Some fhirContext =>
              (* 7. Issue the token *)
              let expiresIn := 30 in
              let tokenData :=
                Token.mk true (Client.clientId client)
                  (if JS.truthy (Some consentedScopes) then consentedScopes
                   else String.concat " " (Client.scopes client))
                  "http://pcm.fhir.health.gov.il/" resource
                  (Client.clientId client) (Client.organizationId client)
                  patientContext fhirContext cnf (now + expiresIn) now in
              IssueOutcome.mk
                (Response.mk 200
                   (Response.AccessToken uuid "Bearer" expiresIn consentedScopes))
                (<[uuid := tokenData]> tokens)
                (warnings ++ [TOKEN_ISSUED])
          end
      end
  end.

(** [requireMtls] in front of a handler. *)
Definition requireMtls {A} (authorized : bool) (rejected : A) (next : A) : A :=
  if authorized then next else rejected.

(** [router.post('/token', requireMtls, issueToken)]. *)
Definition postToken (tokens : TokenStore) (fhirStore : FHIRStore.t)
    (uuid : string) (now : Z) (req : TokenRequest.t) : IssueOutcome.t :=
  requireMtls (TokenRequest.socket_authorized req)
    (IssueOutcome.mk (Response.error 401 "access_denied"
                        (Some "Valid client certificate required")) tokens [])
    (issueToken tokens fhirStore uuid now req).

(** [requireAuth]: the bearer token of an introspection request must be
    in the token store and not expired; an expired one is deleted.  The
    result is the early response or [req.user], with the token store. *)
Definition requireAuth (tokens : TokenStore) (authorization : option string)
    (now : Z) : (Response.t + Token.t) * TokenStore :=
  let rejected e := inl (Response.mk 401 (Response.Rejected e)) in
  match authorization with
  | None => (rejected "Unauthorized", tokens)
  | Some authHeader =>
      when negb (JS.startsWith "Bearer " authHeader)
        leave (rejected "Unauthorized", tokens) ;;
      match JS.split " " authHeader !! 1%nat with
      | None => (rejected "Invalid Token", tokens)
      | Some token =>
          match tokens !! token with
          | None => (rejected "Invalid Token", tokens)
          | Some tokenData =>
              when Token.exp tokenData <? now
                leave (rejected "Token Expired", delete token tokens) ;;
              (inr tokenData, tokens)
          end
      end
  end.

(** Steps 1 and 2 of [introspectToken]: the address of the first Endpoint
    of the caller's Organization, or the early response; a TypeError
    ([endpointRef.split] of [undefined], the [get] of an inherited name)
    leaves the handler uncaught.  Of the stored resource types only
    Endpoint is modelled with an [address]: a reference that leads to a
    resource of another type is answered as one without address. *)
Definition introspectorAddress (fhirStore : FHIRStore.t) (user : Token.t)
    : Response.t + string :=
  let introspectorOrgId := Token.organization_id user in
  when negb (JS.truthy (Some introspectorOrgId))
    leave inl (Response.error 403 "forbidden" (Some "Introspector identity unknown")) ;;
  let noEndpoint :=
    inl (Response.error 403 "forbidden" (Some "Introspector has no endpoint")) in
  match FHIRStore.get fhirStore "Organization" (Some introspectorOrgId) with
  | Some (Some (FHIRStore.ROrganization introspectorOrg)) =>
      match Organization.endpoint introspectorOrg with
      | None | Some [] => noEndpoint
      | Some (first :: _) =>
          match Reference.reference first with
          | None => inl Response.uncaught
          | Some endpointRef =>
              let parts := JS.split "/" endpointRef in
              match FHIRStore.get fhirStore (default "" (parts !! 0%nat)) (parts !! 1%nat) with
              | None => inl Response.uncaught
              | Some (Some (FHIRStore.REndpoint endpointRes)) =>
                  match Endpoint.address endpointRes with
                  | Some address =>
                      if JS.truthy (Some address) then inr address
                      else inl (Response.error 403 "forbidden" None)
                  | None => inl (Response.error 403 "forbidden" None)
                  end
              | Some _ => inl (Response.error 403 "forbidden" None)
              end
          end
      end
  | _ => noEndpoint
  end.

(** Steps 3 and 4 of [introspectToken], once the introspector's address
    is known; [token] is the [token] field of the form body. *)
Definition inspectTarget (tokens : TokenStore) (introspectorAddress : string)
    (token : option string) (now : Z) : Response.t :=
  when negb (JS.truthy token)
    leave Response.error 400 "missing_token" None ;;
  match tokens !! default "" token with
  | None => Response.mk 200 Response.Inactive
  | Some targetTokenData =>
      when Token.exp targetTokenData <? now
        leave Response.mk 200 Response.Inactive ;;
      when negb (String.eqb (Token.aud targetTokenData) introspectorAddress)
        leave Response.mk 200 Response.Inactive ;;
      Response.mk 200 (Response.Claims targetTokenData)
  end.

(** [introspectToken(req, res)] with [req.user] set by [requireAuth]. *)
Definition introspectToken (tokens : TokenStore) (fhirStore : FHIRStore.t)
    (user : Token.t) (token : option string) (now : Z) : Response.t :=
  match introspectorAddress fhirStore user with
  | inl r => r
  | inr address => inspectTarget tokens address token now
  end.

(** [router.post('/introspect', requireMtls, requireAuth, introspectToken)]. *)
Definition postIntrospect (tokens : TokenStore) (fhirStore : FHIRStore.t)
    (socket_authorized : bool) (authorization : option string)
    (token : option string) (now : Z) : Response.t * TokenStore :=
  requireMtls socket_authorized
    (Response.error 401 "access_denied" (Some "Valid client certificate required"),
     tokens)
    (match requireAuth tokens authorization now with
     | (inl r, tokens') => (r, tokens')
     | (inr user, tokens') =>
         (introspectToken tokens' fhirStore user token now, tokens')
     end).

End AuthorizationServer.

(* ===================================================================== *)
(** * [ds-auth-adapter]: the policy enforcement point *)
(* ===================================================================== *)

Module PEP.

(** [response.data] of the introspection call as [handleAuthCheck] and
    [mapIdentity] read it; a missing [active] is falsy. *)
Record introspection := mkIntrospection {
  active : bool;
  client_id : option string;
  scope : option string;
  iss : option string;
  aud : option string;
  jti : option string;
  iat : option Z;
  fhirContext : list FhirContext.entry;
  cnf : option string;
  patient : option string }.

Definition inactive : introspection :=
  mkIntrospection false None None None None None None [] None None.

(** The JSON body PCM sends for an introspection response. *)
Definition of_body (b : Response.body) : introspection :=
  match b with
  | Response.Claims t =>
      mkIntrospection (Token.active t) (Some (Token.client_id t))
        (Some (Token.scope t)) (Some (Token.iss t)) (Some (Token.aud t)) None
        (Some (Token.iat t)) (Token.fhirContext t) (Token.cnf t) (Token.patient t)
  | _ => inactive
  end.

(** [localPayload] of [mapIdentity]. *)
Record localPayload := mkPayload {
  p_sub : option string;
  p_scope : option string;
  p_iss : option string;
  p_aud : option string;
  p_jti : option string;
  p_iat : option Z;
  p_client_id : option string;
  p_fhirContext : list FhirContext.entry;
  p_cnf : option string;
  p_patient : string }.

(** A signed local JWT, by its claims. *)
Record localToken := mkToken { payload : localPayload; t_iat : Z; t_exp : Z }.

(** [jwt.sign(payload, key, { algorithm: 'HS256', expiresIn: '30s' })] of
    the jsonwebtoken package: a payload whose [iat] key is present must
    hold a number there; the token is stamped [payload.iat || now] and
    expires 30 seconds after the stamp. *)
Definition sign (now : Z) (p : localPayload) : string + localToken :=
  match p_iat p with
  | None => inl "iat should be a number of seconds"
  | Some t =>
      let timestamp := if t =? 0 then now else t in
      inr (mkToken p timestamp (timestamp + 30))
  end.

(** [mapIdentity(pcmIntrospectionResult)]: the thrown message or the JWT. *)
Definition mapIdentity (now : Z) (r : introspection) : string + localToken :=
  when negb (active r) leave inl "Token is not active" ;;
  let patientContext := patient r in
  when negb (JS.truthy patientContext)
    leave inl "Missing mandatory patient context" ;;
  let text := default "" patientContext in
  if JS.includes "|" text then
    let parts := JS.split "|" text in
    match parts !! 1%nat with
    | None => inl "TypeError"
    | Some value =>
        let hash := Encoding.hex (SHA256.digest (JS.bytes value)) in
        let localSubject := "Patient/" +:+ hash in
        sign now (mkPayload (client_id r) (scope r) (iss r) (aud r) (jti r) (iat r)
                            (client_id r) (fhirContext r) (cnf r) localSubject)
    end
  else inl "Invalid patient identifier format".

(** The calls the adapter makes to PCM through axios. *)
Inductive call :=
| GetSmartConfiguration
| PostToken (url resource : string)
| PostIntrospect (url bearer : option string) (token : string).

Inductive data :=
| SmartConfiguration (token_endpoint introspection_endpoint : option string)
| AccessToken (access_token : option string)
| Introspection (r : introspection).

(** axios resolves on a 2xx answer and rejects otherwise; [Failed s]
    carries [err.response?.status]. *)
Inductive reply :=
| Fulfilled (d : data)
| Failed (status : option Z).

(** A handler as the tree of its outbound calls. *)
Inductive prog (A : Type) : Type :=
| Ret (a : A)
| Call (c : call) (k : reply -> prog A).
Arguments Ret {A} a.
Arguments Call {A} c k.

Fixpoint bind {A B} (p : prog A) (f : A -> prog B) : prog B :=
  match p with
  | Ret a => f a
  | Call c k => Call c (fun r => bind (k r) f)
  end.

Record config := mkConfig {
  token_endpoint : option string;
  introspection_endpoint : option string }.

(** The two module-level caches. *)
Record state := mkState {
  smartConfig : option config;
  introspectionToken : option string }.

Inductive error :=
| AxiosError (status : option Z)
| OtherError (message : string).

Record response := mkResponse {
  status : Z;
  text : string;
  x_local_token : option localToken }.

Definition config_of (d : data) : config :=
  match d with
  | SmartConfiguration t i => mkConfig t i
  | _ => mkConfig None None
  end.
Definition access_token_of (d : data) : option string :=
  match d with
  | AccessToken t => t
  | _ => None
  end.
Definition introspection_of (d : data) : introspection :=
  match d with
  | Introspection r => r
  | _ => inactive
  end.

(** [s.replace(/\/token$/, '')]. *)
Fixpoint stripToken (s : string) : string :=
  match s with
  | EmptyString => EmptyString
  | String c rest => if String.eqb s "/token" then EmptyString else String c (stripToken rest)
  end.

Section Adapter.
(** [PCM_AUTH_URL] after its [http:] to [https:] rewrite. *)
Variable PCM_AUTH_URL : string.

(** [getSmartConfiguration()]: the cached document, or the discovered
    one (then cached), or the fallback (not cached). *)
Definition getSmartConfiguration (st : state) : prog (config * state) :=
  match smartConfig st with
  | Some c => Ret (c, st)
  | None =>
      Call GetSmartConfiguration (fun r =>
        match r with
        | Fulfilled d =>
            let c := config_of d in
            Ret (c, mkState (Some c) (introspectionToken st))
        | Failed _ =>
            Ret (mkConfig (Some (PCM_AUTH_URL +:+ "/token"))
                          (Some (PCM_AUTH_URL +:+ "/introspect")), st)
        end)
  end.

(** [getIntrospectionToken()]: the cached token, or a fresh one. *)
Definition getIntrospectionToken (st : state)
    : prog ((error + option string) * state) :=
  if JS.truthy (introspectionToken st) then Ret (inr (introspectionToken st), st)
  else
    bind (getSmartConfiguration st) (fun '(config, st1) =>
    match token_endpoint config with
    | None => Ret (inl (OtherError "TypeError"), st1)
    | Some url =>
        let authBase := stripToken url in
        Call (PostToken url authBase) (fun r =>
          match r with
          | Fulfilled d =>
              let t := access_token_of d in
              Ret (inr t, mkState (smartConfig st1) t)
          | Failed s => Ret (inl (AxiosError s), st1)
          end)
    end).

(** The [catch] block of [handleAuthCheck]. *)
Definition onError (err : error) (st : state) : response * state :=
  let st' :=
    match err with
    | AxiosError (Some s) =>
        if (s =? 401) || (s =? 403) then mkState (smartConfig st) None else st
    | _ => st
    end in
  (mkResponse 401 "Unauthorized" None, st').

(** [handleAuthCheck(req, res)]; [authorization] is the header of the
    sub-request.  The comparison of the certificate header with [cnf]
    only writes to the log and is left out. *)
Definition handleAuthCheck (now : Z) (authorization : option string)
    (st : state) : prog (response * state) :=
  match authorization with
  | None => Ret (mkResponse 401 "Missing Token" None, st)
  | Some authHeader =>
      when negb (JS.startsWith "Bearer " authHeader)
        leave Ret (mkResponse 401 "Missing Token" None, st) ;;
      let token := default "undefined" (JS.split " " authHeader !! 1%nat) in
      bind (getIntrospectionToken st) (fun '(got, st1) =>
      match got with
      | inl err => Ret (onError err st1)
      | inr accessToken =>
          bind (getSmartConfiguration st1) (fun '(config, st2) =>
          Call (PostIntrospect (introspection_endpoint config) accessToken token)
            (fun r =>
               match r with
               | Failed s => Ret (onError (AxiosError s) st2)
               | Fulfilled d =>
                   let result := introspection_of d in
                   when negb (active result)
                     leave Ret (mkResponse 401 "Token Inactive" None, st2) ;;
                   match mapIdentity now result with
                   | inl msg => Ret (onError (OtherError msg) st2)
                   | inr localToken =>
                       Ret (mkResponse 200 "OK" (Some localToken), st2)
                   end
               end))
      end)
  end.
End Adapter.

(** Running a handler against PCM, given as a transition function on
    some state [S]; the trace lists the calls made with their replies. *)
Section Run.
Context {S : Type} (pcm : call -> S -> reply * S).

Fixpoint run {A} (p : prog A) (s : S) : A * S * list (call * reply) :=
  match p with
  | Ret a => (a, s, [])
  | Call c k =>
      let '(r, s1) := pcm c s in
      let '(a, s2, tr) := run (k r) s1 in
      (a, s2, (c, r) :: tr)
  end.
End Run.

Definition isPost (c : call) : bool :=
  match c with
  | GetSmartConfiguration => false
  | _ => true
  end.

Definition isIntrospect (c : call) : bool :=
  match c with
  | PostIntrospect _ _ _ => true
  | _ => false
  end.

Definition isTokenRequest (c : call) : bool :=
  match c with
  | PostToken _ _ => true
  | _ => false
  end.

(** The answer of [handleAuthCheck] once PCM has answered the introspection
    with [r]. *)
Definition afterIntrospection (now : Z) (r : introspection) : response :=
  if negb (active r) then mkResponse 401 "Token Inactive" None
  else match mapIdentity now r with
       | inl _ => mkResponse 401 "Unauthorized" None
       | inr localToken => mkResponse 200 "OK" (Some localToken)
       end.

(** The statuses on which the [catch] block clears the cached token. *)
Definition invalidates (status : option Z) : Prop :=
  status = Some 401 ∨ status = Some 403.

End PEP.

(* ===================================================================== *)
(** * [routes/fhir.js]: the FHIR REST handlers *)
(* ===================================================================== *)

Definition META_TAG_SYSTEM : string := "http://pcm.fhir.health.gov.il/cs/pcm-meta-tag".
Definition META_TAG_CATALOG : string := "catalog".
Definition META_TAG_INSTANCE : string := "instance".
Definition PCM_ORG_TYPE_SYSTEM : string := "http://fhir.health.gov.il/cs/pcm-org-type".
Definition PCM_ORG_TYPE_CODE : string := "pcm".

Module FhirResponse.
Inductive body :=
| NotFound
| IdMismatch
| Invalid (error : string)
| Forbidden (diagnostics : string)
| OfConsent (c : Consent.t)
| OfEndpoint (e : Endpoint.t)
| OfHealthcareService (h : HealthcareService.t).
(** [NotFound] is [{ error: 'Not Found' }], [IdMismatch] is
    [{ error: 'ID Mismatch' }], [Forbidden d] is the OperationOutcome with
    code [forbidden] and diagnostics [d]; the last three are resources. *)
Record t := mk { status : Z; json : body }.
End FhirResponse.

(** The responses of the routes below, for the resource type [A] a route
    answers with.  [NotFound] is [{ error: 'Not Found' }], [IdMismatch] is
    [{ error: 'ID Mismatch' }], [Invalid e] is [{ error: e }]; [Login d],
    [Forbidden d] and [Exception d] are OperationOutcomes with that issue
    code and the diagnostics [d]; [Resource a] is the resource itself and
    [Uncaught] is Express's answer to an exception nobody caught. *)
Module Reply.
Inductive body (A : Type) : Type :=
| NotFound
| IdMismatch
| Invalid (error : string)
| Login (diagnostics : string)
| Forbidden (diagnostics : string)
| Exception (diagnostics : string)
| Resource (a : A)
| Uncaught.
Arguments NotFound {A}.
Arguments IdMismatch {A}.
Arguments Invalid {A} error.
Arguments Login {A} diagnostics.
Arguments Forbidden {A} diagnostics.
Arguments Exception {A} diagnostics.
Arguments Resource {A} a.
Arguments Uncaught {A}.
Record t (A : Type) : Type := mk { status : Z; json : body A }.
Arguments mk {A} status json.
Arguments status {A} t.
Arguments json {A} t.
End Reply.

Module Routes.

(** [isPcmAdmin(req)]; [organization_id] is [req.user?.organization_id]. *)
Definition isPcmAdmin (st : FHIRStore.t) (organization_id : option string) : bool :=
  JS.truthy organization_id &&
  match FHIRStore.getOrganization st organization_id with
  | Some org =>
      existsb (fun t =>
                 existsb (fun c => str_is (Coding.system c) PCM_ORG_TYPE_SYSTEM
                                   && str_is (Coding.code c) PCM_ORG_TYPE_CODE)
                         (default [] (CodeableConcept.coding t)))
              (default [] (Organization.type org))
  | None => false
  end.

(** The template literal [`Organization/${callerOrgId}`]. *)
Definition orgRef (callerOrgId : option string) : string :=
  "Organization/" +:+ default "undefined" callerOrgId.

(** [a.reference && (a.reference.reference === `Organization/${callerOrgId}`
    || a.reference.reference === callerOrgId)]. *)
Definition refersTo (callerOrgId : option string) (a : Actor.t) : bool :=
  match Actor.reference a with
  | None => false
  | Some r =>
      str_is (Reference.reference r) (orgRef callerOrgId)
      || bool_decide (Reference.reference r = callerOrgId)
  end.

Definition isParty (callerOrgId : option string) (actors : list Actor.t) : bool :=
  existsb (refersTo callerOrgId) actors.

Definition isRequester (callerOrgId : option string) (actors : list Actor.t) : bool :=
  existsb (fun a => hasRole "IRCP" a && refersTo callerOrgId a) actors.

(** [updated.id && updated.id !== req.params.id]. *)
Definition idMismatch (bodyId : option string) (id : string) : bool :=
  JS.truthy bodyId && negb (str_is bodyId id).

(** [router.put('/Consent/:id')]; [id] is [req.params.id] and [updated]
    is [req.body]. *)
Definition putConsent (st : FHIRStore.t) (organization_id : option string)
    (id : string) (updated : Consent.t) : FhirResponse.t * FHIRStore.t :=
  match FHIRStore.getConsent st (Some id) with
  | None => (FhirResponse.mk 404 FhirResponse.NotFound, st)
  | Some existing =>
      when idMismatch (Consent.id updated) id
        leave (FhirResponse.mk 400 FhirResponse.IdMismatch, st) ;;
      let updated := Consent.set_id (Some id) updated in
      when isPcmAdmin st organization_id
        leave (FhirResponse.mk 200 (FhirResponse.OfConsent updated),
               FHIRStore.addConsent id updated st) ;;
      let callerOrgId := organization_id in
      let actors := Consent.actors existing in
      when negb (isParty callerOrgId actors)
        leave (FhirResponse.mk 403 (FhirResponse.Forbidden "Access denied to this consent"),
               st) ;;
      when negb (isRequester callerOrgId actors)
           || negb (str_is (Consent.status updated) "inactive")
        leave (FhirResponse.mk 403
                 (FhirResponse.Forbidden "Only requestor may set status=inactive"), st) ;;
      let existing := Consent.set_status (Some "inactive") existing in
      (FhirResponse.mk 200 (FhirResponse.OfConsent existing),
       FHIRStore.addConsent id existing st)
  end.

(** [router.post('/Endpoint')]; [resourceType] is the property of the
    body, [uuid] the next [uuidv4()]. *)
Definition postEndpoint (st : FHIRStore.t) (organization_id : option string)
    (uuid : string) (resourceType : option string) (endpoint : Endpoint.t)
    : FhirResponse.t * FHIRStore.t :=
  when negb (str_is resourceType "Endpoint")
    leave (FhirResponse.mk 400 (FhirResponse.Invalid "Invalid Endpoint resource"), st) ;;
  let denied :=
    if isPcmAdmin st organization_id then false
    else
      let managingOrgId :=
        getRefId (Endpoint.managingOrganization endpoint ≫= Reference.reference) in
      negb (JS.truthy managingOrgId)
      || negb (bool_decide (managingOrgId = organization_id)) in
  when denied
    leave (FhirResponse.mk 403
             (FhirResponse.Forbidden
                "Endpoint managingOrganization must match caller organization"), st) ;;
  let '(created, st') := FHIRStore.addEndpoint uuid endpoint st in
  (FhirResponse.mk 201 (FhirResponse.OfEndpoint created), st').

(** [router.put('/Endpoint/:id')].  [getRefId] answers [null] for a
    missing reference, which differs from every [organization_id]. *)
Definition putEndpoint (st : FHIRStore.t) (organization_id : option string)
    (id : string) (updated : Endpoint.t) : FhirResponse.t * FHIRStore.t :=
  match FHIRStore.getEndpoint st (Some id) with
  | None => (FhirResponse.mk 404 FhirResponse.NotFound, st)
  | Some existing =>
      let denied :=
        if isPcmAdmin st organization_id then false
        else
          match getRefId (Endpoint.managingOrganization existing ≫= Reference.reference) with
          | Some managingOrgId => negb (str_is organization_id managingOrgId)
          | None => true
          end in
      when denied
        leave (FhirResponse.mk 403 (FhirResponse.Forbidden "Access denied to this endpoint"),
               st) ;;
      when idMismatch (Endpoint.id updated) id
        leave (FhirResponse.mk 400 FhirResponse.IdMismatch, st) ;;
      let updated :=
        Endpoint.mk (Some id) (Endpoint.address updated)
                    (Endpoint.managingOrganization updated) in
      (FhirResponse.mk 200 (FhirResponse.OfEndpoint updated),
       FHIRStore.updateEndpoint id updated st)
  end.

(** ** [router.post('/HealthcareService')]

    The handler copies the body with object spreads, which copy the
    top-level properties only: the [meta] object and the [extension]
    array of the body stay shared between [incoming], [instance] and
    [canonical], and the handler assigns to [meta.tag] and pushes on the
    array.  The objects the handler can reach through more than one name
    live in a heap of cells; a resource names them by location. *)

Module Heap.
(** [metas]: the [tag] property of each meta object; [arrays]: the
    elements of each extension array. *)
Record t := mk {
  metas : list (option (array_or Coding.t));
  arrays : list (list Extension.t) }.

Definition empty : t := mk [] [].

Definition allocMeta (tag : option (array_or Coding.t)) (h : t) : nat * t :=
  (length (metas h), mk (metas h ++ [tag]) (arrays h)).
Definition allocArray (l : list Extension.t) (h : t) : nat * t :=
  (length (arrays h), mk (metas h) (arrays h ++ [l])).

Definition tagOf (m : nat) (h : t) : option (array_or Coding.t) :=
  mjoin (metas h !! m).
Definition setTag (m : nat) (tag : option (array_or Coding.t)) (h : t) : t :=
  mk (<[m := tag]> (metas h)) (arrays h).

Definition elements (a : nat) (h : t) : list Extension.t :=
  default [] (arrays h !! a).
Definition push (a : nat) (e : Extension.t) (h : t) : t :=
  mk (metas h) (<[a := (elements a h ++ [e])%list]> (arrays h)).
End Heap.

(** The [extension] property: an array in the heap or a single object. *)
Inductive extProp :=
| ExtArray (a : nat)
| ExtObject (e : Extension.t).

(** A HealthcareService object of the handler. *)
Record service := mkService {
  s_id : option string;
  s_active : option bool;
  s_name : option string;
  s_providedBy : option Reference.t;
  s_identifier : option (array_or Identifier.t);
  s_extension : option extProp;
  s_meta : option nat }.

(** The parsed request body: a tree, every object in a cell of its own. *)
Definition parse (body : HealthcareService.t) : service * Heap.t :=
  let '(m, h1) :=
    match HealthcareService.meta body with
    | Some meta => let '(l, h) := Heap.allocMeta (Meta.tag meta) Heap.empty in (Some l, h)
    | None => (None, Heap.empty)
    end in
  let '(e, h2) :=
    match HealthcareService.extension body with
    | Some (Arr l) => let '(a, h) := Heap.allocArray l h1 in (Some (ExtArray a), h)
    | Some (Obj x) => (Some (ExtObject x), h1)
    | None => (None, h1)
    end in
  (mkService (HealthcareService.id body) (HealthcareService.active body)
     (HealthcareService.name body) (HealthcareService.providedBy body)
     (HealthcareService.identifier body) e m, h2).

(** What a stored object serialises to, given the heap. *)
Definition read (h : Heap.t) (s : service) : HealthcareService.t :=
  HealthcareService.mk (s_id s) (s_active s) (s_name s) (s_providedBy s)
    (s_identifier s)
    (match s_extension s with
     | Some (ExtArray a) => Some (Arr (Heap.elements a h))
     | Some (ExtObject x) => Some (Obj x)
     | None => None
     end)
    ((fun m => Meta.mk (Heap.tagOf m h)) <$> s_meta s).

(** [ensureArray(instance.extension)]: the array itself when the property
    is an array, a new array otherwise. *)
Definition extensionsOf (s : service) (h : Heap.t) : nat * Heap.t :=
  match s_extension s with
  | Some (ExtArray a) => (a, h)
  | Some (ExtObject x) => Heap.allocArray [x] h
  | None => Heap.allocArray [] h
  end.

(** [o.meta = o.meta || {}]. *)
Definition metaOf (s : service) (h : Heap.t) : nat * Heap.t :=
  match s_meta s with
  | Some m => (m, h)
  | None => Heap.allocMeta None h
  end.

(** [o.meta.tag = ensureArray(o.meta.tag).filter(t => t.code !== drop);
    o.meta.tag.push(tag)]. *)
Definition retag (m : nat) (drop : string) (tag : Coding.t) (h : Heap.t) : Heap.t :=
  let kept := List.filter (fun t => negb (str_is (Coding.code t) drop))
                          (ensureArray (Heap.tagOf m h)) in
  Heap.setTag m (Some (Arr (kept ++ [tag]))) h.

Definition isCatalogTag (t : Coding.t) : bool :=
  str_is (Coding.system t) META_TAG_SYSTEM && str_is (Coding.code t) META_TAG_CATALOG.
Definition isInstanceTag (t : Coding.t) : bool :=
  str_is (Coding.system t) META_TAG_SYSTEM && str_is (Coding.code t) META_TAG_INSTANCE.

Definition catalogTag : Coding.t :=
  Coding.mk (Some META_TAG_SYSTEM) (Some META_TAG_CATALOG) (Some "Catalog").
Definition instanceTag : Coding.t :=
  Coding.mk (Some META_TAG_SYSTEM) (Some META_TAG_INSTANCE) (Some "Instance").

Definition basedOn (canonicalId : string) : Extension.t :=
  Extension.mk (Some EXT_BASED_ON_CANONICAL)
    (Some (Reference.mk (Some ("HealthcareService/" +:+ canonicalId)) None)).

(** [store.add] of a HealthcareService: the key under which it is set. *)
Definition keyOf (uuid : string) (id : option string) : string :=
  if JS.truthy id then default uuid id else uuid.

(** The three [uuidv4()] values the handler may draw, by their use. *)
Record uuids := mkUuids { forIdentifier : string; forCanonical : string; forInstance : string }.

(** The non-admin, non-catalog branch from [const instance = { ...incoming }]
    on: the canonical object if one is created, the instance object, and
    the heap when the handler ends. *)
Definition createInstance (callerOrgId : string) (u : uuids)
    (incoming : service) (h0 : Heap.t) : option service * service * Heap.t :=
  let instance :=
    mkService (s_id incoming) (s_active incoming) (s_name incoming)
      (Some (Reference.mk (Some ("Organization/" +:+ callerOrgId)) None))
      (s_identifier incoming) (s_extension incoming) (s_meta incoming) in
  let '(extensions, h1) := extensionsOf instance h0 in
  let basedOnExt :=
    List.find (fun e => str_is (Extension.url e) EXT_BASED_ON_CANONICAL)
              (Heap.elements extensions h1) in
  let '(canonical, h5) :=
    match basedOnExt with
    | Some _ => (None, h1)
    | None =>
        let '(cmeta, h2) := metaOf instance h1 in
        let h3 := retag cmeta META_TAG_INSTANCE catalogTag h2 in
        let catalogIdentifier :=
          match s_identifier instance with
          | Some (Arr (x :: _)) => Some x
          | _ => None
          end in
        let identifier :=
          match catalogIdentifier with
          | Some _ => s_identifier instance
          | None =>
              Some (Arr [Identifier.mk (Some CATALOG_ID_SYSTEM)
                                       (Some ("PCM-CAT-" +:+ forIdentifier u))])
          end in
        let canonical :=
          mkService (Some (forCanonical u)) (Some true) (s_name instance) None
            identifier (s_extension instance) (Some cmeta) in
        let h4 := Heap.push extensions (basedOn (forCanonical u)) h3 in
        (Some canonical, h4)
    end in
  let active := Some (default false (s_active instance)) in
  let '(imeta, h6) := metaOf instance h5 in
  let h7 := retag imeta META_TAG_CATALOG instanceTag h6 in
  let instance :=
    mkService (Some (keyOf (forInstance u) (s_id instance))) active (s_name instance)
      (s_providedBy instance) (s_identifier instance)
      (Some (ExtArray extensions)) (Some imeta) in
  (canonical, instance, h7).

(** [router.post('/HealthcareService')]. *)
Definition postHealthcareService (st : FHIRStore.t) (organization_id : option string)
    (u : uuids) (resourceType : option string) (incoming : HealthcareService.t)
    : FhirResponse.t * FHIRStore.t :=
  when negb (str_is resourceType "HealthcareService")
    leave (FhirResponse.mk 400 (FhirResponse.Invalid "Invalid HealthcareService resource"),
           st) ;;
  let asIs :=
    let key := keyOf (forInstance u) (HealthcareService.id incoming) in
    let created :=
      HealthcareService.mk (Some key) (HealthcareService.active incoming)
        (HealthcareService.name incoming) (HealthcareService.providedBy incoming)
        (HealthcareService.identifier incoming) (HealthcareService.extension incoming)
        (HealthcareService.meta incoming) in
    (FhirResponse.mk 201 (FhirResponse.OfHealthcareService created),
     FHIRStore.addHealthcareService key created st) in
  when isPcmAdmin st organization_id leave asIs ;;
  let metaTags := ensureArray (HealthcareService.meta incoming ≫= Meta.tag) in
  let isCatalog := existsb isCatalogTag metaTags in
  when isCatalog leave asIs ;;
  when negb (JS.truthy organization_id)
    leave (FhirResponse.mk 403 (FhirResponse.Forbidden "Caller has no mapped Organization"),
           st) ;;
  let callerOrgId := default "" organization_id in
  let '(body, h0) := parse incoming in
  let '(canonical, instance, h) := createInstance callerOrgId u body h0 in
  let st1 :=
    match canonical with
    | Some c => FHIRStore.addHealthcareService (forCanonical u) (read h c) st
    | None => st
    end in
  let created := read h instance in
  (FhirResponse.mk 201 (FhirResponse.OfHealthcareService created),
   FHIRStore.addHealthcareService (default "" (HealthcareService.id created)) created st1).

(** ** The bearer guard and the other write routes *)

(** [requireBearer]: the guard in front of every route below
    [router.use(requireBearer)]; the early response or [req.user]. *)
Definition requireBearer {A} (tokens : TokenStore) (authorization : option string)
    (now : Z) : Reply.t A + Token.t :=
  let rejected d := inl (Reply.mk 401 (Reply.Login d)) in
  match authorization with
  | None => rejected "Missing Authorization Header"
  | Some authHeader =>
      when negb (JS.startsWith "Bearer " authHeader)
        leave rejected "Missing Authorization Header" ;;
      match JS.split " " authHeader !! 1%nat ≫= (fun token => tokens !! token) with
      | None => rejected "Invalid or Expired Token"
      | Some tokenData =>
          when Token.exp tokenData <? now leave rejected "Invalid or Expired Token" ;;
          inr tokenData
      end
  end.

(** [router.put('/Organization/:id')].  The stored resource is written
    under [existing.id]. *)
Definition putOrganization (st : FHIRStore.t) (organization_id : option string)
    (id : string) (updated : Organization.t)
    : Reply.t Organization.t * FHIRStore.t :=
  when negb (isPcmAdmin st organization_id) && negb (str_is organization_id id)
    leave (Reply.mk 403 (Reply.Forbidden "Access denied"), st) ;;
  match FHIRStore.getOrganization st (Some id) with
  | None => (Reply.mk 404 Reply.NotFound, st)
  | Some existing =>
      when idMismatch (Organization.id updated) id
        leave (Reply.mk 400 Reply.IdMismatch, st) ;;
      let updated :=
        if isPcmAdmin st organization_id then
          Organization.mk (Organization.id existing) (Organization.active updated)
            (Organization.name updated) (Organization.type updated)
            (Organization.partOf updated) (Organization.endpoint updated)
        else
          Organization.mk (Organization.id existing)
            (if bool_decide (Organization.active existing = Some false)
                && bool_decide (Organization.active updated = Some true)
             then Some false else Organization.active updated)
            (Organization.name updated) (Organization.type existing)
            (Organization.partOf existing) (Organization.endpoint updated) in
      match FHIRStore.updateOrganization updated st with
      | None => (Reply.mk 500 Reply.Uncaught, st)
      | Some st' => (Reply.mk 200 (Reply.Resource updated), st')
      end
  end.

(** [providedById !== req.user.organization_id] negated: [getRefId] answers
    a string or [null], the caller's organization is a string or
    [undefined]. *)
Definition sameOrganization (refId organization_id : option string) : bool :=
  match refId, organization_id with
  | Some a, Some b => String.eqb a b
  | _, _ => false
  end.

(** [router.put('/HealthcareService/:id')]. *)
Definition putHealthcareService (st : FHIRStore.t) (organization_id : option string)
    (id : string) (updated : HealthcareService.t)
    : Reply.t HealthcareService.t * FHIRStore.t :=
  match FHIRStore.getHealthcareService st (Some id) with
  | None => (Reply.mk 404 Reply.NotFound, st)
  | Some existing =>
      let stored providedBy :=
        let updated :=
          HealthcareService.mk (Some id) (HealthcareService.active updated)
            (HealthcareService.name updated) providedBy
            (HealthcareService.identifier updated) (HealthcareService.extension updated)
            (HealthcareService.meta updated) in
        (Reply.mk 200 (Reply.Resource updated),
         FHIRStore.addHealthcareService id updated st) in
      if isPcmAdmin st organization_id then
        when idMismatch (HealthcareService.id updated) id
          leave (Reply.mk 400 Reply.IdMismatch, st) ;;
        stored (HealthcareService.providedBy updated)
      else
        let metaTags := ensureArray (HealthcareService.meta existing ≫= Meta.tag) in
        when existsb isCatalogTag metaTags
          leave (Reply.mk 403 (Reply.Forbidden "Catalog services are managed by PCM"), st) ;;
        let providedById :=
          getRefId (HealthcareService.providedBy existing ≫= Reference.reference) in
        when negb (sameOrganization providedById organization_id)
          leave (Reply.mk 403 (Reply.Forbidden "Access denied to this service instance"),
                 st) ;;
        when idMismatch (HealthcareService.id updated) id
          leave (Reply.mk 400 Reply.IdMismatch, st) ;;
        stored (HealthcareService.providedBy existing)
  end.

(** The [uuidv4()] values [POST /Consent] draws, in the order of the
    calls; [store.add] draws the third only if the first is empty. *)
Record consentUuids := mkConsentUuids {
  forId : string;
  forBusinessId : string;
  forAdd : string }.

Definition requesterRole : CodeableConcept.t :=
  CodeableConcept.mk
    (Some [Coding.mk (Some "http://terminology.hl7.org/CodeSystem/v3-ParticipationType")
                     (Some "IRCP") None]).

(** [router.post('/Consent')]; [consentReq] is [req.body]. *)
Definition postConsent (st : FHIRStore.t) (organization_id : option string)
    (u : consentUuids) (consentReq : Consent.t) : Reply.t Consent.t * FHIRStore.t :=
  when negb (bool_decide (is_Some (Consent.patient consentReq ≫= Consent.identifier_of)))
    leave (Reply.mk 400 (Reply.Invalid "Missing patient identifier"), st) ;;
  when negb (JS.truthy organization_id)
    leave (Reply.mk 403
             (Reply.Forbidden "Client authentication does not map to an Organization"),
           st) ;;
  match FHIRStore.getOrganization st organization_id with
  | None =>
      (Reply.mk 500 (Reply.Exception "Mapped Organization not found in internal store"),
       st)
  | Some actorOrg =>
      let key := keyOf (forAdd u) (Some (forId u)) in
      let newConsent :=
        Consent.mk (Some key) (Some "proposed")
          (Some [Identifier.mk (Some CONSENT_ID_SYSTEM) (Some (forBusinessId u))])
          (Consent.patient consentReq)
          (Some (Consent.mkProvision
                   (Some [Actor.mk (Some requesterRole)
                            (Some (Reference.mk
                                     (Some (orgRef (Organization.id actorOrg)))
                                     (Organization.name actorOrg)))])))
          (Consent.extension consentReq) in
      (Reply.mk 201 (Reply.Resource newConsent), FHIRStore.addConsent key newConsent st)
  end.

(** [router.get('/Consent/:id')]. *)
Definition getConsent (st : FHIRStore.t) (organization_id : option string)
    (id : string) : Reply.t Consent.t :=
  match FHIRStore.getConsent st (Some id) with
  | None => Reply.mk 404 Reply.NotFound
  | Some consent =>
      when isPcmAdmin st organization_id leave Reply.mk 200 (Reply.Resource consent) ;;
      when negb (JS.truthy organization_id)
        leave Reply.mk 403 (Reply.Forbidden "Unidentified Caller") ;;
      when negb (isParty organization_id (Consent.actors consent))
        leave Reply.mk 404 Reply.NotFound ;;
      Reply.mk 200 (Reply.Resource consent)
  end.

(** The write requests on Organization, Endpoint, HealthcareService and
    Consent, each with what its handler reads of the request. *)
Inductive request :=
| PutOrganization (id : string) (body : Organization.t)
| PostEndpoint (uuid : string) (resourceType : option string) (body : Endpoint.t)
| PutEndpoint (id : string) (body : Endpoint.t)
| PostHealthcareService (u : uuids) (resourceType : option string)
    (body : HealthcareService.t)
| PutHealthcareService (id : string) (body : HealthcareService.t)
| PostConsent (u : consentUuids) (body : Consent.t)
| PutConsent (id : string) (body : Consent.t).

(** The store after the router has served a request of a caller whose
    token names [organization_id]. *)
Definition serve (st : FHIRStore.t) (organization_id : option string)
    (r : request) : FHIRStore.t :=
  match r with
  | PutOrganization id body => snd (putOrganization st organization_id id body)
  | PostEndpoint uuid resourceType body =>
      snd (postEndpoint st organization_id uuid resourceType body)
  | PutEndpoint id body => snd (putEndpoint st organization_id id body)
  | PostHealthcareService u resourceType body =>
      snd (postHealthcareService st organization_id u resourceType body)
  | PutHealthcareService id body => snd (putHealthcareService st organization_id id body)
  | PostConsent u body => snd (postConsent st organization_id u body)
  | PutConsent id body => snd (putConsent st organization_id id body)
  end.

(** A series of requests, each with the organization of its caller. *)
Definition serveAll (st : FHIRStore.t) (calls : list (option string * request))
    : FHIRStore.t :=
  fold_left (fun st call => serve st (fst call) (snd call)) calls st.

End Routes.

(* ===================================================================== *)
(** * [routes/ui.js]: approval of a consent *)
(* ===================================================================== *)

Module Ui.

(** [Redirect l] is [res.redirect(l)], [NotFound] is the 404 text,
    [ApprovalFailed] is the 500 of the [catch] block and [Uncaught] the 500
    of an exception that no [catch] block sees. *)
Inductive response :=
| Redirect (location : string)
| NotFound
| ApprovalFailed
| Uncaught.

(** [t.coding.some(c => c.code === 'source')] over the types of an
    Organization, as [some] runs it: the first type that matches ends the
    search, a type without [coding] before it throws ([None]). *)
Fixpoint someSource (types : list CodeableConcept.t) : option bool :=
  match types with
  | [] => Some false
  | t :: rest =>
      match CodeableConcept.coding t with
      | None => None
      | Some codes =>
          if existsb (fun c => str_is (Coding.code c) "source") codes then Some true
          else someSource rest
      end
  end.

(** [org.type && org.type.some(...)]. *)
Definition isSource (org : Organization.t) : option bool :=
  match Organization.type org with
  | None => Some false
  | Some types => someSource types
  end.

(** [orgs.filter(org => ...)]; [None] when the test throws on some
    Organization. *)
Fixpoint sourcesOf (orgs : list Organization.t) : option (list Organization.t) :=
  match orgs with
  | [] => Some []
  | org :: rest =>
      match isSource org, sourcesOf rest with
      | Some true, Some l => Some (org :: l)
      | Some false, Some l => Some l
      | _, _ => None
      end
  end.

(** The actor [handleApproval] builds for a data source. *)
Definition custodian (ds : Organization.t) : Actor.t :=
  Actor.mk
    (Some (CodeableConcept.mk
             (Some [Coding.mk
                      (Some "http://terminology.hl7.org/CodeSystem/v3-ParticipationType")
                      (Some "CST") None])))
    (Some (Reference.mk (Some (Routes.orgRef (Organization.id ds)))
                        (Organization.name ds))).

(** [a.reference.reference] of each actor; [None] when an actor has no
    [reference]. *)
Definition referencesOf (actors : list Actor.t) : option (list (option string)) :=
  mapM (fun a => Reference.reference <$> Actor.reference a) actors.

Definition with_actors (actors : list Actor.t) (c : Consent.t) : Consent.t :=
  Consent.mk (Consent.id c) (Consent.status c) (Consent.identifier c)
    (Consent.patient c) (Some (Consent.mkProvision (Some actors))) (Consent.extension c).

(** [handleApproval(req, res)]; [id] is [req.params.id] and [action] is
    [req.body.action].  The handler assigns to the stored object, so each
    assignment is visible in the store at once, also when a later
    statement throws. *)
Definition handleApproval (st : FHIRStore.t) (id : string) (action : option string)
    : response * FHIRStore.t :=
  match FHIRStore.getConsent st (Some id) with
  | None => (NotFound, st)
  | Some consent =>
      if str_is action "decline" then
        let consent := Consent.set_status (Some "rejected") consent in
        let st1 := FHIRStore.addConsent id consent st in
        match FHIRStore.updateConsent consent st1 with
        | Some st2 => (Redirect "/ui", st2)
        | None => (Uncaught, st1)
        end
      else
        let consent := Consent.set_status (Some "active") consent in
        let st1 := FHIRStore.addConsent id consent st in
        match sourcesOf (FHIRStore.getAllOrganization st1) with
        | None => (Uncaught, st1)
        | Some sources =>
            let newActors := List.map custodian sources in
            let actors := Consent.actors consent in
            let consent := with_actors actors consent in
            let st2 := FHIRStore.addConsent id consent st1 in
            match referencesOf actors with
            | None => (Uncaught, st2)
            | Some existingRefs =>
                let added :=
                  List.filter
                    (fun a => negb (bool_decide (actorRef a ∈ existingRefs)))
                    newActors in
                let consent := with_actors (actors ++ added) consent in
                let st3 := FHIRStore.addConsent id consent st2 in
                match FHIRStore.updateConsent consent st3 with
                | Some st4 => (Redirect "/ui", st4)
                | None => (ApprovalFailed, st3)
                end
            end
        end
  end.

End Ui.

(* ===================================================================== *)
(** * [routes/fhir.js]: the search of consents *)
(* ===================================================================== *)

(** A [searchset] Bundle: [{ resourceType: 'Bundle', type: 'searchset',
    total, entry }], with the entries of [searchExpanded]:
    [{ resource, search: { mode } }]. *)
Module Bundle.
Record entry := mkEntry { resource : FHIRStore.resource; mode : string }.
Record t := mk { total : nat; entries : list entry }.
End Bundle.

Module ConsentSearch.

(** [ensureArray(value)] on a member of [req.query]: a string, of which
    the empty one is falsy, or an array of strings. *)
Definition ensureArray (value : option (array_or string)) : list string :=
  match value with
  | Some (Arr l) => l
  | Some (Obj s) => if JS.truthy (Some s) then [s] else []
  | None => []
  end.

(** [set.add(x)] on a [Set], kept in the order of insertion. *)
Definition add (x : string) (set : list string) : list string :=
  if bool_decide (x ∈ set) then set else (set ++ [x])%list.

(** [const id = getRefId(ref); if (id) set.add(id)]. *)
Definition addRefId (ref : option string) (set : list string) : list string :=
  match getRefId ref with
  | Some id => if JS.truthy (Some id) then add id set else set
  | None => set
  end.

Definition consentOf (e : Bundle.entry) : option Consent.t :=
  match Bundle.resource e with
  | FHIRStore.RConsent c => Some c
  | _ => None
  end.

(** [visibleConsents]: the Consents among the entries that name the
    caller's organization in an actor. *)
Definition visibleConsents (callerOrgId : option string) (entries : list Bundle.entry)
    : list Consent.t :=
  List.filter (fun consent => Routes.isParty callerOrgId (Consent.actors consent))
              (omap consentOf entries).

(** [allowedOrgIds] after the loop over [visibleConsents]. *)
Definition actorOrgIds (consents : list Consent.t) : list string :=
  fold_left (fun set consent =>
               fold_left (fun set actor => addRefId (actorRef actor) set)
                         (Consent.actors consent) set)
            consents [].

(** The two Sets [allowedOrgIds] and [allowedEndpointIds]. *)
Record allowed := mkAllowed { orgIds : list string; endpointIds : list string }.

(** The callback of [allowedOrgIds.forEach], on the member [orgId]. *)
Definition visit (st : FHIRStore.t) (iterateIncludes : list string) (orgId : string)
    (a : allowed) : allowed :=
  match FHIRStore.getOrganization st (Some orgId) with
  | None => a
  | Some org =>
      let endpoints :=
        if bool_decide ("Organization:endpoint" ∈ iterateIncludes)
        then fold_left (fun set ep => addRefId (Reference.reference ep) set)
                       (default [] (Organization.endpoint org)) (endpointIds a)
        else endpointIds a in
      let orgs :=
        if bool_decide ("Organization:partof" ∈ iterateIncludes)
        then addRefId (Organization.partOf org ≫= Reference.reference) (orgIds a)
        else orgIds a in
      mkAllowed orgs endpoints
  end.

(** [allowedOrgIds.forEach(callback)]: the members are visited in the
    order of insertion, those the callback adds included.  [i] is the
    position of the next member; [fuel] bounds the number of visits. *)
Fixpoint forEach (fuel : nat) (st : FHIRStore.t) (iterateIncludes : list string)
    (i : nat) (a : allowed) : allowed :=
  match fuel with
  | O => a
  | S fuel =>
      match orgIds a !! i with
      | None => a
      | Some orgId => forEach fuel st iterateIncludes (S i) (visit st iterateIncludes orgId a)
      end
  end.

(** [includes.includes('Consent:actor') || iterateIncludes.length > 0]. *)
Definition expands (include iterate : option (array_or string)) : bool :=
  bool_decide ("Consent:actor" ∈ ensureArray include)
  || negb (bool_decide (ensureArray iterate = [])).

(** The two Sets when the entries are filtered.  A visit adds at most one
    member to [allowedOrgIds], and only the visit of a stored Organization
    adds one: the Set never has more members than the fuel given here. *)
Definition allowedIds (st : FHIRStore.t) (include iterate : option (array_or string))
    (visible : list Consent.t) : allowed :=
  let start := mkAllowed (actorOrgIds visible) [] in
  if expands include iterate
  then forEach (length (orgIds start) + size (FHIRStore.Organization st)) st
               (ensureArray iterate) 0 start
  else start.

(** The filter of [restrictedEntries]. *)
Definition permitted (visibleConsentIds : list (option string)) (a : allowed)
    (e : Bundle.entry) : bool :=
  match Bundle.resource e with
  | FHIRStore.RConsent c => bool_decide (Consent.id c ∈ visibleConsentIds)
  | FHIRStore.ROrganization o =>
      match Organization.id o with
      | Some id => bool_decide (id ∈ orgIds a)
      | None => false
      end
  | FHIRStore.REndpoint ep =>
      match Endpoint.id ep with
      | Some id => bool_decide (id ∈ endpointIds a)
      | None => false
      end
  | _ => false
  end.

(** [router.get('/Consent')]; [include] and [iterate] are
    [req.query._include] and [req.query['_include:iterate']], and [entries]
    is what [store.searchExpanded('Consent', req.query)] returns. *)
Definition getConsents (st : FHIRStore.t) (organization_id : option string)
    (include iterate : option (array_or string)) (entries : list Bundle.entry)
    : Reply.t Bundle.t :=
  when negb (JS.truthy organization_id)
    leave Reply.mk 403 (Reply.Forbidden "Unidentified Caller") ;;
  when Routes.isPcmAdmin st organization_id
    leave Reply.mk 200 (Reply.Resource (Bundle.mk (length entries) entries)) ;;
  let callerOrgId := organization_id in
  let visible := visibleConsents callerOrgId entries in
  let visibleConsentIds := List.map Consent.id visible in
  let a := allowedIds st include iterate visible in
  let restrictedEntries := List.filter (permitted visibleConsentIds a) entries in
  Reply.mk 200 (Reply.Resource (Bundle.mk (length restrictedEntries) restrictedEntries)).

(** What the caller may see, by the references of the store. *)
Section Visible.
Variable st : FHIRStore.t.
Variable callerOrgId : option string.
Variables include iterate : option (array_or string).
Variable entries : list Bundle.entry.

(** An actor of a consent of the caller's, or, when the search iterates
    over [Organization:partof], the parent of such an organization. *)
Inductive allowedOrg : string → Prop :=
| allowed_actor consent actor id :
    consent ∈ visibleConsents callerOrgId entries →
    actor ∈ Consent.actors consent →
    getRefId (actorRef actor) = Some id → JS.truthy (Some id) = true →
    allowedOrg id
| allowed_parent child org id :
    allowedOrg child →
    expands include iterate = true →
    "Organization:partof" ∈ ensureArray iterate →
    FHIRStore.Organization st !! child = Some org →
    getRefId (Organization.partOf org ≫= Reference.reference) = Some id →
    JS.truthy (Some id) = true →
    allowedOrg id.

(** An Endpoint of such an organization, when the search iterates over
    [Organization:endpoint]. *)
Definition allowedEndpoint (id : string) : Prop :=
  expands include iterate = true
  ∧ "Organization:endpoint" ∈ ensureArray iterate
  ∧ ∃ owner org ep,
      allowedOrg owner
      ∧ FHIRStore.Organization st !! owner = Some org
      ∧ ep ∈ default [] (Organization.endpoint org)
      ∧ getRefId (Reference.reference ep) = Some id
      ∧ JS.truthy (Some id) = true.

(** The members that a visit of [org] adds to the two Sets are in them. *)
Definition closedAt (org : Organization.t) (a : allowed) : Prop :=
  ("Organization:partof" ∈ ensureArray iterate →
   ∀ id, getRefId (Organization.partOf org ≫= Reference.reference) = Some id →
         JS.truthy (Some id) = true → id ∈ orgIds a)
  ∧ ("Organization:endpoint" ∈ ensureArray iterate →
     ∀ ep id, ep ∈ default [] (Organization.endpoint org) →
              getRefId (Reference.reference ep) = Some id →
              JS.truthy (Some id) = true → id ∈ endpointIds a).

(** The two Sets before the visit of member [i] of [allowedOrgIds]. *)
Definition invariant (i : nat) (a : allowed) : Prop :=
  NoDup (orgIds a)
  ∧ (i ≤ length (orgIds a))%nat
  ∧ (∀ id, id ∈ actorOrgIds (visibleConsents callerOrgId entries) → id ∈ orgIds a)
  ∧ (∀ id, id ∈ orgIds a → allowedOrg id)
  ∧ (∀ id, id ∈ endpointIds a → allowedEndpoint id)
  ∧ (∀ j k org, (j < i)%nat → orgIds a !! j = Some k →
                FHIRStore.Organization st !! k = Some org → closedAt org a).

(** A bound of the visits that are left: the members not yet visited, and
    the stored Organizations not yet visited, which may each add one. *)
Definition visitsLeft (i : nat) (a : allowed) : nat :=
  (length (orgIds a) - i
   + size (dom (FHIRStore.Organization st) ∖ list_to_set (take i (orgIds a))))%nat.

Definition visible (e : Bundle.entry) : Prop :=
  match Bundle.resource e with
  | FHIRStore.RConsent c => Routes.isParty callerOrgId (Consent.actors c) = true
  | FHIRStore.ROrganization o => ∃ id, Organization.id o = Some id ∧ allowedOrg id
  | FHIRStore.REndpoint ep => ∃ id, Endpoint.id ep = Some id ∧ allowedEndpoint id
  | _ => False
  end.
End Visible.

End ConsentSearch.

(* ===================================================================== *)
(** * Discovery: the SMART configuration and the adapter's token request *)
(* ===================================================================== *)

Module Discovery.

(** [router.get('/.well-known/smart-configuration')] of [routes/fhir.js],
    by the two members the clients read; [protocol] is [req.protocol] and
    [host] is [req.get('host')]. *)
Definition smartConfiguration (protocol host : string) : PEP.data :=
  let baseUrl := protocol +:+ "://" +:+ host in
  PEP.SmartConfiguration (Some (baseUrl +:+ "/token")) (Some (baseUrl +:+ "/introspect")).

(** [CLIENT_ID] of the adapter. *)
Definition CLIENT_ID : string :=
  "http://pcm.fhir.health.gov.il/Organization/org-vaccine-repo".

(** The payload that [generateClientAssertion(audience)] of the adapter
    signs, by the claims [issueToken] reads. *)
Definition generateClientAssertion (audience : string) : Assertion.t :=
  Assertion.mk (Some CLIENT_ID) (Some CLIENT_ID) (Some (Assertion.AudString audience)) None.

(** The request that the POST of [getIntrospectionToken] is for PCM: the
    form body with the signed [assertion] and the [resource], received
    under [host] over a connection that TLS has authorized. *)
Definition tokenRequest (host : string) (peer : option (list Z))
    (assertion resource : string) : TokenRequest.t :=
  TokenRequest.mk true peer host (Some "client_credentials")
    (Some "urn:ietf:params:oauth:client-assertion-type:jwt-bearer")
    (Some assertion) (Some resource) (Some "introspection").

End Discovery.

(* ===================================================================== *)
(** * [bootstrap.js]: the seeded store, and sample inputs *)
(* ===================================================================== *)

Module Seed.

Definition orgType (code : string) : CodeableConcept.t :=
  CodeableConcept.mk (Some [Coding.mk (Some PCM_ORG_TYPE_SYSTEM) (Some code) None]).
Definition ref (r : string) : Reference.t := Reference.mk (Some r) None.

Definition orgMoh : Organization.t :=
  Organization.mk (Some "org-moh-parent") (Some true) (Some "Ministry of Health")
    (Some [orgType "parent-org"]) None None.
Definition endpointVaccine : Endpoint.t :=
  Endpoint.mk (Some "endpoint-vaccine-repo") (Some "https://ds-gateway:8080/fhir")
    (Some (ref "Organization/org-vaccine-repo")).
Definition orgVaccineRepo : Organization.t :=
  Organization.mk (Some "org-vaccine-repo") (Some true) (Some "Vaccinations Repository")
    (Some [orgType "source"]) (Some (ref "Organization/org-moh-parent"))
    (Some [ref "Endpoint/endpoint-vaccine-repo"]).
Definition orgHospitalA : Organization.t :=
  Organization.mk (Some "org-hospital-a-parent") (Some true) (Some "Hospital A")
    (Some [orgType "parent-org"]) None None.
Definition orgDoctorApp : Organization.t :=
  Organization.mk (Some "org-sp") (Some true) (Some "Doctor's Consultation")
    (Some [orgType "service-provider";
           CodeableConcept.mk
             (Some [Coding.mk (Some "http://fhir.health.gov.il/cs/institution-type-moh")
                              (Some "1") (Some "General Hospital")])])
    (Some (ref "Organization/org-hospital-a-parent")) None.
Definition orgPcm : Organization.t :=
  Organization.mk (Some "org-pcm-system") (Some true)
    (Some "Patient Consent Manager (PCM)") (Some [orgType "pcm"]) None
    (Some [ref "Endpoint/endpoint-pcm-system"]).
Definition endpointPcmSystem : Endpoint.t :=
  Endpoint.mk (Some "endpoint-pcm-system") (Some "https://pcm.fhir.health.gov.il/r4")
    (Some (ref "Organization/org-pcm-system")).
Definition serviceGP : HealthcareService.t :=
  HealthcareService.mk (Some "service-1") (Some true)
    (Some "General Practice / Telehealth")
    (Some (ref "Organization/org-hospital-a-parent")) None None None.
Definition orgHospitalB : Organization.t :=
  Organization.mk (Some "org-hospital-b-parent") (Some true) (Some "Hospital B")
    (Some [orgType "parent-org"]) None None.
Definition orgHospitalBSP : Organization.t :=
  Organization.mk (Some "org-hospital-b-sp") (Some true)
    (Some "Hospital B - Doctor's Portal") (Some [orgType "service-provider"])
    (Some (ref "Organization/org-hospital-b-parent")) None.

(** The store after [bootstrap()]. *)
Definition bootstrap : FHIRStore.t :=
  FHIRStore.mk
    (<["org-hospital-b-sp" := orgHospitalBSP]>
     (<["org-hospital-b-parent" := orgHospitalB]>
     (<["org-pcm-system" := orgPcm]>
     (<["org-sp" := orgDoctorApp]>
     (<["org-hospital-a-parent" := orgHospitalA]>
     (<["org-vaccine-repo" := orgVaccineRepo]>
     (<["org-moh-parent" := orgMoh]> ∅)))))))
    (<["endpoint-pcm-system" := endpointPcmSystem]>
     (<["endpoint-vaccine-repo" := endpointVaccine]> ∅))
    (<["service-1" := serviceGP]> ∅)
    ∅
    ∅.

Definition actor (role org : string) : Actor.t :=
  Actor.mk (Some (CodeableConcept.mk
                    (Some [Coding.mk
                             (Some "http://terminology.hl7.org/CodeSystem/v3-ParticipationType")
                             (Some role) None])))
           (Some (ref ("Organization/" +:+ org))).

Definition nationalId (value : string) : Consent.Patient :=
  Consent.mkPatient
    (Some (Obj (Identifier.mk (Some "http://fhir.health.gov.il/identifier/il-national-id")
                              (Some value)))).

(** A consent as [POST /Consent] and the approval leave it. *)
Definition consent (id status patientId : string) (actors : list Actor.t) : Consent.t :=
  Consent.mk (Some id) (Some status)
    (Some [Identifier.mk (Some CONSENT_ID_SYSTEM) (Some ("biz-" +:+ id))])
    (Some (nationalId patientId))
    (Some (Consent.mkProvision (Some actors)))
    (Some [Extension.mk (Some EXT_PCM_SERVICE) (Some (ref "HealthcareService/service-1"))]).

(** A platform whose certificate files all hold the body ["YWJj"], which
    decodes every assertion to [a] and accepts every signature. *)
Definition certificate : string :=
  "-----BEGIN CERTIFICATE-----" +:+ String "010" ("YWJj" +:+ String "010"
    ("-----END CERTIFICATE-----" +:+ String "010" EmptyString)).

Definition platform (a : Assertion.t) : Platform :=
  {| jwt_decode := fun _ => Decoded a;
     jwt_verify := fun _ _ _ => true;
     readFileSync := fun _ => Some certificate |}.

Definition assertion (clientId : string) (ext : option Assertion.b2b) : Assertion.t :=
  Assertion.mk (Some clientId) (Some clientId)
    (Some (Assertion.AudString "https://pcm-core:3000/token")) ext.

Definition b2b (org : string) (consents : list string) : Assertion.b2b :=
  Assertion.mkB2B (Some ("http://pcm-url-base/Organization/" +:+ org))
    (Some (List.map (fun c => "http://pcm-url-base/Consent/" +:+ c) consents)).

Definition tokenRequest (resource : string) (peer : option (list Z)) : TokenRequest.t :=
  TokenRequest.mk true peer "pcm-core:3000" (Some "client_credentials")
    (Some "urn:ietf:params:oauth:client-assertion-type:jwt-bearer")
    (Some "header.payload.signature") (Some resource) None.

Definition SP : string := "http://pcm.fhir.health.gov.il/Organization/org-sp".
Definition DS_ADDRESS : string := "https://ds-gateway:8080/fhir".

End Seed.

(* ===================================================================== *)
(** * Predicates of the specification *)
(* ===================================================================== *)

(** The [active] member of the body of an introspection response. *)
Definition activeOf (r : Response.t) : bool :=
  match Response.json r with
  | Response.Claims t => Token.active t
  | _ => false
  end.

(** Every record of the token store was written by [issueToken], which
    sets [active: true]. *)
Definition allActive (tokens : TokenStore) : Prop :=
  ∀ k t, tokens !! k = Some t → Token.active t = true.

(** An organization appears in [provision.actor]: some actor's reference
    ends in its id. *)
Definition appearsIn (orgId : string) (actors : list Actor.t) : Prop :=
  ∃ a, In a actors ∧ lastSegment (actorRef a) = Some orgId.

(** [address] is the address of an Endpoint that an Organization named by
    a CST actor lists among its endpoints. *)
Definition custodianEndpoint (st : FHIRStore.t) (actors : list Actor.t)
    (address : string) : Prop :=
  ∃ actor org eps epRef endpoint,
    In actor actors ∧ hasRole "CST" actor = true
    ∧ FHIRStore.getOrganization st (lastSegment (actorRef actor)) = Some org
    ∧ Organization.endpoint org = Some eps ∧ In epRef eps
    ∧ FHIRStore.getEndpoint st (lastSegment (Reference.reference epRef)) = Some endpoint
    ∧ Endpoint.address endpoint = Some address.

(** No two stored Endpoints have the same address. *)
Definition uniqueAddresses (m : gmap string Endpoint.t) : Prop :=
  ∀ i j e1 e2 a,
    m !! i = Some e1 → m !! j = Some e2 →
    Endpoint.address e1 = Some a → Endpoint.address e2 = Some a → i = j.

(** No Endpoint stored under another id than [key] has this address. *)
Definition addressFree (m : gmap string Endpoint.t) (key : string)
    (address : option string) : Prop :=
  ∀ j e a, m !! j = Some e → j ≠ key → address = Some a → Endpoint.address e ≠ Some a.


(** The same Endpoint with another [address]. *)
Definition with_address (a : option string) (e : Endpoint.t) : Endpoint.t :=
  Endpoint.mk (Endpoint.id e) a (Endpoint.managingOrganization e).

(** The same token record with another [scope]. *)
Definition with_scope (scope : string) (t : Token.t) : Token.t :=
  Token.mk (Token.active t) (Token.sub t) scope (Token.iss t) (Token.aud t)
    (Token.client_id t) (Token.organization_id t) (Token.patient t)
    (Token.fhirContext t) (Token.cnf t) (Token.exp t) (Token.iat t).

(* ===================================================================== *)
(** * Sample stores and requests *)
(* ===================================================================== *)

Module Sample.

(** The access token of the Data Source adapter, as [issueToken] mints it
    for the client of [org-vaccine-repo]. *)
Definition pepUser : Token.t :=
  Token.mk true "http://pcm.fhir.health.gov.il/Organization/org-vaccine-repo"
    "system/*.cruds" "http://pcm.fhir.health.gov.il/" "https://pcm-core:3000"
    "http://pcm.fhir.health.gov.il/Organization/org-vaccine-repo" "org-vaccine-repo"
    None [] (Some "ungWv48Bz-pBQUDeXa4iI7ADYaOWF3qctBD_YfIAFa0") 1030 1000.

(** A token of the service provider for the Data Source. *)
Definition spToken : Token.t :=
  Token.mk true Seed.SP B2B_SCOPE "http://pcm.fhir.health.gov.il/" Seed.DS_ADDRESS
    Seed.SP "org-sp"
    (Some "http://fhir.health.gov.il/identifier/il-national-id|99887766") []
    (Some "ungWv48Bz-pBQUDeXa4iI7ADYaOWF3qctBD_YfIAFa0") 1030 1000.

Definition tokens : TokenStore :=
  <["sp-token" := spToken]> (<["pep-token" := pepUser]> ∅).

End Sample.

Module Scenario.

(** The seeded store with an approved consent [c1] of the service provider
    and an inactive consent [c2] of Hospital B. *)
Definition store : FHIRStore.t :=
  FHIRStore.addConsent "c2"
    (Seed.consent "c2" "inactive" "222" [Seed.actor "IRCP" "org-hospital-b-sp"])
    (FHIRStore.addConsent "c1"
       (Seed.consent "c1" "active" "99887766"
          [Seed.actor "IRCP" "org-sp"; Seed.actor "CST" "org-vaccine-repo"])
       Seed.bootstrap).

(** The seeded store with an approved consent [cB] of Hospital B. *)
Definition storeB : FHIRStore.t :=
  FHIRStore.addConsent "cB"
    (Seed.consent "cB" "active" "111"
       [Seed.actor "IRCP" "org-hospital-b-sp"; Seed.actor "CST" "org-vaccine-repo"])
    Seed.bootstrap.

Definition spWith (consents : list string) : Platform :=
  Seed.platform (Seed.assertion Seed.SP (Some (Seed.b2b "org-sp" consents))).
End Scenario.

(** The first entry of [clients]. *)
Definition spClient : Client.t :=
  Client.mk Seed.SP "Doctor Portal"
    ["fhir/Consent.write"; "fhir/Patient.read"; "fhir/Observation.read";
     "system/*.cruds"; "patient/Observation.rs"]
    "/app/certs/sp-client.crt" "org-sp".

(** The consent [cB] of [storeB]. *)
Definition consentB : Consent.t :=
  Seed.consent "cB" "active" "111"
    [Seed.actor "IRCP" "org-hospital-b-sp"; Seed.actor "CST" "org-vaccine-repo"].

Module ConsentTest.
(** The store of the second test of [consent-update.test.js]. *)
Definition stored : Consent.t :=
  Consent.mk (Some "consent-2") (Some "active") None (Some (Seed.nationalId "123"))
    (Some (Consent.mkProvision (Some [Seed.actor "IRCP" "org-sp"]))) None.
Definition store : FHIRStore.t := FHIRStore.addConsent "consent-2" stored FHIRStore.empty.

(** A body that sets [status: inactive] and also replaces the patient and
    drops the provision. *)
Definition body : Consent.t :=
  Consent.mk (Some "consent-2") (Some "inactive") None (Some (Seed.nationalId "000"))
    None None.
End ConsentTest.

Module EndpointTest.
(** A second Endpoint of the Data Source with the address of the first. *)
Definition duplicate : Endpoint.t :=
  Endpoint.mk None (Some Seed.DS_ADDRESS) (Some (Seed.ref "Organization/org-vaccine-repo")).
End EndpointTest.

Module ServiceTest.
Definition u : Routes.uuids := Routes.mkUuids "u-cat" "u-canonical" "u-instance".

(** An instance body that brings an identifier of its own. *)
Definition withIdentifier : HealthcareService.t :=
  HealthcareService.mk None None (Some "Telehealth") None
    (Some (Arr [Identifier.mk (Some "urn:local") (Some "svc-7")])) None None.

(** An instance body that is already tagged [instance]. *)
Definition tagged : HealthcareService.t :=
  HealthcareService.mk None None (Some "Telehealth") None None None
    (Some (Meta.mk (Some (Arr [Routes.instanceTag])))).

(** A body with neither identifier, extension nor meta. *)
Definition plain : HealthcareService.t :=
  HealthcareService.mk None None (Some "Telehealth") None None None None.
End ServiceTest.

Module AdminTest.
(** The PCM's own client asks for a token for its own Endpoint. *)
Definition platform : Platform := Seed.platform (Seed.assertion "pcm-core" None).
Definition PCM_ADDRESS : string := "https://pcm.fhir.health.gov.il/r4".
Definition issued : IssueOutcome.t :=
  @issueToken platform ∅ Seed.bootstrap "tok-pcm" 1000
    (Seed.tokenRequest PCM_ADDRESS None).
Definition record : Token.t :=
  Token.mk true "pcm-core" "system/*.cruds" "http://pcm.fhir.health.gov.il/" PCM_ADDRESS
    "pcm-core" "org-pcm-system" None []
    (Some "ungWv48Bz-pBQUDeXa4iI7ADYaOWF3qctBD_YfIAFa0") 1030 1000.
End AdminTest.

Module AdapterTest.
Import PEP.
(** A PCM that discovers and issues, and answers every introspection with
    [status]; its state counts the calls it has served. *)
Definition rejecting (status : Z) (c : call) (served : nat) : reply * nat :=
  (match c with
   | GetSmartConfiguration =>
       Fulfilled (SmartConfiguration (Some "https://pcm-core:3000/token")
                                     (Some "https://pcm-core:3000/introspect"))
   | PostToken _ _ => Fulfilled (AccessToken (Some "pep-token"))
   | PostIntrospect _ _ _ => Failed (Some status)
   end, Datatypes.S served).

(** A PCM whose discovery document is forbidden and that answers every
    introspection with [r]. *)
Definition undiscoverable (r : introspection) (c : call) (served : nat) : reply * nat :=
  (match c with
   | GetSmartConfiguration => Failed (Some 403)
   | PostToken _ _ => Fulfilled (AccessToken (Some "pep-token"))
   | PostIntrospect _ _ _ => Fulfilled (Introspection r)
   end, Datatypes.S served).

Definition cold : state := mkState None None.
Definition URL : string := "https://pcm-core:3000".

Definition result (patient : option string) : introspection :=
  mkIntrospection true (Some Seed.SP) (Some B2B_SCOPE) (Some "http://pcm.fhir.health.gov.il/")
    (Some Seed.DS_ADDRESS) None (Some 1000) []
    (Some "ungWv48Bz-pBQUDeXa4iI7ADYaOWF3qctBD_YfIAFa0") patient.
End AdapterTest.

(* ===================================================================== *)
(** * Invariants of the stores, and the inputs of the tests *)
(* ===================================================================== *)

(** The token stores PCM can be in: empty when the process starts, and
    written by [POST /token] and [POST /introspect] only. *)
Inductive reachable `{Platform} : TokenStore → Prop :=
| reach_start : reachable ∅
| reach_token tokens fhirStore uuid now req :
    reachable tokens →
    reachable (IssueOutcome.tokens (postToken tokens fhirStore uuid now req))
| reach_introspect tokens fhirStore socket_authorized authorization token now :
    reachable tokens →
    reachable (snd (postIntrospect tokens fhirStore socket_authorized authorization
                      token now)).

(** The record names this registered client. *)
Definition issuedTo (c : Client.t) (t : Token.t) : Prop :=
  Token.sub t = Client.clientId c
  ∧ Token.client_id t = Client.clientId c
  ∧ Token.organization_id t = Client.organizationId c.

(** What every record written by [issueToken] looks like. *)
Definition wellFormed (t : Token.t) : Prop :=
  Token.active t = true
  ∧ Token.iss t = "http://pcm.fhir.health.gov.il/"
  ∧ Token.exp t = Token.iat t + 30
  ∧ (∃ c, In c clients ∧ issuedTo c t)
  ∧ JS.truthy (Some (Token.aud t)) = true
  ∧ (∃ x5t, Token.cnf t = Some x5t ∧ String.length x5t = 43%nat)
  ∧ (Token.scope t = B2B_SCOPE
     ∨ Token.scope t = "system/*.cruds" ∧ Token.patient t = None
       ∧ Token.fhirContext t = []).

(** Every stored resource sits under its own [id], as [add] and [update]
    put it. *)
Definition keyed (st : FHIRStore.t) : Prop :=
  (∀ k o, FHIRStore.Organization st !! k = Some o → Organization.id o = Some k)
  ∧ (∀ k e, FHIRStore.Endpoint st !! k = Some e → Endpoint.id e = Some k)
  ∧ (∀ k h, FHIRStore.HealthcareService st !! k = Some h → HealthcareService.id h = Some k)
  ∧ (∀ k c, FHIRStore.Consent st !! k = Some c → Consent.id c = Some k).

(** None of the callers is a PCM admin in [st]. *)
Definition noAdmin (st : FHIRStore.t) (calls : list (option string * Routes.request))
    : Prop :=
  ∀ call, In call calls → Routes.isPcmAdmin st (fst call) = false.

(** All characters of a string satisfy [p]. *)
Fixpoint all_chars (p : ascii → bool) (s : string) : bool :=
  match s with
  | EmptyString => true
  | String c rest => p c && all_chars p rest
  end.

Definition is_ascii (c : ascii) : bool := (nat_of_ascii c <? 128)%nat.

(** A byte of a buffer. *)
Definition is_byte (b : Z) : Prop := 0 ≤ b < 256.

(** The inputs [mtls.test.js] builds with the platform's encoders. *)
Module CertTest.

(** The alphabet of RFC 4648, section 4. *)
Definition b64_char (n : Z) : ascii :=
  ascii_of_nat (Z.to_nat
    (if n <? 26 then 65 + n
     else if n <? 52 then 71 + n
     else if n <? 62 then n - 4
     else if n =? 62 then 43 else 47)).

(** [buffer.toString('base64')]: padded with ['=']. *)
Fixpoint base64 (bs : list Z) : string :=
  match bs with
  | a :: b :: c :: rest =>
      String (b64_char (a / 4))
     (String (b64_char ((a mod 4) * 16 + b / 16))
     (String (b64_char ((b mod 16) * 4 + c / 64))
     (String (b64_char (c mod 64)) (base64 rest))))
  | [a; b] =>
      String (b64_char (a / 4))
     (String (b64_char ((a mod 4) * 16 + b / 16))
     (String (b64_char ((b mod 16) * 4)) (String "=" EmptyString)))
  | [a] =>
      String (b64_char (a / 4))
     (String (b64_char ((a mod 4) * 16)) (String "=" (String "=" EmptyString)))
  | [] => EmptyString
  end.

(** The characters [encodeURIComponent] leaves as they are. *)
Definition unreserved (c : ascii) : bool :=
  let n := Z.of_nat (nat_of_ascii c) in
  ((65 <=? n) && (n <=? 90)) || ((97 <=? n) && (n <=? 122))
  || ((48 <=? n) && (n <=? 57))
  || existsb (Z.eqb n) [45; 95; 46; 33; 126; 42; 39; 40; 41].

Definition HEX (n : Z) : ascii :=
  ascii_of_nat (Z.to_nat (if n <? 10 then 48 + n else 55 + n)).

(** [encodeURIComponent(s)] on the bytes of [s]. *)
Fixpoint encodeURIComponent (s : string) : string :=
  match s with
  | EmptyString => EmptyString
  | String c rest =>
      if unreserved c then String c (encodeURIComponent rest)
      else
        let n := Z.of_nat (nat_of_ascii c) in
        String "%" (String (HEX (n / 16)) (String (HEX (n mod 16))
          (encodeURIComponent rest)))
  end.

(** A PEM text: the two boundary lines around the lines of the body,
    every line ended by [eol]. *)
Definition pem (eol : string) (lines : list string) : string :=
  "-----BEGIN CERTIFICATE-----" +:+ eol
  +:+ String.concat "" (List.map (fun l => l +:+ eol) lines)
  +:+ "-----END CERTIFICATE-----" +:+ eol.

Definition LF : string := String "010" EmptyString.
Definition CRLF : string := String "013" (String "010" EmptyString).

End CertTest.

(** The characters of a line that [trim] keeps and that start no boundary:
    one byte, and neither white space nor a dash. *)
Definition plainChar (c : ascii) : bool :=
  negb (JS.is_space c || (128 <=? nat_of_ascii c)%nat) && negb (Ascii.eqb c "-"%char).

(** The alphabet of base64url: letters, digits, [-] and [_]. *)
Definition urlsafe (c : ascii) : bool :=
  let n := Z.of_nat (nat_of_ascii c) in
  ((65 <=? n) && (n <=? 90)) || ((97 <=? n) && (n <=? 122))
  || ((48 <=? n) && (n <=? 57)) || (n =? 45) || (n =? 95).

(** The actors [handleApproval] adds for the Organizations [sources] to a
    consent whose actors reference [existingRefs]. *)
Definition addedActors (sources : list Organization.t) (existingRefs : list (option string))
    : list Actor.t :=
  List.filter (fun a => negb (bool_decide (actorRef a ∈ existingRefs)))
              (List.map Ui.custodian sources).

(** The consent as an approval that adds [added] stores it. *)
Definition approved (consent : Consent.t) (added : list Actor.t) : Consent.t :=
  Ui.with_actors (Consent.actors consent ++ added) (Consent.set_status (Some "active") consent).

(** Stores and requests for the routes. *)
Module RouteTest.

(** The Doctor's Consultation after a PCM admin has deactivated it. *)
Definition dormant : Organization.t :=
  Organization.mk (Some "org-sp") (Some false) (Some "Doctor's Consultation")
    (Some [Seed.orgType "service-provider"])
    (Some (Seed.ref "Organization/org-hospital-a-parent")) None.

Definition store : FHIRStore.t := FHIRStore.addOrganization "org-sp" dormant Seed.bootstrap.

(** A body that asks for [active: true] and for the type of the PCM. *)
Definition promote : Organization.t :=
  Organization.mk (Some "org-sp") (Some true) (Some "Doctor's Consultation")
    (Some [Seed.orgType "pcm"]) None None.

(** The same body without [active]. *)
Definition silent : Organization.t :=
  Organization.mk (Some "org-sp") None (Some "Doctor's Consultation")
    (Some [Seed.orgType "pcm"]) None None.

(** The body [createConsentRequest] of the service provider's client sends. *)
Definition request : Consent.t :=
  Consent.mk None (Some "proposed") None (Some (Seed.nationalId "99887766")) None
    (Some [Extension.mk (Some EXT_PCM_SERVICE)
             (Some (Seed.ref "HealthcareService/service-1"))]).

Definition u : Routes.consentUuids := Routes.mkConsentUuids "c-new" "biz-new" "spare".

(** An Endpoint of the service provider under the id of the Data Source's. *)
Definition takeover : Endpoint.t :=
  Endpoint.mk (Some "endpoint-vaccine-repo") (Some "https://sp.example/fhir")
    (Some (Seed.ref "Organization/org-sp")).

(** An instance service of the service provider, and an update of it that
    names another provider. *)
Definition instance : HealthcareService.t :=
  HealthcareService.mk (Some "svc-sp") (Some false) (Some "Telehealth")
    (Some (Seed.ref "Organization/org-sp")) None None
    (Some (Meta.mk (Some (Arr [Routes.instanceTag])))).
Definition services : FHIRStore.t :=
  FHIRStore.addHealthcareService "svc-sp" instance Seed.bootstrap.
Definition moved : HealthcareService.t :=
  HealthcareService.mk None (Some true) (Some "Telehealth")
    (Some (Seed.ref "Organization/org-vaccine-repo")) None None None.

(** The seeded store after the service provider has asked for a consent,
    and after the patient has approved it. *)
Definition asked : FHIRStore.t :=
  Routes.serve Seed.bootstrap (Some "org-sp") (Routes.PostConsent u request).
Definition granted : FHIRStore.t := snd (Ui.handleApproval asked "c-new" None).

End RouteTest.

(** A search of all consents of [Scenario.store] with their actors, as
    [searchExpanded] answers it, and the query of the search. *)
Module SearchTest.
Definition c1 : Consent.t :=
  Seed.consent "c1" "active" "99887766"
    [Seed.actor "IRCP" "org-sp"; Seed.actor "CST" "org-vaccine-repo"].
Definition c2 : Consent.t :=
  Seed.consent "c2" "inactive" "222" [Seed.actor "IRCP" "org-hospital-b-sp"].
Definition entries : list Bundle.entry :=
  [ Bundle.mkEntry (FHIRStore.RConsent c1) "match";
    Bundle.mkEntry (FHIRStore.RConsent c2) "match";
    Bundle.mkEntry (FHIRStore.ROrganization Seed.orgDoctorApp) "include";
    Bundle.mkEntry (FHIRStore.ROrganization Seed.orgVaccineRepo) "include";
    Bundle.mkEntry (FHIRStore.ROrganization Seed.orgHospitalBSP) "include";
    Bundle.mkEntry (FHIRStore.REndpoint Seed.endpointVaccine) "include";
    Bundle.mkEntry (FHIRStore.ROrganization Seed.orgHospitalA) "include";
    Bundle.mkEntry (FHIRStore.ROrganization Seed.orgMoh) "include";
    Bundle.mkEntry (FHIRStore.ROrganization Seed.orgHospitalB) "include" ].
Definition include : option (array_or string) := Some (Obj "Consent:actor").
Definition iterate : option (array_or string) :=
  Some (Arr ["Organization:endpoint"; "Organization:partof"]).
End SearchTest.

(** A consent for the service that [POST /HealthcareService] creates from
    [ServiceTest.withIdentifier]. *)
Module ContextTest.
Definition consent : Consent.t :=
  Consent.mk (Some "c3") (Some "proposed") None (Some (Seed.nationalId "333")) None
    (Some [Extension.mk (Some EXT_PCM_SERVICE)
             (Some (Seed.ref "HealthcareService/u-instance"))]).
End ContextTest.

(* ===================================================================== *)
(** * Theorems *)
(* ===================================================================== *)

(* --------------------------------------------------------------------- *)
(** ** The hash and its encodings on known values *)
(* --------------------------------------------------------------------- *)

Example sha256_abc :
  Encoding.hex (SHA256.digest (JS.bytes "abc"))
  = "ba7816bf8f01cfea414140de5dae2223b00361a396177a9cb410ff61f20015ad".
Proof. vm_compute. reflexivity. Qed.

Example sha256_123 :
  Encoding.hex (SHA256.digest (JS.bytes "123"))
  = "a665a45920422f9d417e4867efdc4fb8a04a1f3fff1fa07e998e86f7f7a27ae3".
Proof. vm_compute. reflexivity. Qed.

(** The expected value of [crypto.test.js]. *)
Example b64_abc :
  Encoding.base64url (SHA256.digest (JS.bytes "abc"))
  = "ungWv48Bz-pBQUDeXa4iI7ADYaOWF3qctBD_YfIAFa0".
Proof. vm_compute. reflexivity. Qed.

Example from_b64 : Encoding.from_base64 "YWJj" = JS.bytes "abc".
Proof. vm_compute. reflexivity. Qed.

Example split_ex : JS.split "/" "Organization/org-sp" = ["Organization"; "org-sp"].
Proof. reflexivity. Qed.

(** The PEM path of [certToX5tS256] on the certificate of [mtls.test.js]. *)
Example pem_thumbprint :
  certToX5tS256 (Pem Seed.certificate) = "ungWv48Bz-pBQUDeXa4iI7ADYaOWF3qctBD_YfIAFa0".
Proof. vm_compute. reflexivity. Qed.

(* --------------------------------------------------------------------- *)
(** ** The token store *)
(* --------------------------------------------------------------------- *)

Lemma allActive_empty : allActive ∅.
Proof. intros k t Hk. rewrite lookup_empty in Hk. discriminate. Qed.

Lemma allActive_insert (tokens : TokenStore) k t :
  allActive tokens → Token.active t = true → allActive (<[k := t]> tokens).
Proof.
  intros Hall Ht k' t'. rewrite lookup_insert.
  case_decide; [intros [= <-]; exact Ht | apply Hall].
Qed.

Lemma allActive_delete (tokens : TokenStore) k :
  allActive tokens → allActive (delete k tokens).
Proof.
  intros Hall k' t'. rewrite lookup_delete.
  case_decide; [discriminate | apply Hall].
Qed.

(** [issueToken] only ever writes records with [active: true]. *)
Lemma issueToken_allActive `{Platform} tokens st uuid now req :
  allActive tokens → allActive (IssueOutcome.tokens (issueToken tokens st uuid now req)).
Proof.
  intros Hall. unfold issueToken.
  destruct (authenticate req) as [r | [[client a] resource]]; [exact Hall |].
  destruct (bindConsent _ _ _ _) as [r | [sc pc]]; [exact Hall |].
  destruct (buildFhirContext _ _); [| exact Hall].
  cbn [IssueOutcome.tokens]. apply allActive_insert; [exact Hall | reflexivity].
Qed.

Lemma requireAuth_allActive tokens authorization now :
  allActive tokens → allActive (snd (requireAuth tokens authorization now)).
Proof.
  intros Hall. unfold requireAuth.
  destruct authorization as [h |]; [| exact Hall].
  destruct (negb _); [exact Hall |].
  destruct (_ !! 1%nat) as [tok |]; [| exact Hall].
  destruct (tokens !! tok) as [t |]; [| exact Hall].
  destruct (Token.exp t <? now); [apply allActive_delete |]; exact Hall.
Qed.

(** [requireAuth] lets a request through with the token store unchanged. *)
Lemma requireAuth_inr tokens authorization now user tokens' :
  requireAuth tokens authorization now = (inr user, tokens') →
  tokens' = tokens ∧
  ∃ h bearer, authorization = Some h ∧ JS.startsWith "Bearer " h = true
    ∧ JS.split " " h !! 1%nat = Some bearer
    ∧ tokens !! bearer = Some user ∧ now ≤ Token.exp user.
Proof.
  unfold requireAuth.
  destruct authorization as [h |]; [| discriminate].
  destruct (JS.startsWith "Bearer " h) eqn:Hpre; cbn [negb]; [| discriminate].
  destruct (_ !! 1%nat) as [tok |] eqn:Htok; [| discriminate].
  destruct (tokens !! tok) as [t |] eqn:Hlook; [| discriminate].
  destruct (Token.exp t <? now) eqn:Hexp; [discriminate |].
  intros [= <- <-]. split; [reflexivity |].
  exists h, tok. apply Z.ltb_ge in Hexp. auto.
Qed.

(* --------------------------------------------------------------------- *)
(** ** C1: introspection *)
(* --------------------------------------------------------------------- *)

(** C1, as the code has it.  For a request that passed [requireMtls] and
    [requireAuth] and whose caller resolves to an Endpoint address: when the
    form has a non-empty [token], the response says [active: true] exactly
    when the token is stored, not expired and issued for that address; it
    is then the stored record, and [{active: false}] with status 200
    otherwise.  When the form has no [token], the answer is 400
    [missing_token]. *)
Theorem C1_introspection (tokens : TokenStore) (st : FHIRStore.t)
    (authorization token : option string) (now : Z) (user : Token.t) (address : string) :
  allActive tokens →
  requireAuth tokens authorization now = (inr user, tokens) →
  introspectorAddress st user = inr address →
  let r := fst (postIntrospect tokens st true authorization token now) in
  if JS.truthy token then
    (activeOf r = true ↔
       ∃ t, tokens !! default "" token = Some t ∧ now ≤ Token.exp t ∧ Token.aud t = address)
    ∧ (activeOf r = true →
       ∃ t, tokens !! default "" token = Some t ∧ r = Response.mk 200 (Response.Claims t))
    ∧ (activeOf r = false → r = Response.mk 200 Response.Inactive)
  else r = Response.error 400 "missing_token" None.
Proof.
  intros Hall Hauth Haddr.
  unfold postIntrospect, requireMtls. rewrite Hauth. cbn [fst].
  unfold introspectToken. rewrite Haddr. unfold inspectTarget.
  destruct (JS.truthy token); cbn [negb]; [| reflexivity].
  destruct (tokens !! default "" token) as [t |] eqn:Hlook.
  - destruct (Token.exp t <? now) eqn:Hexp.
    + apply Z.ltb_lt in Hexp.
      split; [| split]; [split | |]; cbn; try discriminate; try reflexivity.
      intros (t' & [= <-] & Hle & _). lia.
    + apply Z.ltb_ge in Hexp.
      destruct (String.eqb (Token.aud t) address) eqn:Haud; cbn [negb].
      * apply String.eqb_eq in Haud.
        assert (Hact : Token.active t = true) by (eapply Hall; exact Hlook).
        split; [| split]; unfold activeOf; cbn; rewrite Hact.
        -- split; [intros _; exists t; auto | reflexivity].
        -- intros _. exists t. auto.
        -- discriminate.
      * apply String.eqb_neq in Haud.
        split; [| split]; [split | |]; cbn; try discriminate; try reflexivity.
        intros (t' & [= <-] & _ & Heq). contradiction.
  - split; [| split]; [split | |]; cbn; try discriminate; try reflexivity.
    intros (t' & [=] & _).
Qed.

Lemma C1_introspection_witness :
  let r := fst (postIntrospect Sample.tokens Seed.bootstrap true
                  (Some "Bearer pep-token") (Some "sp-token") 1000) in
  (activeOf r = true ↔
     ∃ t, Sample.tokens !! "sp-token" = Some t ∧ 1000 ≤ Token.exp t
          ∧ Token.aud t = Seed.DS_ADDRESS)
  ∧ (activeOf r = true →
     ∃ t, Sample.tokens !! "sp-token" = Some t ∧ r = Response.mk 200 (Response.Claims t))
  ∧ (activeOf r = false → r = Response.mk 200 Response.Inactive).
Proof.
  assert (Hall : allActive Sample.tokens).
  { unfold Sample.tokens. repeat apply allActive_insert;
      [apply allActive_empty | reflexivity | reflexivity]. }
  assert (Hauth : requireAuth Sample.tokens (Some "Bearer pep-token") 1000
                  = (inr Sample.pepUser, Sample.tokens)) by (vm_compute; reflexivity).
  assert (Haddr : introspectorAddress Seed.bootstrap Sample.pepUser = inr Seed.DS_ADDRESS)
    by (vm_compute; reflexivity).
  exact (C1_introspection Sample.tokens Seed.bootstrap (Some "Bearer pep-token")
           (Some "sp-token") 1000 Sample.pepUser Seed.DS_ADDRESS Hall Hauth Haddr).
Defined.

(** The claim as stated fails for a request that omits the [token] field:
    the caller is authenticated and resolves to an Endpoint, no token is
    active, and yet the body is not [{active: false}]. *)
Lemma C1_counterexample :
  requireAuth Sample.tokens (Some "Bearer pep-token") 1000
    = (inr Sample.pepUser, Sample.tokens)
  ∧ introspectorAddress Seed.bootstrap Sample.pepUser = inr Seed.DS_ADDRESS
  ∧ let r := fst (postIntrospect Sample.tokens Seed.bootstrap true
                    (Some "Bearer pep-token") None 1000) in
    activeOf r = false
    ∧ Response.json r ≠ Response.Inactive
    ∧ r = Response.error 400 "missing_token" None.
Proof.
  split; [vm_compute; reflexivity |].
  split; [vm_compute; reflexivity |].
  split; [vm_compute; reflexivity |].
  split; [vm_compute; discriminate | vm_compute; reflexivity].
Qed.

(* --------------------------------------------------------------------- *)
(** ** Token issuance *)
(* --------------------------------------------------------------------- *)

(** Case analysis on the innermost scrutinee of the conditionals in [H]. *)
Ltac branch H :=
  match type of H with
  | context [match ?c with _ => _ end] =>
      lazymatch c with
      | context [match _ with _ => _ end] => fail
      | _ => destruct c eqn:?; try discriminate H
      end
  end.

Lemma authenticate_inr `{Platform} req client a resource :
  authenticate req = inr (client, a, resource) →
  jwt_decode (default "" (TokenRequest.client_assertion req)) = Decoded a
  ∧ List.find (fun c => String.eqb (Client.clientId c) (default "" (Assertion.iss a))) clients
    = Some client
  ∧ (∃ pem, readFileSync (Client.certPath client) = Some pem)
  ∧ TokenRequest.resource req = Some resource
  ∧ JS.truthy (Some resource) = true.
Proof.
  unfold authenticate. intros Hauth.
  repeat branch Hauth.
  injection Hauth as <- <- <-.
  repeat split; eauto.
  all: destruct (TokenRequest.resource req) as [res |]; try discriminate.
  - reflexivity.
  - cbn [default]. match goal with h : negb (JS.truthy (Some res)) = false |- _ =>
      apply negb_false_iff in h; exact h end.
Qed.

Lemma str_is_spec x s : str_is x s = true ↔ x = Some s.
Proof.
  destruct x as [y |]; cbn; [| split; discriminate].
  rewrite String.eqb_eq. split; [intros -> | intros [= ->]]; reflexivity.
Qed.

Lemma isActor_spec client actors :
  isActor client actors = true ↔ appearsIn (Client.organizationId client) actors.
Proof.
  unfold isActor, appearsIn. rewrite existsb_exists.
  split; intros (a & Hin & Ha); exists a; (split; [exact Hin |]);
    apply str_is_spec; exact Ha.
Qed.

Lemma endpointIs_spec st resource epRef :
  endpointIs st resource epRef = true ↔
  ∃ endpoint,
    FHIRStore.getEndpoint st (lastSegment (Reference.reference epRef)) = Some endpoint
    ∧ Endpoint.address endpoint = Some resource.
Proof.
  unfold endpointIs.
  destruct (FHIRStore.getEndpoint _ _) as [e |].
  - rewrite str_is_spec. split; [eauto | intros (e' & [= <-] & Ha); exact Ha].
  - split; [discriminate | intros (e' & [=] & _)].
Qed.

Lemma custodianOwns_spec st resource actor :
  custodianOwns st resource actor = true ↔
  ∃ org eps epRef endpoint,
    FHIRStore.getOrganization st (lastSegment (actorRef actor)) = Some org
    ∧ Organization.endpoint org = Some eps ∧ In epRef eps
    ∧ FHIRStore.getEndpoint st (lastSegment (Reference.reference epRef)) = Some endpoint
    ∧ Endpoint.address endpoint = Some resource.
Proof.
  unfold custodianOwns.
  destruct (FHIRStore.getOrganization _ _) as [org |].
  - destruct (Organization.endpoint org) as [eps |] eqn:Heps.
    + rewrite existsb_exists. split.
      * intros (epRef & Hin & His). apply endpointIs_spec in His as (e & He & Ha).
        exists org, eps, epRef, e. repeat split; auto.
      * intros (org' & eps' & epRef & e & [= <-] & Heps' & Hin & He & Ha).
        rewrite Heps in Heps'. injection Heps' as <-.
        exists epRef. split; [exact Hin |]. apply endpointIs_spec. eauto.
    + split; [discriminate |].
      intros (org' & eps' & epRef & e & [= <-] & Heps' & _). congruence.
  - split; [discriminate |]. intros (org' & eps' & epRef & e & [=] & _).
Qed.

Lemma resourceMatchFound_spec st resource actors :
  resourceMatchFound st resource actors = true ↔ custodianEndpoint st actors resource.
Proof.
  unfold resourceMatchFound, custodianActors, custodianEndpoint.
  rewrite existsb_exists. split.
  - intros (actor & Hin & Hown). apply filter_In in Hin as [Hin Hrole].
    apply custodianOwns_spec in Hown as (org & eps & epRef & e & H1 & H2 & H3 & H4 & H5).
    exists actor, org, eps, epRef, e. repeat split; auto.
  - intros (actor & org & eps & epRef & e & Hin & Hrole & H1 & H2 & H3 & H4 & H5).
    exists actor. split; [apply filter_In; auto |].
    apply custodianOwns_spec. exists org, eps, epRef, e. repeat split; auto.
Qed.

(** What a successful B2B validation has checked. *)
Lemma b2bBinding_inr st client resource ext patientContext :
  b2bBinding st client resource ext = inr patientContext →
  lastSegment (Assertion.organization_id ext) = Some (Client.organizationId client)
  ∧ ∀ ref, Assertion.consent_reference ext ≫= head = Some ref →
      JS.truthy (Some ref) = true →
      ∃ consent,
        FHIRStore.getConsent st (lastSegment (Some ref)) = Some consent
        ∧ Consent.status consent = Some "active"
        ∧ isActor client (Consent.actors consent) = true
        ∧ resourceMatchFound st resource (Consent.actors consent) = true
        ∧ patientContext = patientContextOf consent.
Proof.
  unfold b2bBinding. intros Hb.
  destruct (str_is (lastSegment _) _) eqn:Horg; cbn [negb] in Hb; [| discriminate].
  apply str_is_spec in Horg. split; [exact Horg |].
  intros ref Href Htruthy. rewrite Href, Htruthy in Hb.
  destruct (FHIRStore.getConsent _ _) as [consent |]; [| discriminate].
  destruct (str_is (Consent.status consent) "active") eqn:Hst; cbn [negb] in Hb;
    [| discriminate].
  destruct (resourceMatchFound _ _ _) eqn:Hres; cbn [negb] in Hb; [| discriminate].
  destruct (isActor _ _) eqn:Hact; cbn [negb] in Hb; [| discriminate].
  injection Hb as <-. apply str_is_spec in Hst.
  exists consent. repeat split; auto.
Qed.

Lemma issueToken_issued `{Platform} tokens st uuid now req :
  let out := issueToken tokens st uuid now req in
  Response.status (IssueOutcome.response out) = 200 →
  ∃ client a resource scope patientContext fhirContext pem,
    authenticate req = inr (client, a, resource)
    ∧ bindConsent st client resource (Assertion.hl7_b2b a) = inr (scope, patientContext)
    ∧ buildFhirContext st (Assertion.hl7_b2b a) = Some fhirContext
    ∧ readFileSync (Client.certPath client) = Some pem
    ∧ IssueOutcome.tokens out
      = <[uuid := Token.mk true (Client.clientId client)
                    (if JS.truthy (Some scope) then scope
                     else String.concat " " (Client.scopes client))
                    "http://pcm.fhir.health.gov.il/" resource (Client.clientId client)
                    (Client.organizationId client) patientContext fhirContext
                    (Some (certToX5tS256 (Pem pem))) (now + 30) now]> tokens.
Proof.
  unfold issueToken.
  destruct (authenticate req) as [r | [[client a] resource]] eqn:Hauth.
  - cbn [IssueOutcome.response]. intros Hst. exfalso.
    unfold authenticate in Hauth. repeat branch Hauth;
      injection Hauth as <-; discriminate Hst.
  - destruct (bindConsent _ _ _ _) as [r | [sc pc]] eqn:Hbind.
    + cbn [IssueOutcome.response]. intros Hst. exfalso.
      unfold bindConsent, b2bBinding in Hbind. repeat branch Hbind;
        injection Hbind as <-; discriminate Hst.
    + destruct (buildFhirContext _ _) as [ctx |] eqn:Hctx; [| discriminate].
      intros _. apply authenticate_inr in Hauth as Hparts.
      destruct Hparts as (_ & _ & (pem & Hpem) & _ & _).
      exists client, a, resource, sc, pc, ctx, pem.
      rewrite Hpem. cbn [IssueOutcome.tokens fmap option_fmap option_map].
      repeat split; auto.
Qed.

Lemma compress_length h block :
  length (SHA256.compress h block) = Nat.min (length h) 8.
Proof.
  unfold SHA256.compress. rewrite List.length_map, List.length_combine. reflexivity.
Qed.

Lemma fold_compress_length blocks h :
  length h = 8%nat → length (fold_left SHA256.compress blocks h) = 8%nat.
Proof.
  revert h. induction blocks as [| b bl IH]; intros h Hh; [exact Hh |].
  cbn [fold_left]. apply IH. rewrite compress_length, Hh. reflexivity.
Qed.

Lemma be_bytes_concat_length (h : list Z) :
  length (List.concat (List.map (SHA256.be_bytes 4) h)) = (4 * length h)%nat.
Proof.
  induction h as [| x h IH]; [reflexivity |].
  cbn [List.map List.concat]. rewrite List.length_app, IH.
  cbn [SHA256.be_bytes length]. lia.
Qed.

(** A SHA-256 digest has 32 bytes. *)
Lemma digest_length msg : length (SHA256.digest msg) = 32%nat.
Proof.
  unfold SHA256.digest. rewrite be_bytes_concat_length, fold_compress_length;
    [reflexivity | vm_compute; reflexivity].
Qed.

Lemma base64url_length_le (n : nat) (bs : list Z) :
  (length bs ≤ n)%nat →
  String.length (Encoding.base64url bs) = ((4 * length bs + 2) / 3)%nat.
Proof.
  revert bs. induction n as [n IH] using lt_wf_ind. intros bs Hle.
  destruct bs as [| a [| b [| c rest]]]; try reflexivity.
  change (Encoding.base64url (a :: b :: c :: rest))
    with (String (Encoding.b64url_char (a / 4))
           (String (Encoding.b64url_char ((a mod 4) * 16 + b / 16))
           (String (Encoding.b64url_char ((b mod 16) * 4 + c / 64))
           (String (Encoding.b64url_char (c mod 64)) (Encoding.base64url rest))))).
  cbn [String.length length] in *.
  rewrite (IH (length rest)); [| lia | lia].
  replace (4 * S (S (S (length rest))) + 2)%nat with (4 * length rest + 2 + 4 * 3)%nat
    by lia.
  rewrite Nat.div_add by lia. lia.
Qed.

(** The thumbprint has 43 characters: 32 bytes in base64url without the
    padding character that would make it 44. *)
Lemma thumbprint_length c : String.length (certToX5tS256 c) = 43%nat.
Proof.
  unfold certToX5tS256.
  rewrite (base64url_length_le _ _ (Nat.le_refl _)), digest_length. reflexivity.
Qed.

Lemma thumbprint_truthy c : JS.truthy (Some (certToX5tS256 c)) = true.
Proof.
  pose proof (thumbprint_length c) as Hlen.
  destruct (certToX5tS256 c); [discriminate Hlen | reflexivity].
Qed.


(* --------------------------------------------------------------------- *)
(** ** C4: holder-of-key confirmation *)
(* --------------------------------------------------------------------- *)



Example mismatch_is_logged :
  IssueOutcome.log
    (@issueToken (Scenario.spWith ["c1"]) ∅ Scenario.store "tok-1" 1000
       (Seed.tokenRequest Seed.DS_ADDRESS (Some [1; 2; 3])))
  = [MISMATCH_WARNING; TOKEN_ISSUED].
Proof. vm_compute. reflexivity. Qed.

(* --------------------------------------------------------------------- *)
(** ** C2: consent, actor and resource binding of B2B tokens *)
(* --------------------------------------------------------------------- *)

(** C2, as the code has it: the binding holds for the first entry of
    [consent_reference].  For every token issued (status 200) from a request
    whose assertion carries [hl7-b2b] with a non-empty first consent
    reference, that reference resolves to a stored consent with
    [status = active], the client's organization (the token's
    [organization_id]) appears in its [provision.actor], and the token's
    [aud] is the requested resource and the address of an Endpoint of a CST
    actor of that consent. *)
Theorem C2_first_consent_binding `{Platform} (tokens : TokenStore) (st : FHIRStore.t)
    (uuid : string) (now : Z) (req : TokenRequest.t) (a : Assertion.t)
    (ext : Assertion.b2b) (ref : string) (others : list string) :
  jwt_decode (default "" (TokenRequest.client_assertion req)) = Decoded a →
  Assertion.hl7_b2b a = Some ext →
  Assertion.consent_reference ext = Some (ref :: others) →
  JS.truthy (Some ref) = true →
  let out := issueToken tokens st uuid now req in
  Response.status (IssueOutcome.response out) = 200 →
  ∃ client consent record,
    List.find (fun c => String.eqb (Client.clientId c) (default "" (Assertion.iss a))) clients
      = Some client
    ∧ IssueOutcome.tokens out !! uuid = Some record
    ∧ Token.organization_id record = Client.organizationId client
    ∧ TokenRequest.resource req = Some (Token.aud record)
    ∧ FHIRStore.getConsent st (lastSegment (Some ref)) = Some consent
    ∧ Consent.status consent = Some "active"
    ∧ appearsIn (Token.organization_id record) (Consent.actors consent)
    ∧ custodianEndpoint st (Consent.actors consent) (Token.aud record).
Proof.
  intros Hdec Hext Hrefs Href out Hst.
  destruct (issueToken_issued tokens st uuid now req Hst)
    as (client & a' & resource & sc & pc & ctx & pem & Hauth & Hbind & Hctx & Hpem & Htok).
  destruct (authenticate_inr _ _ _ _ Hauth) as (Hdec' & Hfind & _ & Hres & _).
  rewrite Hdec in Hdec'. injection Hdec' as <-.
  unfold bindConsent in Hbind. rewrite Hext in Hbind.
  destruct (b2bBinding st client resource ext) as [r | pc'] eqn:Hb; [discriminate |].
  apply b2bBinding_inr in Hb as [_ Hb].
  destruct (Hb ref) as (consent & Hget & Hactive & Hactor & Hmatch & _);
    [rewrite Hrefs; reflexivity | exact Href |].
  eexists client, consent, _. subst out. rewrite Htok, lookup_insert_eq.
  cbn [Token.organization_id Token.aud].
  repeat split; [exact Hfind | exact Hres | exact Hget | exact Hactive | |].
  - apply isActor_spec. exact Hactor.
  - apply resourceMatchFound_spec. exact Hmatch.
Qed.

Lemma C2_first_consent_binding_witness :
  ∃ client consent record,
    List.find (fun c => String.eqb (Client.clientId c) Seed.SP) clients = Some client
    ∧ IssueOutcome.tokens
        (@issueToken (Scenario.spWith ["c1"; "c2"]) ∅ Scenario.store "tok-1" 1000
           (Seed.tokenRequest Seed.DS_ADDRESS None)) !! "tok-1" = Some record
    ∧ Token.organization_id record = Client.organizationId client
    ∧ Some Seed.DS_ADDRESS = Some (Token.aud record)
    ∧ FHIRStore.getConsent Scenario.store
        (lastSegment (Some "http://pcm-url-base/Consent/c1")) = Some consent
    ∧ Consent.status consent = Some "active"
    ∧ appearsIn (Token.organization_id record) (Consent.actors consent)
    ∧ custodianEndpoint Scenario.store (Consent.actors consent) (Token.aud record).
Proof.
  exact (@C2_first_consent_binding (Scenario.spWith ["c1"; "c2"]) ∅ Scenario.store "tok-1"
           1000 (Seed.tokenRequest Seed.DS_ADDRESS None)
           (Seed.assertion Seed.SP (Some (Seed.b2b "org-sp" ["c1"; "c2"])))
           (Seed.b2b "org-sp" ["c1"; "c2"])
           "http://pcm-url-base/Consent/c1" ["http://pcm-url-base/Consent/c2"]
           eq_refl eq_refl eq_refl eq_refl ltac:(vm_compute; reflexivity)).
Defined.

(** The claim as stated fails when a second consent is referenced: the
    token is issued although the second consent is inactive and the client
    is no party to it. *)
Lemma C2_counterexample :
  let out := @issueToken (Scenario.spWith ["c1"; "c2"]) ∅ Scenario.store "tok-1" 1000
               (Seed.tokenRequest Seed.DS_ADDRESS None) in
  Response.status (IssueOutcome.response out) = 200
  ∧ is_Some (IssueOutcome.tokens out !! "tok-1")
  ∧ Assertion.consent_reference (Seed.b2b "org-sp" ["c1"; "c2"])
    = Some ["http://pcm-url-base/Consent/c1"; "http://pcm-url-base/Consent/c2"]
  ∧ ∃ c2, FHIRStore.getConsent Scenario.store
            (lastSegment (Some "http://pcm-url-base/Consent/c2")) = Some c2
          ∧ Consent.status c2 = Some "inactive"
          ∧ ¬ appearsIn "org-sp" (Consent.actors c2).
Proof.
  split; [vm_compute; reflexivity |].
  split; [vm_compute; eexists; reflexivity |].
  split; [reflexivity |].
  eexists. split; [vm_compute; reflexivity |].
  split; [reflexivity |].
  intros (x & Hin & Hx). cbn in Hin. destruct Hin as [<- | []].
  vm_compute in Hx. discriminate.
Qed.

(* --------------------------------------------------------------------- *)
(** ** C3: order of the resource and actor checks *)
(* --------------------------------------------------------------------- *)

(** C3, as the code has it: step 5.3 (resource binding) runs before step
    5.4 (actor binding).  For a request that passed steps 1 to 5.1 and whose
    first consent reference resolves to an active consent in which the
    client's organization does not appear, no token is stored, and the
    answer is 401 [access_denied] "Client is not a party to this consent"
    when the resource is the address of a custodian's Endpoint, and 400
    [invalid_target] when it is not. *)
Theorem C3_resource_then_actor `{Platform} (tokens : TokenStore) (st : FHIRStore.t)
    (uuid : string) (now : Z) (req : TokenRequest.t) (client : Client.t)
    (a : Assertion.t) (resource : string) (ext : Assertion.b2b) (ref : string)
    (others : list string) (consent : Consent.t) :
  authenticate req = inr (client, a, resource) →
  Assertion.hl7_b2b a = Some ext →
  lastSegment (Assertion.organization_id ext) = Some (Client.organizationId client) →
  Assertion.consent_reference ext = Some (ref :: others) →
  JS.truthy (Some ref) = true →
  FHIRStore.getConsent st (lastSegment (Some ref)) = Some consent →
  Consent.status consent = Some "active" →
  ¬ appearsIn (Client.organizationId client) (Consent.actors consent) →
  let out := issueToken tokens st uuid now req in
  IssueOutcome.tokens out = tokens
  ∧ (custodianEndpoint st (Consent.actors consent) resource →
     IssueOutcome.response out
     = Response.error 401 "access_denied" (Some "Client is not a party to this consent"))
  ∧ (¬ custodianEndpoint st (Consent.actors consent) resource →
     IssueOutcome.response out
     = Response.error 400 "invalid_target"
         (Some "Requested resource is not authorized by the referenced consent")).
Proof.
  intros Hauth Hext Horg Hrefs Href Hget Hactive Hnot out.
  assert (Hact : isActor client (Consent.actors consent) = false).
  { destruct (isActor _ _) eqn:Hact; [| reflexivity].
    apply isActor_spec in Hact. contradiction. }
  assert (Hb : b2bBinding st client resource ext
               = if resourceMatchFound st resource (Consent.actors consent)
                 then inl (Response.error 401 "access_denied"
                             (Some "Client is not a party to this consent"))
                 else inl (Response.error 400 "invalid_target"
                             (Some "Requested resource is not authorized by the referenced consent"))).
  { unfold b2bBinding. rewrite Horg, Hrefs.
    replace (str_is (Some (Client.organizationId client)) (Client.organizationId client))
      with true by (symmetry; apply str_is_spec; reflexivity).
    cbn [negb mbind option_bind head]. rewrite Href, Hget, Hactive, Hact.
    cbn [str_is negb]. rewrite String.eqb_refl. cbn [negb].
    destruct (resourceMatchFound _ _ _); reflexivity. }
  subst out. unfold issueToken, bindConsent. rewrite Hauth, Hext, Hb.
  destruct (resourceMatchFound st resource (Consent.actors consent)) eqn:Hres.
  - apply resourceMatchFound_spec in Hres.
    split; [reflexivity |]. split; [reflexivity | contradiction].
  - split; [reflexivity |]. split; [| reflexivity].
    intros Hres'. apply resourceMatchFound_spec in Hres'. congruence.
Qed.

Lemma not_appearsIn client actors :
  isActor client actors = false → ¬ appearsIn (Client.organizationId client) actors.
Proof. intros Hf Happ. apply isActor_spec in Happ. congruence. Qed.

Lemma C3_resource_then_actor_witness :
  IssueOutcome.response
    (@issueToken (Scenario.spWith ["cB"]) ∅ Scenario.storeB "tok-1" 1000
       (Seed.tokenRequest Seed.DS_ADDRESS None))
  = Response.error 401 "access_denied" (Some "Client is not a party to this consent").
Proof.
  refine (proj1 (proj2 (@C3_resource_then_actor (Scenario.spWith ["cB"]) ∅ Scenario.storeB
            "tok-1" 1000 (Seed.tokenRequest Seed.DS_ADDRESS None) spClient
            (Seed.assertion Seed.SP (Some (Seed.b2b "org-sp" ["cB"]))) Seed.DS_ADDRESS
            (Seed.b2b "org-sp" ["cB"]) "http://pcm-url-base/Consent/cB" [] consentB
            _ _ _ _ _ _ _ _)) _).
  - vm_compute. reflexivity.
  - reflexivity.
  - vm_compute. reflexivity.
  - reflexivity.
  - reflexivity.
  - vm_compute. reflexivity.
  - reflexivity.
  - apply (not_appearsIn spClient). vm_compute. reflexivity.
  - apply resourceMatchFound_spec. vm_compute. reflexivity.
Defined.

(** The claim as stated fails when the resource is not a custodian's: the
    consent is active, the client is no party to it, and the answer is 400
    [invalid_target], not 401 [access_denied]. *)
Lemma C3_counterexample :
  let out := @issueToken (Scenario.spWith ["cB"]) ∅ Scenario.storeB "tok-1" 1000
               (Seed.tokenRequest "https://evil.example/fhir" None) in
  FHIRStore.getConsent Scenario.storeB (lastSegment (Some "http://pcm-url-base/Consent/cB"))
    = Some consentB
  ∧ Consent.status consentB = Some "active"
  ∧ ¬ appearsIn "org-sp" (Consent.actors consentB)
  ∧ IssueOutcome.response out
    = Response.error 400 "invalid_target"
        (Some "Requested resource is not authorized by the referenced consent")
  ∧ IssueOutcome.response out
    ≠ Response.error 401 "access_denied" (Some "Client is not a party to this consent").
Proof.
  split; [vm_compute; reflexivity |].
  split; [reflexivity |].
  split; [apply (not_appearsIn spClient); vm_compute; reflexivity |].
  split; [vm_compute; reflexivity | vm_compute; discriminate].
Qed.

(* --------------------------------------------------------------------- *)
(** ** C5: Consent update by a non-admin *)
(* --------------------------------------------------------------------- *)

(** C5, as the code has it.  For a PUT by a non-admin on a stored consent
    with a body whose id is absent or the path id: the answer is 403 and the
    store is unchanged unless the caller is an IRCP actor of the stored
    consent and the submitted [status] is [inactive]; in that case the
    answer is 200 with the stored consent whose [status] alone is set to
    [inactive].  The other fields of the body are not compared with the
    stored ones: they are ignored. *)
Theorem C5_requester_deactivates_only (st : FHIRStore.t) (organization_id : option string)
    (id : string) (updated existing : Consent.t) :
  Routes.isPcmAdmin st organization_id = false →
  FHIRStore.getConsent st (Some id) = Some existing →
  Routes.idMismatch (Consent.id updated) id = false →
  let deactivated := Consent.set_status (Some "inactive") existing in
  let out := Routes.putConsent st organization_id id updated in
  if Routes.isRequester organization_id (Consent.actors existing)
     && str_is (Consent.status updated) "inactive"
  then out = (FhirResponse.mk 200 (FhirResponse.OfConsent deactivated),
              FHIRStore.addConsent id deactivated st)
  else FhirResponse.status (fst out) = 403 ∧ snd out = st.
Proof.
  intros Hadmin Hget Hid deactivated out. subst out. unfold Routes.putConsent.
  rewrite Hget, Hid. cbn [Consent.status Consent.set_id]. rewrite Hadmin.
  destruct (Routes.isParty organization_id (Consent.actors existing)) eqn:Hparty;
    cbn [negb].
  - destruct (Routes.isRequester _ _); cbn [negb orb andb]; [| split; reflexivity].
    destruct (str_is _ _); cbn [negb]; [reflexivity | split; reflexivity].
  - assert (Hreq : Routes.isRequester organization_id (Consent.actors existing) = false).
    { unfold Routes.isParty, Routes.isRequester in *.
      induction (Consent.actors existing) as [| x l IH]; [reflexivity |].
      cbn [existsb] in *. apply orb_false_iff in Hparty as [Hx Hl].
      rewrite Hx, andb_false_r. exact (IH Hl). }
    rewrite Hreq. split; reflexivity.
Qed.

Lemma C5_requester_deactivates_only_witness :
  Routes.putConsent ConsentTest.store (Some "org-sp") "consent-2"
    (Consent.mk (Some "consent-2") (Some "inactive") None None None None)
  = (FhirResponse.mk 200
       (FhirResponse.OfConsent (Consent.set_status (Some "inactive") ConsentTest.stored)),
     FHIRStore.addConsent "consent-2"
       (Consent.set_status (Some "inactive") ConsentTest.stored) ConsentTest.store).
Proof.
  exact (C5_requester_deactivates_only ConsentTest.store (Some "org-sp") "consent-2"
           (Consent.mk (Some "consent-2") (Some "inactive") None None None None)
           ConsentTest.stored
           ltac:(vm_compute; reflexivity) ltac:(vm_compute; reflexivity)
           ltac:(vm_compute; reflexivity)).
Defined.

(** The claim as stated fails for the IRCP requester whose body sets
    [status: inactive] and changes other fields too: the answer is 200, not
    403, and the stored consent changes (its status). *)
Lemma C5_counterexample :
  let out := Routes.putConsent ConsentTest.store (Some "org-sp") "consent-2"
               ConsentTest.body in
  Routes.isPcmAdmin ConsentTest.store (Some "org-sp") = false
  ∧ Routes.isRequester (Some "org-sp") (Consent.actors ConsentTest.stored) = true
  ∧ Consent.patient ConsentTest.body ≠ Consent.patient ConsentTest.stored
  ∧ Consent.provision ConsentTest.body ≠ Consent.provision ConsentTest.stored
  ∧ FhirResponse.status (fst out) = 200
  ∧ FHIRStore.getConsent (snd out) (Some "consent-2")
    = Some (Consent.set_status (Some "inactive") ConsentTest.stored)
  ∧ FHIRStore.getConsent (snd out) (Some "consent-2") ≠ Some ConsentTest.stored.
Proof.
  repeat split; try (vm_compute; reflexivity); vm_compute; discriminate.
Qed.

(** The tests of [consent-update.test.js] on the non-admin path. *)
Example consent_update_wrong_org :
  FhirResponse.status
    (fst (Routes.putConsent ConsentTest.store (Some "org-other") "consent-2"
            (Consent.mk (Some "consent-2") (Some "inactive") None None None None)))
  = 403.
Proof. vm_compute. reflexivity. Qed.

Example consent_update_bad_status :
  FhirResponse.status
    (fst (Routes.putConsent ConsentTest.store (Some "org-sp") "consent-2"
            (Consent.mk (Some "consent-2") (Some "active") None None None None)))
  = 403.
Proof. vm_compute. reflexivity. Qed.

(* --------------------------------------------------------------------- *)
(** ** C9: Endpoint addresses *)
(* --------------------------------------------------------------------- *)

Lemma uniqueAddresses_insert (m : gmap string Endpoint.t) k e :
  uniqueAddresses m →
  uniqueAddresses (<[k := e]> m) ↔ addressFree m k (Endpoint.address e).
Proof.
  intros Huniq. split.
  - intros Hins j e' a Hj Hne Ha Ha'.
    apply Hne. apply (Hins j k e' e a); [| apply lookup_insert_eq | exact Ha' | exact Ha].
    rewrite lookup_insert_ne; [exact Hj | congruence].
  - intros Hfree i j e1 e2 a Hi Hj H1 H2.
    rewrite lookup_insert in Hi, Hj.
    destruct (decide (k = i)) as [<- | Hki], (decide (k = j)) as [<- | Hkj].
    + reflexivity.
    + injection Hi as <-. exfalso.
      apply (Hfree j e2 a Hj); [congruence | exact H1 | exact H2].
    + injection Hj as <-. exfalso.
      apply (Hfree i e1 a Hi); [congruence | exact H2 | exact H1].
    + exact (Huniq i j e1 e2 a Hi Hj H1 H2).
Qed.

Lemma bootstrap_uniqueAddresses : uniqueAddresses (FHIRStore.Endpoint Seed.bootstrap).
Proof.
  intros i j e1 e2 a Hi Hj H1 H2. cbn [Seed.bootstrap FHIRStore.Endpoint] in Hi, Hj.
  apply lookup_insert_Some in Hi as [[<- <-] | [_ Hi]];
    [| apply lookup_insert_Some in Hi as [[<- <-] | [_ Hi]];
       [| rewrite lookup_empty in Hi; discriminate]];
  (apply lookup_insert_Some in Hj as [[<- <-] | [_ Hj]];
    [| apply lookup_insert_Some in Hj as [[<- <-] | [_ Hj]];
       [| rewrite lookup_empty in Hj; discriminate]]);
  try reflexivity; cbn in H1, H2; congruence.
Qed.

(** C9, as the code has it.  Neither [POST /Endpoint] nor [PUT /Endpoint/:id]
    looks at the addresses already stored: whether a request is accepted
    does not depend on the address it carries.  An accepted request stores
    the Endpoint under its id, and from a store with unique addresses the
    result has unique addresses exactly when no Endpoint stored under
    another id already has the submitted address.  A request that is not
    accepted leaves the store as it was. *)
Theorem C9_addresses_unique_iff_fresh (st : FHIRStore.t) (organization_id : option string)
    (uuid id : string) (resourceType : option string) (e : Endpoint.t) :
  uniqueAddresses (FHIRStore.Endpoint st) →
  let posted := Routes.postEndpoint st organization_id uuid resourceType e in
  let put := Routes.putEndpoint st organization_id id e in
  (∀ a, FhirResponse.status (fst (Routes.postEndpoint st organization_id uuid resourceType
                                    (with_address a e)))
        = FhirResponse.status (fst posted)
        ∧ FhirResponse.status (fst (Routes.putEndpoint st organization_id id
                                      (with_address a e)))
          = FhirResponse.status (fst put))
  ∧ (if FhirResponse.status (fst posted) =? 201 then
       ∃ key created,
         fst posted = FhirResponse.mk 201 (FhirResponse.OfEndpoint created)
         ∧ Endpoint.address created = Endpoint.address e
         ∧ FHIRStore.Endpoint (snd posted) = <[key := created]> (FHIRStore.Endpoint st)
         ∧ (uniqueAddresses (FHIRStore.Endpoint (snd posted))
            ↔ addressFree (FHIRStore.Endpoint st) key (Endpoint.address e))
     else snd posted = st)
  ∧ (if FhirResponse.status (fst put) =? 200 then
       ∃ updated,
         fst put = FhirResponse.mk 200 (FhirResponse.OfEndpoint updated)
         ∧ Endpoint.address updated = Endpoint.address e
         ∧ FHIRStore.Endpoint (snd put) = <[id := updated]> (FHIRStore.Endpoint st)
         ∧ (uniqueAddresses (FHIRStore.Endpoint (snd put))
            ↔ addressFree (FHIRStore.Endpoint st) id (Endpoint.address e))
     else snd put = st).
Proof.
  intros Huniq posted put. subst posted put. split; [| split].
  - intros a. unfold Routes.postEndpoint, Routes.putEndpoint, FHIRStore.addEndpoint.
    cbn [with_address Endpoint.managingOrganization Endpoint.id].
    split.
    + destruct (negb (str_is resourceType "Endpoint")); [reflexivity |].
      destruct (if Routes.isPcmAdmin st organization_id then false else _); reflexivity.
    + destruct (FHIRStore.getEndpoint st (Some id)); [| reflexivity].
      destruct (if Routes.isPcmAdmin st organization_id then false else _); [reflexivity |].
      destruct (Routes.idMismatch (Endpoint.id e) id); reflexivity.
  - unfold Routes.postEndpoint, FHIRStore.addEndpoint.
    destruct (negb (str_is resourceType "Endpoint")); [reflexivity |].
    destruct (if Routes.isPcmAdmin st organization_id then false else _); [reflexivity |].
    cbn [fst snd FhirResponse.status Z.eqb Pos.eqb FHIRStore.Endpoint
         FHIRStore.with_Endpoint].
    eexists _, _. split; [reflexivity |]. split; [reflexivity |].
    split; [reflexivity |].
    match goal with
    | |- uniqueAddresses (<[?k := ?c]> _) ↔ _ =>
        exact (uniqueAddresses_insert _ k c Huniq)
    end.
  - unfold Routes.putEndpoint, FHIRStore.updateEndpoint.
    destruct (FHIRStore.getEndpoint st (Some id)); [| reflexivity].
    destruct (if Routes.isPcmAdmin st organization_id then false else _); [reflexivity |].
    destruct (Routes.idMismatch (Endpoint.id e) id); [reflexivity |].
    cbn [fst snd FhirResponse.status Z.eqb Pos.eqb FHIRStore.Endpoint
         FHIRStore.with_Endpoint].
    eexists. split; [reflexivity |]. split; [reflexivity |].
    split; [reflexivity |].
    match goal with
    | |- uniqueAddresses (<[?k := ?c]> _) ↔ _ =>
        exact (uniqueAddresses_insert _ k c Huniq)
    end.
Qed.

Lemma C9_addresses_unique_iff_fresh_witness :
  ∃ key created,
    fst (Routes.postEndpoint Seed.bootstrap (Some "org-vaccine-repo") "ep-2"
           (Some "Endpoint") EndpointTest.duplicate)
    = FhirResponse.mk 201 (FhirResponse.OfEndpoint created)
    ∧ Endpoint.address created = Some Seed.DS_ADDRESS
    ∧ FHIRStore.Endpoint
        (snd (Routes.postEndpoint Seed.bootstrap (Some "org-vaccine-repo") "ep-2"
                (Some "Endpoint") EndpointTest.duplicate))
      = <[key := created]> (FHIRStore.Endpoint Seed.bootstrap)
    ∧ (uniqueAddresses
         (FHIRStore.Endpoint
            (snd (Routes.postEndpoint Seed.bootstrap (Some "org-vaccine-repo") "ep-2"
                    (Some "Endpoint") EndpointTest.duplicate)))
       ↔ addressFree (FHIRStore.Endpoint Seed.bootstrap) key (Some Seed.DS_ADDRESS)).
Proof.
  exact (proj1 (proj2 (C9_addresses_unique_iff_fresh Seed.bootstrap
                         (Some "org-vaccine-repo") "ep-2" "ep-2" (Some "Endpoint")
                         EndpointTest.duplicate bootstrap_uniqueAddresses))).
Defined.

(** The claim as stated fails: the Data Source, a non-admin, posts a second
    Endpoint with the address of its first one; the request is accepted and
    two stored Endpoints have the same address. *)
Lemma C9_counterexample :
  let out := Routes.postEndpoint Seed.bootstrap (Some "org-vaccine-repo") "ep-2"
               (Some "Endpoint") EndpointTest.duplicate in
  uniqueAddresses (FHIRStore.Endpoint Seed.bootstrap)
  ∧ Routes.isPcmAdmin Seed.bootstrap (Some "org-vaccine-repo") = false
  ∧ FhirResponse.status (fst out) = 201
  ∧ ¬ uniqueAddresses (FHIRStore.Endpoint (snd out)).
Proof.
  split; [exact bootstrap_uniqueAddresses |].
  split; [vm_compute; reflexivity |].
  split; [vm_compute; reflexivity |].
  intros Huniq.
  assert (Heq : "ep-2" = "endpoint-vaccine-repo"); [| discriminate Heq].
  apply (Huniq "ep-2" "endpoint-vaccine-repo"
           (Endpoint.mk (Some "ep-2") (Some Seed.DS_ADDRESS)
              (Some (Seed.ref "Organization/org-vaccine-repo")))
           Seed.endpointVaccine Seed.DS_ADDRESS);
    try reflexivity; vm_compute; reflexivity.
Qed.

(* --------------------------------------------------------------------- *)
(** ** C10: creation of an instance HealthcareService *)
(* --------------------------------------------------------------------- *)

(** C10, as the code has it by design, for a body without a [meta] object.
    A non-admin caller with a mapped organization posts a body that is not
    catalog-tagged and has no based-on-canonical extension.  Two resources
    are stored.  The canonical copy is tagged [catalog], is active, has no
    [providedBy], and keeps the identifiers of the body when the body has
    a first identifier; only otherwise does it get the generated identifier
    under the catalog-id system.  The instance is tagged [instance], is
    provided by the caller, has [active] defaulted to [false], and its
    extensions end with the link to the canonical copy. *)
Theorem C10_instance_creates_canonical (st : FHIRStore.t) (caller : string)
    (u : Routes.uuids) (resourceType : option string) (incoming : HealthcareService.t) :
  str_is resourceType "HealthcareService" = true →
  Routes.isPcmAdmin st (Some caller) = false →
  JS.truthy (Some caller) = true →
  HealthcareService.meta incoming = None →
  List.find (fun e => str_is (Extension.url e) EXT_BASED_ON_CANONICAL)
            (ensureArray (HealthcareService.extension incoming)) = None →
  let key := Routes.keyOf (Routes.forInstance u) (HealthcareService.id incoming) in
  Routes.forCanonical u ≠ key →
  let out := Routes.postHealthcareService st (Some caller) u resourceType incoming in
  ∃ canonical instance,
    fst out = FhirResponse.mk 201 (FhirResponse.OfHealthcareService instance)
    ∧ FHIRStore.HealthcareService (snd out) !! Routes.forCanonical u = Some canonical
    ∧ FHIRStore.HealthcareService (snd out) !! key = Some instance
    ∧ (∀ k, k ≠ key → k ≠ Routes.forCanonical u →
         FHIRStore.HealthcareService (snd out) !! k = FHIRStore.HealthcareService st !! k)
    ∧ HealthcareService.id canonical = Some (Routes.forCanonical u)
    ∧ HealthcareService.meta canonical = Some (Meta.mk (Some (Arr [Routes.catalogTag])))
    ∧ HealthcareService.active canonical = Some true
    ∧ HealthcareService.providedBy canonical = None
    ∧ HealthcareService.identifier canonical
      = match HealthcareService.identifier incoming with
        | Some (Arr (x :: l)) => Some (Arr (x :: l))
        | _ => Some (Arr [Identifier.mk (Some CATALOG_ID_SYSTEM)
                            (Some ("PCM-CAT-" +:+ Routes.forIdentifier u))])
        end
    ∧ HealthcareService.id instance = Some key
    ∧ HealthcareService.meta instance = Some (Meta.mk (Some (Arr [Routes.instanceTag])))
    ∧ HealthcareService.providedBy instance
      = Some (Reference.mk (Some ("Organization/" +:+ caller)) None)
    ∧ HealthcareService.active instance
      = Some (default false (HealthcareService.active incoming))
    ∧ HealthcareService.extension instance
      = Some (Arr (ensureArray (HealthcareService.extension incoming)
                   ++ [Routes.basedOn (Routes.forCanonical u)])).
Proof.
  intros Htype Hadmin Hcaller Hmeta Hfind key Hne out. subst out.
  unfold Routes.postHealthcareService. rewrite Htype, Hadmin, Hcaller, Hmeta.
  cbn [negb mbind option_bind ensureArray existsb default].
  destruct incoming as [sid active name providedBy identifier extension meta].
  cbn [HealthcareService.meta HealthcareService.extension HealthcareService.id
       HealthcareService.active HealthcareService.identifier] in *.
  subst meta.
  assert (Hstore : ∀ (c i : HealthcareService.t) k,
            (k = Routes.forCanonical u →
             FHIRStore.HealthcareService
               (FHIRStore.addHealthcareService key i
                  (FHIRStore.addHealthcareService (Routes.forCanonical u) c st)) !! k
             = Some c)
            ∧ (k = key →
               FHIRStore.HealthcareService
                 (FHIRStore.addHealthcareService key i
                    (FHIRStore.addHealthcareService (Routes.forCanonical u) c st)) !! k
               = Some i)
            ∧ (k ≠ key → k ≠ Routes.forCanonical u →
               FHIRStore.HealthcareService
                 (FHIRStore.addHealthcareService key i
                    (FHIRStore.addHealthcareService (Routes.forCanonical u) c st)) !! k
               = FHIRStore.HealthcareService st !! k)).
  { intros c i k.
    cbn [FHIRStore.addHealthcareService FHIRStore.with_HealthcareService
         FHIRStore.HealthcareService].
    split; [| split].
    - intros ->. rewrite lookup_insert_ne by congruence. apply lookup_insert_eq.
    - intros ->. apply lookup_insert_eq.
    - intros H1 H2. rewrite !lookup_insert_ne by congruence. reflexivity. }
  destruct extension as [[l | x] |];
    cbn [ensureArray] in Hfind;
    unfold Routes.parse, Routes.createInstance;
    cbn [HealthcareService.meta HealthcareService.extension HealthcareService.id
         HealthcareService.active HealthcareService.identifier HealthcareService.name
         HealthcareService.providedBy Routes.Heap.allocArray Routes.Heap.empty
         Routes.Heap.arrays Routes.Heap.metas Routes.extensionsOf Routes.s_extension
         Routes.s_meta Routes.s_id Routes.s_active Routes.s_identifier Routes.s_name
         Routes.s_providedBy Routes.Heap.elements length app lookup list_lookup default];
    unfold Datatypes.id;
    rewrite Hfind;
    cbn -[Routes.keyOf String.append FHIRStore.addHealthcareService];
    fold key;
    (eexists _, _; split; [reflexivity |];
     split; [apply (proj1 (Hstore _ _ _)); reflexivity |];
     split; [apply (proj1 (proj2 (Hstore _ _ _))); reflexivity |];
     split; [intros k; apply (proj2 (proj2 (Hstore _ _ _))) |];
     cbn [HealthcareService.id HealthcareService.meta HealthcareService.active
          HealthcareService.providedBy HealthcareService.identifier
          HealthcareService.extension];
     repeat split; try reflexivity;
     destruct identifier as [[[| i0 il] | i0] |]; reflexivity).
Qed.

Lemma C10_instance_creates_canonical_witness :
  let out := Routes.postHealthcareService Seed.bootstrap (Some "org-sp") ServiceTest.u
               (Some "HealthcareService") ServiceTest.plain in
  ∃ canonical instance,
    fst out = FhirResponse.mk 201 (FhirResponse.OfHealthcareService instance)
    ∧ FHIRStore.HealthcareService (snd out) !! "u-canonical" = Some canonical
    ∧ FHIRStore.HealthcareService (snd out) !! "u-instance" = Some instance
    ∧ (∀ k, k ≠ "u-instance" → k ≠ "u-canonical" →
         FHIRStore.HealthcareService (snd out) !! k
         = FHIRStore.HealthcareService Seed.bootstrap !! k)
    ∧ HealthcareService.id canonical = Some "u-canonical"
    ∧ HealthcareService.meta canonical = Some (Meta.mk (Some (Arr [Routes.catalogTag])))
    ∧ HealthcareService.active canonical = Some true
    ∧ HealthcareService.providedBy canonical = None
    ∧ HealthcareService.identifier canonical
      = Some (Arr [Identifier.mk (Some CATALOG_ID_SYSTEM) (Some "PCM-CAT-u-cat")])
    ∧ HealthcareService.id instance = Some "u-instance"
    ∧ HealthcareService.meta instance = Some (Meta.mk (Some (Arr [Routes.instanceTag])))
    ∧ HealthcareService.providedBy instance
      = Some (Reference.mk (Some "Organization/org-sp") None)
    ∧ HealthcareService.active instance = Some false
    ∧ HealthcareService.extension instance = Some (Arr [Routes.basedOn "u-canonical"]).
Proof.
  exact (C10_instance_creates_canonical Seed.bootstrap "org-sp" ServiceTest.u
           (Some "HealthcareService") ServiceTest.plain
           eq_refl ltac:(vm_compute; reflexivity) eq_refl eq_refl eq_refl
           ltac:(discriminate)).
Defined.

(** The claim as stated fails for a body that brings an identifier of its
    own: two resources are stored, but the canonical copy carries the
    body's identifier and none under the catalog-id system. *)
Lemma C10_counterexample :
  let out := Routes.postHealthcareService Seed.bootstrap (Some "org-sp") ServiceTest.u
               (Some "HealthcareService") ServiceTest.withIdentifier in
  Routes.isPcmAdmin Seed.bootstrap (Some "org-sp") = false
  ∧ existsb Routes.isCatalogTag
      (ensureArray (HealthcareService.meta ServiceTest.withIdentifier ≫= Meta.tag)) = false
  ∧ List.find (fun e => str_is (Extension.url e) EXT_BASED_ON_CANONICAL)
      (ensureArray (HealthcareService.extension ServiceTest.withIdentifier)) = None
  ∧ FhirResponse.status (fst out) = 201
  ∧ ∃ canonical,
      FHIRStore.HealthcareService (snd out) !! "u-canonical" = Some canonical
      ∧ existsb Routes.isCatalogTag
          (ensureArray (HealthcareService.meta canonical ≫= Meta.tag)) = true
      ∧ HealthcareService.identifier canonical
        = Some (Arr [Identifier.mk (Some "urn:local") (Some "svc-7")])
      ∧ List.find (fun i => str_is (Identifier.system i) CATALOG_ID_SYSTEM)
          (ensureArray (HealthcareService.identifier canonical)) = None.
Proof.
  split; [vm_compute; reflexivity |].
  split; [reflexivity |].
  split; [reflexivity |].
  split; [vm_compute; reflexivity |].
  eexists. split; [vm_compute; reflexivity |].
  repeat split; vm_compute; reflexivity.
Qed.

Lemma no_catalog_after_retag (tags : list Coding.t) :
  existsb Routes.isCatalogTag
    (List.filter (fun t => negb (str_is (Coding.code t) META_TAG_CATALOG)) tags
     ++ [Routes.instanceTag])%list = false.
Proof.
  rewrite existsb_app. apply orb_false_iff. split; [| reflexivity].
  induction tags as [| t tags IH]; [reflexivity |].
  cbn [List.filter]. destruct (str_is (Coding.code t) META_TAG_CATALOG) eqn:Hcode;
    cbn [negb]; [exact IH |].
  cbn [existsb]. rewrite IH. unfold Routes.isCatalogTag. rewrite Hcode.
  rewrite andb_false_r. reflexivity.
Qed.

Lemma shared_meta_tags (t : option (array_or Coding.t)) (arrays : list (list Extension.t))
    (a : nat) (e : Extension.t) :
  Routes.Heap.tagOf 0
    (Routes.retag 0 META_TAG_CATALOG Routes.instanceTag
       (Routes.Heap.push a e
          (Routes.retag 0 META_TAG_INSTANCE Routes.catalogTag
             (Routes.Heap.mk [t] arrays))))
  = Some (Arr (List.filter (fun t => negb (str_is (Coding.code t) META_TAG_CATALOG))
                 (List.filter (fun t => negb (str_is (Coding.code t) META_TAG_INSTANCE))
                    (ensureArray t))
               ++ [Routes.instanceTag])%list).
Proof.
  unfold Routes.retag, Routes.Heap.push, Routes.Heap.setTag, Routes.Heap.tagOf.
  cbn [Routes.Heap.metas Routes.Heap.arrays insert list_insert lookup list_lookup
       mjoin option_join ensureArray].
  rewrite List.filter_app. cbn [List.filter]. 
  replace (negb (str_is (Coding.code Routes.catalogTag) META_TAG_CATALOG)) with false
    by reflexivity.
  rewrite app_nil_r. reflexivity.
Qed.

(** The [meta] object of a body is shared by the instance and its canonical
    copy ([{ ...instance }] copies the reference): the tags written for the
    instance replace those written for the canonical copy, so both stored
    resources end with the same tags, [instance] among them and [catalog]
    not. *)
Lemma shared_meta_retags_canonical (st : FHIRStore.t) (caller : string)
    (u : Routes.uuids) (resourceType : option string) (incoming : HealthcareService.t)
    (m : Meta.t) :
  str_is resourceType "HealthcareService" = true →
  Routes.isPcmAdmin st (Some caller) = false →
  JS.truthy (Some caller) = true →
  HealthcareService.meta incoming = Some m →
  existsb Routes.isCatalogTag (ensureArray (Meta.tag m)) = false →
  List.find (fun e => str_is (Extension.url e) EXT_BASED_ON_CANONICAL)
            (ensureArray (HealthcareService.extension incoming)) = None →
  let key := Routes.keyOf (Routes.forInstance u) (HealthcareService.id incoming) in
  Routes.forCanonical u ≠ key →
  let out := Routes.postHealthcareService st (Some caller) u resourceType incoming in
  let tags :=
    (List.filter (fun t => negb (str_is (Coding.code t) META_TAG_CATALOG))
       (List.filter (fun t => negb (str_is (Coding.code t) META_TAG_INSTANCE))
          (ensureArray (Meta.tag m)))
     ++ [Routes.instanceTag])%list in
  ∃ canonical instance,
    FHIRStore.HealthcareService (snd out) !! Routes.forCanonical u = Some canonical
    ∧ FHIRStore.HealthcareService (snd out) !! key = Some instance
    ∧ HealthcareService.meta canonical = Some (Meta.mk (Some (Arr tags)))
    ∧ HealthcareService.meta instance = Some (Meta.mk (Some (Arr tags)))
    ∧ existsb Routes.isCatalogTag
        (ensureArray (HealthcareService.meta canonical ≫= Meta.tag)) = false.
Proof.
  intros Htype Hadmin Hcaller Hmeta Hcat Hfind key Hne out tags. subst out.
  unfold Routes.postHealthcareService. rewrite Htype, Hadmin, Hcaller, Hmeta.
  cbn [negb mbind option_bind]. rewrite Hcat.
  destruct incoming as [sid active name providedBy identifier extension meta].
  cbn [HealthcareService.meta HealthcareService.extension HealthcareService.id
       HealthcareService.active HealthcareService.identifier] in *.
  subst meta.
  destruct extension as [[l | x] |];
    cbn [ensureArray] in Hfind;
    unfold Routes.parse, Routes.createInstance;
    cbn [HealthcareService.meta HealthcareService.extension HealthcareService.id
         HealthcareService.active HealthcareService.identifier HealthcareService.name
         HealthcareService.providedBy Routes.Heap.allocArray Routes.Heap.allocMeta
         Routes.Heap.empty
         Routes.Heap.arrays Routes.Heap.metas Routes.extensionsOf Routes.s_extension
         Routes.s_meta Routes.s_id Routes.s_active Routes.s_identifier Routes.s_name
         Routes.s_providedBy Routes.Heap.elements length app lookup list_lookup default];
    unfold Datatypes.id;
    rewrite Hfind;
    cbn -[Routes.keyOf String.append FHIRStore.addHealthcareService List.filter
          Routes.instanceTag Routes.catalogTag META_TAG_CATALOG META_TAG_INSTANCE str_is];
    fold key.
  all: (eexists _, _;
        cbn [FHIRStore.addHealthcareService FHIRStore.with_HealthcareService
             FHIRStore.HealthcareService];
        split; [rewrite lookup_insert_ne by congruence; apply lookup_insert_eq |];
        split; [apply lookup_insert_eq |];
        cbn [HealthcareService.meta Routes.read Routes.s_meta fmap option_fmap option_map
             mbind option_bind Meta.tag];
        rewrite shared_meta_tags;
        split; [reflexivity |]; split; [reflexivity |];
        apply no_catalog_after_retag).
Qed.

Example tagged_body_loses_catalog :
  let out := Routes.postHealthcareService Seed.bootstrap (Some "org-sp") ServiceTest.u
               (Some "HealthcareService") ServiceTest.tagged in
  FhirResponse.status (fst out) = 201
  ∧ ∃ canonical,
      FHIRStore.HealthcareService (snd out) !! "u-canonical" = Some canonical
      ∧ HealthcareService.meta canonical = Some (Meta.mk (Some (Arr [Routes.instanceTag])))
      ∧ existsb Routes.isCatalogTag
          (ensureArray (HealthcareService.meta canonical ≫= Meta.tag)) = false.
Proof.
  split; [vm_compute; reflexivity |].
  eexists. split; [vm_compute; reflexivity |].
  split; vm_compute; reflexivity.
Qed.

(* --------------------------------------------------------------------- *)
(** ** C7: who may introspect *)
(* --------------------------------------------------------------------- *)

Lemma split_no_separator sep s : JS.includes sep s = false → JS.split sep s = [s].
Proof.
  induction s as [| c rest IH]; [reflexivity |].
  cbn [JS.includes JS.split]. intros Hinc.
  apply orb_false_iff in Hinc as [Hc Hrest].
  rewrite Hc, (IH Hrest). reflexivity.
Qed.

Lemma bearer_of_header bearer :
  JS.includes " " bearer = false →
  JS.startsWith "Bearer " ("Bearer " +:+ bearer) = true
  ∧ JS.split " " ("Bearer " +:+ bearer) !! 1%nat = Some bearer.
Proof.
  intros Hinc. split.
  - unfold JS.startsWith. cbn. destruct bearer; reflexivity.
  - simpl. change ("" +:+ bearer) with bearer.
    rewrite (split_no_separator _ _ Hinc). reflexivity.
Qed.

(** The scope of every token [issueToken] stores is one of the two fixed
    strings; none is the introspection scope. *)
Lemma issueToken_scope `{Platform} tokens st uuid now req :
  let out := issueToken tokens st uuid now req in
  Response.status (IssueOutcome.response out) = 200 →
  ∃ record, IssueOutcome.tokens out !! uuid = Some record
            ∧ (Token.scope record = "system/*.cruds" ∨ Token.scope record = B2B_SCOPE).
Proof.
  intros out Hst.
  destruct (issueToken_issued tokens st uuid now req Hst)
    as (client & a & resource & sc & pc & ctx & pem & _ & Hbind & _ & _ & Htok).
  subst out. rewrite Htok, lookup_insert_eq. eexists. split; [reflexivity |].
  cbn [Token.scope]. unfold bindConsent in Hbind.
  destruct (Assertion.hl7_b2b a) as [ext |].
  - destruct (b2bBinding _ _ _ _); [discriminate |]. injection Hbind as <- _.
    right. reflexivity.
  - injection Hbind as <- _. left. reflexivity.
Qed.

(** C7, as the code has it.  [requireAuth] admits every bearer token that
    is in the token store and not expired: the request is then answered by
    [introspectToken], and that answer does not depend on the scope of the
    caller's token.  No scope is read on the way. *)
Theorem C7_scope_not_required (tokens : TokenStore) (st : FHIRStore.t) (bearer : string)
    (user : Token.t) (token : option string) (now : Z) :
  tokens !! bearer = Some user →
  now ≤ Token.exp user →
  JS.includes " " bearer = false →
  postIntrospect tokens st true (Some ("Bearer " +:+ bearer)) token now
  = (introspectToken tokens st user token now, tokens)
  ∧ ∀ scope,
      introspectToken tokens st (with_scope scope user) token now
      = introspectToken tokens st user token now.
Proof.
  intros Hlook Hexp Hinc. split.
  - destruct (bearer_of_header bearer Hinc) as [Hpre Hsplit].
    unfold postIntrospect, requireMtls, requireAuth.
    rewrite Hpre, Hsplit, Hlook. cbn [negb].
    replace (Token.exp user <? now) with false; [reflexivity |].
    symmetry. apply Z.ltb_ge. exact Hexp.
  - intros scope. reflexivity.
Qed.

Lemma C7_scope_not_required_witness :
  postIntrospect (IssueOutcome.tokens AdminTest.issued) Seed.bootstrap true
    (Some "Bearer tok-pcm") (Some "tok-pcm") 1010
  = (introspectToken (IssueOutcome.tokens AdminTest.issued) Seed.bootstrap
       AdminTest.record (Some "tok-pcm") 1010,
     IssueOutcome.tokens AdminTest.issued).
Proof.
  exact (proj1 (C7_scope_not_required (IssueOutcome.tokens AdminTest.issued) Seed.bootstrap
                  "tok-pcm" AdminTest.record (Some "tok-pcm") 1010
                  ltac:(vm_compute; reflexivity) ltac:(vm_compute; discriminate)
                  ltac:(vm_compute; reflexivity))).
Defined.

(** The claim as stated fails: the client [pcm-core] holds no introspection
    scope, the token it is issued has scope [system/*.cruds], and its
    introspection request is answered, with the claims of the token. *)
Lemma C7_counterexample :
  (∃ client, List.find (fun c => String.eqb (Client.clientId c) "pcm-core") clients
             = Some client
             ∧ includes_str (Client.scopes client) "introspection" = false)
  ∧ Response.status (IssueOutcome.response AdminTest.issued) = 200
  ∧ IssueOutcome.tokens AdminTest.issued !! "tok-pcm" = Some AdminTest.record
  ∧ Token.scope AdminTest.record = "system/*.cruds"
  ∧ fst (postIntrospect (IssueOutcome.tokens AdminTest.issued) Seed.bootstrap true
           (Some "Bearer tok-pcm") (Some "tok-pcm") 1010)
    = Response.mk 200 (Response.Claims AdminTest.record).
Proof.
  split; [eexists; split; vm_compute; reflexivity |].
  repeat split; vm_compute; reflexivity.
Qed.

(* --------------------------------------------------------------------- *)
(** ** The policy enforcement point: C6 and C8 *)
(* --------------------------------------------------------------------- *)

Import PEP.

Lemma length_append (a b : string) :
  String.length (a +:+ b) = (String.length a + String.length b)%nat.
Proof. induction a as [| c a IH]; cbn; [reflexivity | rewrite <- IH; reflexivity]. Qed.

Lemma stripToken_token (base : string) : stripToken (base +:+ "/token") = base.
Proof.
  induction base as [| c base IH]; [reflexivity |].
  change (String c base +:+ "/token") with (String c (base +:+ "/token")).
  cbn [stripToken]. rewrite IH.
  destruct (String.eqb_spec (String c (base +:+ "/token")) "/token") as [Heq | _];
    [| reflexivity].
  apply (f_equal String.length) in Heq. cbn [String.length] in Heq.
  rewrite length_append in Heq. cbn in Heq. lia.
Qed.

Section Calls.
Context {S : Type} (pcm : call → S → reply * S).

Ltac ask :=
  match goal with
  | |- context [pcm ?c ?s] =>
      let d := fresh "d" in let st := fresh "status" in let s1 := fresh "s" in
      destruct (pcm c s) as [[d | st] s1]
  end.

Ltac cases :=
  repeat first
    [ progress unfold getSmartConfiguration
    | progress cbn [run bind smartConfig introspectionToken token_endpoint
                    introspection_endpoint fst snd negb]
    | ask
    | match goal with
      | |- context [match token_endpoint ?c with _ => _ end] =>
          destruct (token_endpoint c) eqn:?
      | |- context [if JS.truthy ?t then _ else _] => destruct (JS.truthy t) eqn:?
      | |- context [if negb (active ?r) then _ else _] => destruct (active r) eqn:?
      | |- context [match mapIdentity ?n ?r with _ => _ end] =>
          destruct (mapIdentity n r) eqn:?
      | |- context [match ?x with Some _ => _ | None => _ end] => is_var x; destruct x
      | |- context [match ?x with inl _ => _ | inr _ => _ end] => is_var x; destruct x
      end ].

Lemma handleAuthCheck_calls url now authorization st s :
  let '(out, _, tr) := run pcm (handleAuthCheck url now authorization st) s in
  ∀ pre c rep post,
    tr = (pre ++ (c, rep) :: post)%list → isPost c = true →
    ¬ In c (List.map fst pre)
    ∧ match rep with
      | Failed status =>
          post = []
          ∧ fst out = mkResponse 401 "Unauthorized" None
          ∧ (invalidates status → introspectionToken (snd out) = None)
      | Fulfilled d =>
          isIntrospect c = true →
          post = [] ∧ fst out = afterIntrospection now (introspection_of d)
      end.
Proof.
  unfold handleAuthCheck.
  destruct authorization as [h |]; [| intros [|] ? ? ? [=]].
  destruct (JS.startsWith "Bearer " h); cbn [negb]; [| intros [|] ? ? ? [=]].
  destruct st as [cfg tok]. unfold getIntrospectionToken.
  cases.
  all: intros pre call0 rep post Htr Hpost.
  all: repeat match goal with
              | H : [] = (?p ++ _ :: _)%list |- _ => destruct p; discriminate H
              | H : (_ :: _) = (?p ++ _ :: _)%list |- _ =>
                  destruct p as [| ? ?]; cbn [app] in H;
                  [simplify_eq | injection H as ? H; subst]
              end.
  all: try discriminate Hpost.
  all: cbn [List.map fst snd In onError introspectionToken isIntrospect smartConfig].
  all: (split; [intros Hin; repeat (destruct Hin as [Hin | Hin]; [discriminate Hin |]);
               exact Hin |]).
  all: try (intros Hf; discriminate Hf).
  all: try (intros _; split; [reflexivity |]; unfold afterIntrospection;
            match goal with Ha : active _ = _ |- _ => rewrite Ha end; cbn [negb];
            try match goal with Hm : mapIdentity _ _ = _ |- _ => rewrite Hm end;
            reflexivity).
  all: split; [reflexivity |]; split; [reflexivity |].
  all: unfold invalidates; intros [-> | ->]; reflexivity.
Qed.

Ltac positions :=
  repeat match goal with
         | H : [] = (?p ++ _ :: _)%list |- _ => destruct p; discriminate H
         | H : (_ :: _) = (?p ++ _ :: _)%list |- _ =>
             destruct p as [| ? ?]; cbn [app] in H;
             [simplify_eq | injection H as ? H; subst]
         end.

(** After a failed discovery the handler goes on, and its next call goes
    to the configured endpoint. *)
Lemma handleAuthCheck_fallback url now authorization st s :
  let '(_, _, tr) := run pcm (handleAuthCheck url now authorization st) s in
  ∀ pre status post,
    tr = (pre ++ (GetSmartConfiguration, Failed status) :: post)%list →
    ∃ c rep rest,
      post = (c, rep) :: rest
      ∧ (c = PostToken (url +:+ "/token") url
         ∨ ∃ bearer token, c = PostIntrospect (Some (url +:+ "/introspect")) bearer token).
Proof.
  unfold handleAuthCheck.
  destruct authorization as [h |]; [| intros [|] ? ? [=]].
  destruct (JS.startsWith "Bearer " h); cbn [negb]; [| intros [|] ? ? [=]].
  destruct st as [cfg tok]. unfold getIntrospectionToken.
  cases.
  all: rewrite ?stripToken_token.
  all: intros pre failure post Htr.
  all: positions.
  all: eexists _, _, _; split; [reflexivity |].
  all: first [left; reflexivity | right; eexists _, _; reflexivity].
Qed.

(** A cached token outlives the handler, unless the introspection fails
    with 401 or 403; then that call is the last one. *)
Lemma handleAuthCheck_keeps url now authorization st s :
  JS.truthy (introspectionToken st) = true →
  let '(out, _, tr) := run pcm (handleAuthCheck url now authorization st) s in
  introspectionToken (snd out) = introspectionToken st
  ∨ ∃ pre c status,
      tr = (pre ++ [(c, Failed (Some status))])%list
      ∧ isIntrospect c = true ∧ (status = 401 ∨ status = 403)
      ∧ introspectionToken (snd out) = None.
Proof.
  intros Hcached. unfold handleAuthCheck.
  destruct authorization as [h |]; [| left; reflexivity].
  destruct (JS.startsWith "Bearer " h); cbn [negb]; [| left; reflexivity].
  destruct st as [cfg tok]. cbn [introspectionToken] in Hcached.
  unfold getIntrospectionToken. cbn [introspectionToken]. rewrite Hcached.
  cases.
  all: cbn [onError snd introspectionToken smartConfig].
  all: try (left; reflexivity).
  all: repeat match goal with
              | |- context [match ?x with Some _ => _ | None => _ end] =>
                  is_var x; destruct x
              end.
  all: try (left; reflexivity).
  all: match goal with
       | |- context [(?z =? 401) || (?z =? 403)] =>
           destruct (z =? 401) eqn:H1; [apply Z.eqb_eq in H1 as -> |];
           [| destruct (z =? 403) eqn:H3; [apply Z.eqb_eq in H3 as -> |]];
           cbn [orb introspectionToken]
       end.
  all: try (left; reflexivity).
  all: right.
  all: match goal with
       | |- ∃ pre c status, ?l = _ ∧ _ =>
           match l with
           | [?a] => exists []
           | [?a; ?b] => exists [a]
           end
       end.
  all: eexists _, _; split; [reflexivity |]; split; [reflexivity |]; auto.
Qed.

(** Without a cached token the handler asks for one before it introspects,
    and introspects under the token it was given; it asks for none only
    when its configuration, cached or just discovered, has no token
    endpoint. *)
Lemma handleAuthCheck_fresh url now h st s :
  JS.startsWith "Bearer " h = true →
  introspectionToken st = None →
  let '(out, _, tr) := run pcm (handleAuthCheck url now (Some h) st) s in
  (existsb isTokenRequest (List.map fst tr) = true
   ∨ (∃ config,
        token_endpoint config = None
        ∧ (smartConfig st = Some config ∧ tr = []
           ∨ smartConfig st = None
             ∧ ∃ d, tr = [(GetSmartConfiguration, Fulfilled d)] ∧ config = config_of d))
     ∧ fst out = mkResponse 401 "Unauthorized" None)
  ∧ ∀ pre endpoint bearer token rep post,
      tr = (pre ++ (PostIntrospect endpoint bearer token, rep) :: post)%list →
      ∃ tokenUrl resource d,
        In (PostToken tokenUrl resource, Fulfilled d) pre
        ∧ bearer = access_token_of d.
Proof.
  intros Hheader Hcold. unfold handleAuthCheck. rewrite Hheader. cbn [negb].
  destruct st as [cfg tok]. cbn [introspectionToken] in Hcold. subst tok.
  unfold getIntrospectionToken. cbn [introspectionToken JS.truthy].
  cases.
  all: split.
  all: try (left; reflexivity).
  all: try (right; split; [| reflexivity]; eexists; split; [eassumption |];
            first [left; split; reflexivity
                  | right; split; [reflexivity |]; eexists; split; reflexivity]).
  all: intros pre endpoint bearer token rep post Htr.
  all: positions.
  all: cbn [In]; eauto 10.
Qed.
End Calls.

(** C8, as the code has it: the cached token is invalidated, and nothing is
    retried.  Whenever a POST of the adapter to PCM (the token request or
    the introspection) fails with status 401 or 403, that call is the last
    one the handler makes and it was not made before; the answer is 401
    and the cached introspection token is cleared.  The next auth-check
    then asks PCM for a token before it introspects, and introspects under
    the token of that answer; it asks for none only when its configuration,
    cached or just discovered, has no token endpoint: then it makes no
    further call and answers 401.  A discovery that fails, with
    whatever status, invalidates nothing: the call that follows it goes to
    the configured endpoint, and a cached token is cleared by nothing but
    an introspection that fails with 401 or 403. *)
Theorem C8_invalidate_without_retry {S : Type} (pcm : call → S → reply * S)
    (url : string) (now : Z) (authorization : option string) (st : state) (s : S) :
  let result := run pcm (handleAuthCheck url now authorization st) s in
  let st' := snd (fst (fst result)) in
  (* a token request or an introspection that fails with 401 or 403 *)
  (∀ pre c status post,
     snd result = (pre ++ (c, Failed (Some status)) :: post)%list →
     isPost c = true →
     status = 401 ∨ status = 403 →
     post = [] ∧ ¬ In c (List.map fst pre)
     ∧ fst (fst (fst result)) = mkResponse 401 "Unauthorized" None
     ∧ introspectionToken st' = None
     ∧ ∀ now' h,
         JS.startsWith "Bearer " h = true →
         let next := run pcm (handleAuthCheck url now' (Some h) st') (snd (fst result)) in
         (existsb isTokenRequest (List.map fst (snd next)) = true
          ∨ (∃ config,
               token_endpoint config = None
               ∧ (smartConfig st' = Some config ∧ snd next = []
                  ∨ smartConfig st' = None
                    ∧ ∃ d, snd next = [(GetSmartConfiguration, Fulfilled d)]
                           ∧ config = config_of d))
            ∧ fst (fst (fst next)) = mkResponse 401 "Unauthorized" None)
         ∧ ∀ pre' endpoint bearer token rep post',
             snd next
             = (pre' ++ (PostIntrospect endpoint bearer token, rep) :: post')%list →
             ∃ tokenUrl resource d,
               In (PostToken tokenUrl resource, Fulfilled d) pre'
               ∧ bearer = access_token_of d)
  (* a discovery that fails *)
  ∧ (∀ pre status post,
       snd result = (pre ++ (GetSmartConfiguration, Failed status) :: post)%list →
       ∃ c rep rest,
         post = (c, rep) :: rest
         ∧ (c = PostToken (url +:+ "/token") url
            ∨ ∃ bearer token,
                c = PostIntrospect (Some (url +:+ "/introspect")) bearer token))
  ∧ (JS.truthy (introspectionToken st) = true →
     introspectionToken st' = introspectionToken st
     ∨ ∃ pre c status,
         snd result = (pre ++ [(c, Failed (Some status))])%list
         ∧ isIntrospect c = true ∧ (status = 401 ∨ status = 403)
         ∧ introspectionToken st' = None).
Proof.
  intros result st'. subst st' result.
  pose proof (handleAuthCheck_calls pcm url now authorization st s) as Hcalls.
  pose proof (handleAuthCheck_fallback pcm url now authorization st s) as Hfallback.
  pose proof (handleAuthCheck_keeps pcm url now authorization st s) as Hkeeps.
  destruct (run pcm _ s) as [[out s'] tr]. cbn [fst snd] in *.
  split; [| split; [exact Hfallback | exact Hkeeps]].
  intros pre c status post Htr Hpost Hstatus.
  destruct (Hcalls pre c (Failed (Some status)) post Htr Hpost)
    as (Hfirst & Hlast & Hresp & Htok).
  assert (Hcleared : introspectionToken (snd out) = None).
  { apply Htok. unfold invalidates. destruct Hstatus as [-> | ->]; auto. }
  repeat (split; [assumption |]).
  intros now' h Hheader.
  pose proof (handleAuthCheck_fresh pcm url now' h (snd out) s' Hheader Hcleared) as Hfresh.
  destruct (run pcm _ s') as [[out' s''] tr']. exact Hfresh.
Qed.

Lemma C8_invalidate_without_retry_witness :
  let result := run (AdapterTest.rejecting 401)
                  (handleAuthCheck AdapterTest.URL 1000 (Some "Bearer sp-token")
                     AdapterTest.cold) 0%nat in
  let next := run (AdapterTest.rejecting 401)
                (handleAuthCheck AdapterTest.URL 1001 (Some "Bearer sp-token")
                   (snd (fst (fst result)))) (snd (fst result)) in
  ¬ In (PostIntrospect (Some "https://pcm-core:3000/introspect") (Some "pep-token")
          "sp-token")
       [GetSmartConfiguration;
        PostToken "https://pcm-core:3000/token" "https://pcm-core:3000"]
  ∧ fst (fst (fst result)) = mkResponse 401 "Unauthorized" None
  ∧ introspectionToken (snd (fst (fst result))) = None
  ∧ (existsb isTokenRequest (List.map fst (snd next)) = true
     ∨ (∃ config,
          token_endpoint config = None
          ∧ (smartConfig (snd (fst (fst result))) = Some config ∧ snd next = []
             ∨ smartConfig (snd (fst (fst result))) = None
               ∧ ∃ d, snd next = [(GetSmartConfiguration, Fulfilled d)]
                      ∧ config = config_of d))
       ∧ fst (fst (fst next)) = mkResponse 401 "Unauthorized" None).
Proof.
  destruct (C8_invalidate_without_retry (AdapterTest.rejecting 401) AdapterTest.URL 1000
              (Some "Bearer sp-token") AdapterTest.cold 0%nat) as [Hfailed _].
  destruct (Hfailed
              [(GetSmartConfiguration,
                Fulfilled (SmartConfiguration (Some "https://pcm-core:3000/token")
                                              (Some "https://pcm-core:3000/introspect")));
               (PostToken "https://pcm-core:3000/token" "https://pcm-core:3000",
                Fulfilled (AccessToken (Some "pep-token")))]
              (PostIntrospect (Some "https://pcm-core:3000/introspect") (Some "pep-token")
                 "sp-token")
              401 [] ltac:(vm_compute; reflexivity) eq_refl (or_introl eq_refl))
    as (_ & Hfirst & Hresponse & Hcleared & Hnext).
  destruct (Hnext 1001 "Bearer sp-token" eq_refl) as [Hasks _].
  split; [exact Hfirst |]. split; [exact Hresponse |]. split; [exact Hcleared |].
  exact Hasks.
Defined.

(** The claim as stated fails: PCM answers the introspection with 401; the
    adapter has then made one discovery, one token request and one
    introspection, and answers 401 without a second attempt. *)
Lemma C8_counterexample :
  let result := run (AdapterTest.rejecting 401)
                  (handleAuthCheck AdapterTest.URL 1000 (Some "Bearer sp-token")
                     AdapterTest.cold) 0%nat in
  snd result
  = [(GetSmartConfiguration,
      Fulfilled (SmartConfiguration (Some "https://pcm-core:3000/token")
                                    (Some "https://pcm-core:3000/introspect")));
     (PostToken "https://pcm-core:3000/token" "https://pcm-core:3000",
      Fulfilled (AccessToken (Some "pep-token")));
     (PostIntrospect (Some "https://pcm-core:3000/introspect") (Some "pep-token")
        "sp-token",
      Failed (Some 401))]
  ∧ length (List.filter (fun cr => isIntrospect (fst cr)) (snd result)) = 1%nat
  ∧ length (List.filter (fun cr => isPost (fst cr)) (snd result)) = 2%nat
  ∧ snd (fst result) = 3%nat
  ∧ status (fst (fst (fst result))) = 401.
Proof. repeat split. Qed.

(** A failed discovery, even with status 403, neither invalidates the
    token nor fails the check: the configured endpoints are used. *)
Example discovery_falls_back :
  let result := run (AdapterTest.undiscoverable (AdapterTest.result (Some "sys|123")))
                  (handleAuthCheck AdapterTest.URL 1000 (Some "Bearer sp-token")
                     (mkState None (Some "pep-token"))) 0%nat in
  List.map fst (snd result)
  = [GetSmartConfiguration;
     PostIntrospect (Some "https://pcm-core:3000/introspect") (Some "pep-token") "sp-token"]
  ∧ status (fst (fst (fst result))) = 200
  ∧ introspectionToken (snd (fst (fst result))) = Some "pep-token".
Proof. vm_compute. repeat split. Qed.

Lemma append_empty_r s : s +:+ "" = s.
Proof.
  induction s as [| c s IH]; [reflexivity |].
  change (String c s +:+ "") with (String c (s +:+ "")). rewrite IH. reflexivity.
Qed.

Lemma split_app sep a b :
  JS.includes sep a = false → JS.split sep (a +:+ String sep b) = a :: JS.split sep b.
Proof.
  induction a as [| c a IH]; intros Hinc.
  - change ("" +:+ String sep b) with (String sep b).
    cbn [JS.split]. rewrite Ascii.eqb_refl. reflexivity.
  - cbn [JS.includes] in Hinc. apply orb_false_iff in Hinc as [Hc Ha].
    change (String c a +:+ String sep b) with (String c (a +:+ String sep b)).
    cbn [JS.split]. rewrite Hc, (IH Ha). reflexivity.
Qed.

Lemma includes_app sep a b : JS.includes sep (a +:+ String sep b) = true.
Proof.
  induction a as [| c a IH].
  - change ("" +:+ String sep b) with (String sep b).
    cbn [JS.includes]. rewrite Ascii.eqb_refl. reflexivity.
  - change (String c a +:+ String sep b) with (String c (a +:+ String sep b)).
    cbn [JS.includes]. rewrite IH. apply orb_true_r.
Qed.

Lemma truthy_app sep a b : JS.truthy (Some (a +:+ String sep b)) = true.
Proof. destruct a; reflexivity. Qed.

(** The second piece of ["system|value"], with or without a further pipe. *)
Lemma split_second sep system value rest :
  JS.includes sep system = false →
  JS.includes sep value = false →
  rest = "" ∨ (∃ more, rest = String sep more) →
  JS.split sep (system +:+ String sep (value +:+ rest)) !! 1%nat = Some value.
Proof.
  intros Hsys Hval Hrest. rewrite (split_app _ _ _ Hsys).
  destruct Hrest as [-> | [more ->]].
  - rewrite append_empty_r, (split_no_separator _ _ Hval). reflexivity.
  - rewrite (split_app _ _ _ Hval). reflexivity.
Qed.

Lemma mapIdentity_patient now r system value rest t :
  active r = true →
  JS.includes "|" system = false →
  JS.includes "|" value = false →
  rest = "" ∨ (∃ more, rest = String "|" more) →
  patient r = Some (system +:+ String "|" (value +:+ rest)) →
  iat r = Some t →
  ∃ localToken,
    mapIdentity now r = inr localToken
    ∧ p_patient (payload localToken)
      = "Patient/" +:+ Encoding.hex (SHA256.digest (JS.bytes value)).
Proof.
  intros Hactive Hsys Hval Hrest Hpatient Hiat. unfold mapIdentity.
  rewrite Hactive, Hpatient. cbn [negb].
  change (default "" (Some ?p)) with p.
  rewrite truthy_app, includes_app, (split_second _ _ _ _ Hsys Hval Hrest).
  cbn [negb]. unfold sign. cbn [p_iat]. rewrite Hiat.
  eexists. split; reflexivity.
Qed.

Lemma mapIdentity_malformed now r :
  patient r = None ∨ (∃ p, patient r = Some p ∧ JS.includes "|" p = false) →
  ∃ msg, mapIdentity now r = inl msg.
Proof.
  intros Hbad. unfold mapIdentity.
  destruct (active r); cbn [negb]; [| eexists; reflexivity].
  destruct Hbad as [-> | (p & -> & Hinc)]; cbn [JS.truthy negb];
    [eexists; reflexivity |].
  destruct p as [| c p]; [eexists; reflexivity |].
  cbn [negb]. change (default "" (Some ?q)) with q. rewrite Hinc.
  eexists; reflexivity.
Qed.

(** What holds of the identity mapping: when PCM answers the introspection
    with an active result whose [patient] is [system|value] with no pipe in
    [system] nor in [value] (a further pipe may follow [value]), the check
    answers 200 with a local JWT whose [patient] is ["Patient/"] and the
    lower-case hex SHA-256 of [value]; when [patient] is absent or has no
    pipe, the check answers 401 and mints nothing. *)
Theorem identity_mapping {S : Type} (pcm : call → S → reply * S) (url : string)
    (now : Z) (authorization : option string) (st : state) (s : S) (r : introspection) :
  let result := run pcm (handleAuthCheck url now authorization st) s in
  let answer := fst (fst (fst result)) in
  (∃ pre endpoint bearer token post,
     snd result
     = (pre ++ (PostIntrospect endpoint bearer token, Fulfilled (Introspection r)) :: post)%list) →
  active r = true →
  (∀ system value rest t,
     JS.includes "|" system = false →
     JS.includes "|" value = false →
     rest = "" ∨ (∃ more, rest = String "|" more) →
     patient r = Some (system +:+ String "|" (value +:+ rest)) →
     iat r = Some t →
     ∃ localToken,
       answer = mkResponse 200 "OK" (Some localToken)
       ∧ p_patient (payload localToken)
         = "Patient/" +:+ Encoding.hex (SHA256.digest (JS.bytes value)))
  ∧ (patient r = None ∨ (∃ p, patient r = Some p ∧ JS.includes "|" p = false) →
     answer = mkResponse 401 "Unauthorized" None).
Proof.
  intros result answer (pre & endpoint & bearer & token & post & Htr) Hactive.
  subst answer result.
  pose proof (handleAuthCheck_calls pcm url now authorization st s) as Hcalls.
  destruct (run pcm _ s) as [[out s'] tr]. cbn [fst snd] in *.
  destruct (Hcalls pre _ _ post Htr eq_refl) as (_ & Hafter).
  destruct (Hafter eq_refl) as [_ Hout]. rewrite Hout.
  unfold afterIntrospection. cbn [introspection_of]. rewrite Hactive. cbn [negb].
  split.
  - intros system value rest t Hsys Hval Hrest Hpatient Hiat.
    destruct (mapIdentity_patient now r system value rest t
                Hactive Hsys Hval Hrest Hpatient Hiat) as (localToken & Hmap & Hp).
    rewrite Hmap. exists localToken. split; [reflexivity | exact Hp].
  - intros Hbad. destruct (mapIdentity_malformed now r Hbad) as (msg & ->).
    reflexivity.
Qed.

Lemma identity_mapping_witness :
  let result := run (AdapterTest.undiscoverable (AdapterTest.result (Some "sys|123")))
                  (handleAuthCheck AdapterTest.URL 1000 (Some "Bearer sp-token")
                     (mkState None (Some "pep-token"))) 0%nat in
  ∃ localToken,
    fst (fst (fst result)) = mkResponse 200 "OK" (Some localToken)
    ∧ p_patient (payload localToken)
      = "Patient/" +:+ Encoding.hex (SHA256.digest (JS.bytes "123")).
Proof.
  refine (proj1 (identity_mapping
                   (AdapterTest.undiscoverable (AdapterTest.result (Some "sys|123")))
                   AdapterTest.URL 1000 (Some "Bearer sp-token")
                   (mkState None (Some "pep-token")) 0%nat
                   (AdapterTest.result (Some "sys|123")) _ eq_refl)
                "sys" "123" "" 1000 eq_refl eq_refl (or_introl eq_refl) eq_refl eq_refl).
  exists [(GetSmartConfiguration, Failed (Some 403))],
         (Some "https://pcm-core:3000/introspect"), (Some "pep-token"), "sp-token", [].
  vm_compute. reflexivity.
Defined.

(** Scenario 5 of the specification, and the test of the mapper. *)
Example identity_mapping_scenario :
  (fun t => p_patient (payload t))
    <$> sum_rect (fun _ => option localToken) (fun _ => None) Some
          (mapIdentity 1000 (AdapterTest.result (Some "sys|123")))
  = Some "Patient/a665a45920422f9d417e4867efdc4fb8a04a1f3fff1fa07e998e86f7f7a27ae3".
Proof. vm_compute. reflexivity. Qed.

(** C6 fails on the code for a value that contains a pipe.  PCM builds
    [patient] as [system + "|" + value] from the patient identifier of the
    consent; for the value ["12|3"] the adapter hashes [parts[1]], which is
    ["12"], not the value.  The patient with value ["12|4"] is mapped to the
    same local identity. *)
Lemma C6_value_with_pipe :
  let patient := patientContextOf (Seed.consent "c9" "active" "12|3" []) in
  let other := patientContextOf (Seed.consent "c8" "active" "12|4" []) in
  patient = Some "http://fhir.health.gov.il/identifier/il-national-id|12|3"
  ∧ ∃ localToken otherToken,
      mapIdentity 1000 (AdapterTest.result patient) = inr localToken
      ∧ mapIdentity 1000 (AdapterTest.result other) = inr otherToken
      ∧ p_patient (payload localToken)
        = "Patient/" +:+ Encoding.hex (SHA256.digest (JS.bytes "12"))
      ∧ p_patient (payload localToken)
        ≠ "Patient/" +:+ Encoding.hex (SHA256.digest (JS.bytes "12|3"))
      ∧ p_patient (payload otherToken) = p_patient (payload localToken).
Proof.
  split; [vm_compute; reflexivity |].
  eexists _, _. split; [vm_compute; reflexivity |].
  split; [vm_compute; reflexivity |].
  split; [vm_compute; reflexivity |].
  split; [vm_compute; discriminate | vm_compute; reflexivity].
Qed.

(* --------------------------------------------------------------------- *)
(** ** From issuance to the local token *)
(* --------------------------------------------------------------------- *)

(** Scenarios 1 and 5 of the specification in a row: PCM issues the
    service provider's token for the approved consent, the adapter's
    introspection returns the record, and the local JWT names the hashed
    patient. *)
Example issue_introspect_map :
  let issued := @issueToken (Scenario.spWith ["c1"]) Sample.tokens Scenario.store "tok-1"
                  1000 (Seed.tokenRequest Seed.DS_ADDRESS None) in
  let answer := fst (postIntrospect (IssueOutcome.tokens issued) Scenario.store true
                       (Some "Bearer pep-token") (Some "tok-1") 1010) in
  activeOf answer = true
  ∧ PEP.patient (PEP.of_body (Response.json answer))
    = Some "http://fhir.health.gov.il/identifier/il-national-id|99887766"
  ∧ (fun t => PEP.p_patient (PEP.payload t))
      <$> sum_rect (fun _ => option PEP.localToken) (fun _ => None) Some
            (PEP.mapIdentity 1010 (PEP.of_body (Response.json answer)))
    = Some ("Patient/" +:+ Encoding.hex (SHA256.digest (JS.bytes "99887766"))).
Proof. vm_compute. repeat split. Qed.

(* ===================================================================== *)
(** * Further properties of the code *)
(* ===================================================================== *)

(* --------------------------------------------------------------------- *)
(** ** The token store of PCM *)
(* --------------------------------------------------------------------- *)

Lemma issueToken_tokens `{Platform} tokens st uuid now req :
  let out := issueToken tokens st uuid now req in
  IssueOutcome.tokens out = tokens ∨ Response.status (IssueOutcome.response out) = 200.
Proof.
  unfold issueToken.
  destruct (authenticate req) as [r | [[client a] resource]]; [left; reflexivity |].
  destruct (bindConsent _ _ _ _) as [r | [sc pc]]; [left; reflexivity |].
  destruct (buildFhirContext _ _); [right | left]; reflexivity.
Qed.

Lemma bindConsent_scope `{Platform} st client resource udapExt scope patientContext :
  bindConsent st client resource udapExt = inr (scope, patientContext) →
  (scope = B2B_SCOPE ∧ is_Some udapExt)
  ∨ (scope = "system/*.cruds" ∧ patientContext = None ∧ udapExt = None).
Proof.
  unfold bindConsent. destruct udapExt as [ext |].
  - destruct (b2bBinding _ _ _ _); [discriminate |]. intros [= <- <-]. left. eauto.
  - intros [= <- <-]. right. auto.
Qed.

Lemma issued_wellFormed `{Platform} tokens st uuid now req t :
  let out := issueToken tokens st uuid now req in
  Response.status (IssueOutcome.response out) = 200 →
  IssueOutcome.tokens out !! uuid = Some t → wellFormed t.
Proof.
  intros out Hst Hlook. subst out.
  destruct (issueToken_issued tokens st uuid now req Hst)
    as (client & a & resource & scope & pc & ctx & pem & Hauth & Hbind & Hctx & Hpem & Htok).
  rewrite Htok, lookup_insert_eq in Hlook. injection Hlook as <-.
  apply authenticate_inr in Hauth as (_ & Hfind & _ & _ & Hres).
  apply bindConsent_scope in Hbind as Hscope.
  unfold wellFormed, issuedTo. cbn.
  repeat split.
  - exists client. split; [| auto]. apply find_some in Hfind. tauto.
  - exact Hres.
  - eexists. split; [reflexivity | apply thumbprint_length].
  - destruct Hscope as [[-> _] | (-> & -> & Hnone)]; [left; reflexivity |].
    right. rewrite Hnone in Hctx. injection Hctx as <-. auto.
Qed.

(** X1.  Invariant of the token store.  Whatever series of [POST /token] and
    [POST /introspect] requests PCM has served since it started, every record
    of the token store is active, has PCM's issuer, expires 30 seconds after
    it was issued, names a registered client in [sub], [client_id] and
    [organization_id], has a non-empty audience and a thumbprint of 43
    characters in [cnf], and has either the B2B scope or the scope
    [system/*.cruds] with neither a patient nor a fhirContext. *)
Theorem reachable_wellFormed `{Platform} (tokens : TokenStore) (k : string) (t : Token.t) :
  reachable tokens → tokens !! k = Some t → wellFormed t.
Proof.
  intros Hreach. revert k t.
  induction Hreach as [| tokens st uuid now req _ IH
                       | tokens st authorized authorization token now _ IH]; intros k t.
  - rewrite lookup_empty. discriminate.
  - unfold postToken, requireMtls.
    destruct (TokenRequest.socket_authorized req); cbn [IssueOutcome.tokens]; [| apply IH].
    destruct (issueToken_tokens tokens st uuid now req) as [-> | Hst]; [apply IH |].
    destruct (decide (k = uuid)) as [-> | Hne].
    + apply issued_wellFormed. exact Hst.
    + destruct (issueToken_issued tokens st uuid now req Hst)
        as (? & ? & ? & ? & ? & ? & ? & _ & _ & _ & _ & ->).
      rewrite lookup_insert_ne by congruence. apply IH.
  - unfold postIntrospect, requireMtls.
    destruct authorized; cbn [snd]; [| apply IH].
    pose proof (λ u tokens', requireAuth_inr tokens authorization now u tokens') as Hinr.
    unfold requireAuth in *.
    destruct authorization as [h |]; cbn [snd]; [| apply IH].
    destruct (negb _); cbn [snd]; [apply IH |].
    destruct (_ !! 1%nat) as [tok |]; cbn [snd]; [| apply IH].
    destruct (tokens !! tok) as [u |]; cbn [snd]; [| apply IH].
    destruct (Token.exp u <? now); cbn [snd]; [| apply IH].
    intros Hdel. apply lookup_delete_Some in Hdel as [_ Hdel]. exact (IH _ _ Hdel).
Qed.

Lemma reachable_wellFormed_witness : wellFormed AdminTest.record.
Proof.
  apply (@reachable_wellFormed AdminTest.platform
           (IssueOutcome.tokens
              (@postToken AdminTest.platform ∅ Seed.bootstrap "tok-pcm" 1000
                 (Seed.tokenRequest AdminTest.PCM_ADDRESS None))) "tok-pcm").
  - apply reach_token, reach_start.
  - vm_compute. reflexivity.
Defined.

(** X2.  The life of an issued token.  A token that [issueToken] has just
    issued (response 200) is reported active to an introspector with a
    resolvable Endpoint address exactly when the token request named that
    address as its [resource] and at most 30 seconds have passed; the answer
    is then the stored record, and otherwise the bare [{active: false}]. *)
Theorem issued_token_lifetime `{Platform} (tokens : TokenStore) (st st' : FHIRStore.t)
    (uuid : string) (now : Z) (req : TokenRequest.t) (caller : Token.t)
    (address : string) (later : Z) :
  let out := issueToken tokens st uuid now req in
  let answer := introspectToken (IssueOutcome.tokens out) st' caller (Some uuid) later in
  Response.status (IssueOutcome.response out) = 200 →
  JS.truthy (Some uuid) = true →
  introspectorAddress st' caller = inr address →
  (activeOf answer = true
   ↔ TokenRequest.resource req = Some address ∧ later ≤ now + 30)
  ∧ (activeOf answer = true →
     ∃ t, IssueOutcome.tokens out !! uuid = Some t
          ∧ answer = Response.mk 200 (Response.Claims t))
  ∧ (activeOf answer = false → answer = Response.mk 200 Response.Inactive).
Proof.
  intros out answer Hst Huuid Haddr. subst out answer.
  destruct (issueToken_issued tokens st uuid now req Hst)
    as (client & a & resource & scope & pc & ctx & pem & Hauth & _ & _ & _ & ->).
  apply authenticate_inr in Hauth as (_ & _ & _ & Hres & _).
  unfold introspectToken. rewrite Haddr. unfold inspectTarget.
  rewrite Huuid. cbn [negb default]. rewrite !lookup_insert_eq.
  cbn [Token.exp Token.aud]. rewrite Hres.
  destruct (now + 30 <? later) eqn:Hexp.
  { apply Z.ltb_lt in Hexp. unfold activeOf. cbn [Response.json].
    split; [split; [discriminate | intros [_ ?]; lia] |].
    split; [discriminate | reflexivity]. }
  apply Z.ltb_ge in Hexp.
  destruct (String.eqb resource address) eqn:Haud; cbn [negb];
    unfold activeOf; cbn [Response.json Token.active].
  - apply String.eqb_eq in Haud as ->.
    split; [split; auto |].
    split; [intros _; eexists; split; reflexivity | discriminate].
  - apply String.eqb_neq in Haud.
    split; [split; [discriminate | intros [[= ?] _]; contradiction] |].
    split; [discriminate | reflexivity].
Qed.

Lemma issued_token_lifetime_witness :
  let out := @issueToken (Scenario.spWith ["c1"]) Sample.tokens Scenario.store "tok-1" 1000
               (Seed.tokenRequest Seed.DS_ADDRESS None) in
  let answer := introspectToken (IssueOutcome.tokens out) Scenario.store Sample.pepUser
                  (Some "tok-1") 1010 in
  (activeOf answer = true
   ↔ Some Seed.DS_ADDRESS = Some Seed.DS_ADDRESS ∧ 1010 ≤ 1000 + 30)
  ∧ (activeOf answer = true →
     ∃ t, IssueOutcome.tokens out !! "tok-1" = Some t
          ∧ answer = Response.mk 200 (Response.Claims t))
  ∧ (activeOf answer = false → answer = Response.mk 200 Response.Inactive).
Proof.
  apply (@issued_token_lifetime (Scenario.spWith ["c1"]) Sample.tokens Scenario.store
           Scenario.store "tok-1" 1000 (Seed.tokenRequest Seed.DS_ADDRESS None)
           Sample.pepUser Seed.DS_ADDRESS 1010); vm_compute; reflexivity.
Defined.

(** X3.  The two bearer guards.  [requireBearer] of the FHIR routes and
    [requireAuth] of the introspection route accept the same requests and
    pass on the same token record; [requireAuth] adds nothing to the token
    store and removes from it at most a token that has expired. *)
Theorem guards_agree {A} (tokens : TokenStore) (authorization : option string) (now : Z) :
  (∀ user, @Routes.requireBearer A tokens authorization now = inr user
           ↔ fst (requireAuth tokens authorization now) = inr user)
  ∧ (∀ k t, snd (requireAuth tokens authorization now) !! k = Some t → tokens !! k = Some t)
  ∧ (∀ k t, tokens !! k = Some t → now ≤ Token.exp t →
            snd (requireAuth tokens authorization now) !! k = Some t).
Proof.
  unfold Routes.requireBearer, requireAuth.
  destruct authorization as [h |]; [| repeat split; auto; discriminate].
  destruct (JS.startsWith "Bearer " h); cbn [negb]; [| repeat split; auto; discriminate].
  destruct (JS.split " " h !! 1%nat) as [tok |]; cbn [mbind option_bind];
    [| repeat split; auto; discriminate].
  destruct (tokens !! tok) as [t |] eqn:Htok; [| repeat split; auto; discriminate].
  destruct (Token.exp t <? now) eqn:Hexp; cbn [fst snd].
  - split; [split; discriminate |]. split; intros k t'.
    + rewrite lookup_delete_Some. intros [_ Hk]. exact Hk.
    + intros Hk Hlive. rewrite lookup_delete_Some. split; [| exact Hk].
      intros <-. rewrite Htok in Hk. injection Hk as <-. lia.
  - split; [| auto]. intros user. split; intros [= <-]; reflexivity.
Qed.

(* --------------------------------------------------------------------- *)
(** ** The local token of the Data Source *)
(* --------------------------------------------------------------------- *)

(** X4.  No local token without a consent.  When the Data Source adapter
    turns an issued PCM token into a local token (status 200), the client
    assertion of the token request carried the B2B extension, its first
    consent reference resolved to a stored consent with status [active], and
    the patient of the token is the patient of that consent. *)
Theorem local_token_needs_consent `{Platform} (tokens : TokenStore) (st : FHIRStore.t)
    (uuid : string) (now : Z) (req : TokenRequest.t) (later : Z) (t : Token.t) :
  let out := issueToken tokens st uuid now req in
  Response.status (IssueOutcome.response out) = 200 →
  IssueOutcome.tokens out !! uuid = Some t →
  PEP.status (afterIntrospection later (of_body (Response.Claims t))) = 200 →
  ∃ a ext ref consent,
    jwt_decode (default "" (TokenRequest.client_assertion req)) = Decoded a
    ∧ Assertion.hl7_b2b a = Some ext
    ∧ Assertion.consent_reference ext ≫= head = Some ref
    ∧ FHIRStore.getConsent st (lastSegment (Some ref)) = Some consent
    ∧ Consent.status consent = Some "active"
    ∧ Token.patient t = patientContextOf consent
    ∧ JS.truthy (Token.patient t) = true.
Proof.
  intros out Hst Hlook Hlocal. subst out.
  destruct (issueToken_issued tokens st uuid now req Hst)
    as (client & a & resource & scope & pc & ctx & pem & Hauth & Hbind & _ & _ & Htok).
  rewrite Htok, lookup_insert_eq in Hlook. injection Hlook as <-.
  apply authenticate_inr in Hauth as (Hdec & _).
  cbn [Token.patient].
  assert (JS.truthy pc = true) as Hpatient.
  { unfold afterIntrospection, mapIdentity in Hlocal.
    cbn [of_body active patient Token.active Token.patient negb] in Hlocal.
    destruct (JS.truthy pc); [reflexivity | discriminate Hlocal]. }
  unfold bindConsent in Hbind.
  destruct (Assertion.hl7_b2b a) as [ext |] eqn:Hext;
    [| injection Hbind as _ <-; discriminate Hpatient].
  destruct (b2bBinding st client resource ext) as [r | pc'] eqn:Hb; [discriminate |].
  injection Hbind as _ ->.
  destruct (Assertion.consent_reference ext ≫= head) as [ref |] eqn:Href.
  - destruct (JS.truthy (Some ref)) eqn:Htruthy.
    + apply b2bBinding_inr in Hb as [_ Hb].
      destruct (Hb ref Href Htruthy) as (consent & Hget & Hactive & _ & _ & ->).
      exists a, ext, ref, consent. repeat split; auto.
    + unfold b2bBinding in Hb. rewrite Href, Htruthy in Hb.
      destruct (negb _); [discriminate |]. injection Hb as <-. discriminate.
  - unfold b2bBinding in Hb. rewrite Href in Hb. cbn [JS.truthy] in Hb.
    destruct (negb _); [discriminate |]. injection Hb as <-. discriminate.
Qed.

Lemma local_token_needs_consent_witness :
  ∃ a ext ref consent,
    @jwt_decode (Scenario.spWith ["c1"]) "header.payload.signature" = Decoded a
    ∧ Assertion.hl7_b2b a = Some ext
    ∧ Assertion.consent_reference ext ≫= head = Some ref
    ∧ FHIRStore.getConsent Scenario.store (lastSegment (Some ref)) = Some consent
    ∧ Consent.status consent = Some "active"
    ∧ Some "http://fhir.health.gov.il/identifier/il-national-id|99887766"
      = patientContextOf consent
    ∧ JS.truthy (Some "http://fhir.health.gov.il/identifier/il-national-id|99887766") = true.
Proof.
  refine (@local_token_needs_consent (Scenario.spWith ["c1"]) Sample.tokens Scenario.store
            "tok-1" 1000 (Seed.tokenRequest Seed.DS_ADDRESS None) 1010
            (Token.mk true Seed.SP B2B_SCOPE "http://pcm.fhir.health.gov.il/"
               Seed.DS_ADDRESS Seed.SP "org-sp"
               (Some "http://fhir.health.gov.il/identifier/il-national-id|99887766")
               [FhirContext.mk "Consent" (Some CONSENT_ID_SYSTEM) (Some "biz-c1");
                FhirContext.mk "HealthcareService" (Some CATALOG_ID_SYSTEM) (Some "service-1")]
               (Some "ungWv48Bz-pBQUDeXa4iI7ADYaOWF3qctBD_YfIAFa0") 1030 1000) _ _ _);
    vm_compute; reflexivity.
Defined.

(** X5.  The local token does not outlive the PCM token.  For a record of
    the token store with a non-zero [iat], the local token the adapter signs
    carries the [iat] of the PCM token and expires with it. *)
Theorem local_token_expiry (t : Token.t) (later : Z) (localToken : PEP.localToken) :
  wellFormed t →
  Token.iat t ≠ 0 →
  mapIdentity later (of_body (Response.Claims t)) = inr localToken →
  t_iat localToken = Token.iat t ∧ t_exp localToken = Token.exp t.
Proof.
  intros (_ & _ & Hexp & _) Hiat. unfold mapIdentity.
  cbn [of_body active patient client_id scope iss aud jti iat fhirContext cnf].
  destruct (negb (Token.active t)); [discriminate |].
  destruct (negb (JS.truthy (Token.patient t))); [discriminate |].
  destruct (JS.includes _ _); [| discriminate].
  destruct (_ !! 1%nat); [| discriminate].
  unfold sign. cbn [p_iat].
  destruct (Token.iat t =? 0) eqn:Hz; [apply Z.eqb_eq in Hz; contradiction |].
  intros [= <-]. cbn [t_iat t_exp]. rewrite Hexp. auto.
Qed.

Lemma local_token_expiry_witness :
  ∃ localToken,
    mapIdentity 1010 (of_body (Response.Claims Sample.spToken)) = inr localToken
    ∧ t_iat localToken = 1000 ∧ t_exp localToken = 1030.
Proof.
  eexists. split; [vm_compute; reflexivity |].
  refine (local_token_expiry Sample.spToken 1010 _ _ _ _).
  - unfold wellFormed, issuedTo. repeat split; try reflexivity.
    + exists spClient. split; [left; reflexivity | repeat split].
    + eexists. split; reflexivity.
    + left. reflexivity.
  - discriminate.
  - vm_compute. reflexivity.
Defined.

(** X6.  The local patient ignores the identifier system.  Two
    introspection results whose patients have the same value after the bar,
    under systems without a bar, are mapped to the same local patient. *)
Theorem identity_ignores_system (now : Z) (r1 r2 : introspection)
    (system1 system2 value : string) (t1 t2 : localToken) :
  JS.includes "|" system1 = false →
  JS.includes "|" system2 = false →
  patient r1 = Some (system1 +:+ String "|" value) →
  patient r2 = Some (system2 +:+ String "|" value) →
  mapIdentity now r1 = inr t1 →
  mapIdentity now r2 = inr t2 →
  p_patient (payload t1) = p_patient (payload t2).
Proof.
  intros H1 H2 Hp1 Hp2. unfold mapIdentity. rewrite Hp1, Hp2.
  destruct (negb (active r1)); [discriminate |].
  destruct (negb (active r2)); [discriminate |].
  rewrite !truthy_app. cbn [negb default]. unfold Datatypes.id.
  rewrite !includes_app.
  rewrite (split_app _ _ _ H1), (split_app _ _ _ H2). cbn [lookup list_lookup].
  destruct (JS.split "|" value) as [| v rest]; cbn [lookup list_lookup]; [discriminate |].
  unfold sign. cbn [p_iat].
  destruct (iat r1); [| discriminate]. destruct (iat r2); [| discriminate].
  intros [= <-] [= <-]. reflexivity.
Qed.

Lemma identity_ignores_system_witness :
  ∃ t1 t2,
    mapIdentity 1000 (AdapterTest.result (Some "urn:a|123")) = inr t1
    ∧ mapIdentity 1000 (AdapterTest.result (Some "urn:b|123")) = inr t2
    ∧ p_patient (payload t1) = p_patient (payload t2).
Proof.
  eexists _, _. split; [vm_compute; reflexivity |]. split; [vm_compute; reflexivity |].
  apply (identity_ignores_system 1000 (AdapterTest.result (Some "urn:a|123"))
           (AdapterTest.result (Some "urn:b|123")) "urn:a" "urn:b" "123");
    vm_compute; reflexivity.
Defined.

(* --------------------------------------------------------------------- *)
(** ** The requests of the policy enforcement point *)
(* --------------------------------------------------------------------- *)

Section Budget.
Context {S : Type} (pcm : call → S → reply * S).

Ltac answer :=
  match goal with
  | |- context [pcm ?c ?s] =>
      let d := fresh "d" in let st := fresh "status" in let s1 := fresh "s" in
      destruct (pcm c s) as [[d | st] s1]
  end.

Ltac each_answer :=
  repeat first
    [ progress unfold getSmartConfiguration
    | progress cbn [run bind smartConfig introspectionToken token_endpoint
                    introspection_endpoint fst snd negb]
    | answer
    | match goal with
      | |- context [match token_endpoint ?c with _ => _ end] =>
          destruct (token_endpoint c)
      | |- context [if JS.truthy ?t then _ else _] => destruct (JS.truthy t) eqn:?
      | |- context [if negb (active ?r) then _ else _] => destruct (active r) eqn:?
      | |- context [match mapIdentity ?n ?r with _ => _ end] =>
          destruct (mapIdentity n r) eqn:?
      | |- context [match ?x with Some _ => _ | None => _ end] => is_var x; destruct x
      | |- context [match ?x with inl _ => _ | inr _ => _ end] => is_var x; destruct x
      end ].

(** X7.  The requests of one auth-check.  Whatever PCM answers, and whatever
    the caches hold, one [/auth-check] sends PCM at most four requests, at
    most two of them POSTs and at most one an introspection; with the
    configuration cached none is the discovery, and with a token cached none
    is a token request. *)
Theorem call_budget (url : string) (now : Z) (authorization : option string)
    (st : state) (s : S) :
  let trace := snd (run pcm (handleAuthCheck url now authorization st) s) in
  let calls := List.map fst trace in
  (length calls ≤ 4)%nat
  ∧ (length (List.filter isPost calls) ≤ 2)%nat
  ∧ (length (List.filter isIntrospect calls) ≤ 1)%nat
  ∧ (is_Some (smartConfig st) → List.forallb isPost calls = true)
  ∧ (JS.truthy (introspectionToken st) = true →
     List.forallb (fun c => negb (isPost c) || isIntrospect c) calls = true).
Proof.
  unfold handleAuthCheck.
  destruct authorization as [h |];
    [| cbn; repeat split; auto; lia].
  destruct (JS.startsWith "Bearer " h); cbn [negb];
    [| cbn; repeat split; auto; lia].
  destruct st as [cfg tok]. unfold getIntrospectionToken.
  each_answer.
  all: cbn [List.map fst snd List.filter isPost isIntrospect length forallb negb orb andb
            smartConfig introspectionToken].
  all: repeat split; try lia; try reflexivity.
  all: try (intros [? [=]]).
  all: try (intros Hf; discriminate Hf).
  all: try congruence.
Qed.

(** X8.  The cached path.  With the configuration and a token cached, an
    auth-check for a bearer without a space sends the introspection of that
    bearer under the cached token and nothing else, and keeps the
    configuration.  It answers 401 when the request fails and what the
    introspection gives when it is fulfilled.  The cached token is cleared
    when PCM answers the request with 401 or 403, and kept in every other
    case. *)
Theorem warm_path (url : string) (now : Z) (bearer : string) (cfg : config)
    (cached : string) (st : state) (s : S) :
  JS.includes " " bearer = false →
  smartConfig st = Some cfg →
  introspectionToken st = Some cached →
  JS.truthy (Some cached) = true →
  let c := PostIntrospect (introspection_endpoint cfg) (Some cached) bearer in
  let result := run pcm (handleAuthCheck url now (Some ("Bearer " +:+ bearer)) st) s in
  let st' := snd (fst (fst result)) in
  snd result = [(c, fst (pcm c s))]
  ∧ snd (fst result) = snd (pcm c s)
  ∧ fst (fst (fst result))
    = match fst (pcm c s) with
      | Fulfilled d => afterIntrospection now (introspection_of d)
      | Failed _ => mkResponse 401 "Unauthorized" None
      end
  ∧ smartConfig st' = Some cfg
  ∧ (fst (pcm c s) = Failed (Some 401) ∨ fst (pcm c s) = Failed (Some 403) →
     introspectionToken st' = None)
  ∧ (fst (pcm c s) ≠ Failed (Some 401) → fst (pcm c s) ≠ Failed (Some 403) →
     introspectionToken st' = Some cached).
Proof.
  intros Hbearer Hcfg Htok Htruthy c result st'. subst c result st'.
  destruct st as [cfg' tok']. cbn [smartConfig introspectionToken] in Hcfg, Htok.
  subst cfg' tok'.
  unfold handleAuthCheck.
  destruct (bearer_of_header bearer Hbearer) as [-> ->].
  cbn [negb default]. unfold getIntrospectionToken.
  cbn [introspectionToken]. rewrite Htruthy.
  cbn [bind run getSmartConfiguration smartConfig].
  unfold getSmartConfiguration. cbn [smartConfig bind run].
  destruct (pcm _ s) as [[d | status] s1]; cbn [fst snd].
  - unfold afterIntrospection.
    destruct (negb (active (introspection_of d)));
      cbn [run fst snd smartConfig introspectionToken];
      [repeat split; (discriminate || intros [[=] | [=]]) |].
    destruct (mapIdentity now (introspection_of d));
      cbn [run fst snd onError smartConfig introspectionToken];
      repeat split; (discriminate || intros [[=] | [=]]).
  - cbn [run fst snd onError].
    destruct status as [z |]; cbn [smartConfig introspectionToken];
      [| repeat split; (discriminate || intros [[=] | [=]])].
    destruct (z =? 401) eqn:H1; [apply Z.eqb_eq in H1 as -> |].
    { cbn. repeat split. intros Hno. contradiction. }
    destruct (z =? 403) eqn:H3; [apply Z.eqb_eq in H3 as -> |].
    { cbn. repeat split. intros _ Hno. contradiction. }
    apply Z.eqb_neq in H1, H3. cbn [orb smartConfig introspectionToken].
    repeat split. intros [[= ->] | [= ->]]; contradiction.
Qed.
End Budget.

Lemma warm_path_witness :
  let cfg := mkConfig (Some "https://pcm-core:3000/token")
                      (Some "https://pcm-core:3000/introspect") in
  let st := mkState (Some cfg) (Some "pep-token") in
  let c := PostIntrospect (Some "https://pcm-core:3000/introspect") (Some "pep-token")
             "sp-token" in
  let result := run (AdapterTest.rejecting 401)
                  (handleAuthCheck AdapterTest.URL 1000 (Some "Bearer sp-token") st) 0%nat in
  snd result = [(c, Failed (Some 401))]
  ∧ snd (fst result) = 1%nat
  ∧ fst (fst (fst result)) = mkResponse 401 "Unauthorized" None
  ∧ smartConfig (snd (fst (fst result))) = Some cfg
  ∧ introspectionToken (snd (fst (fst result))) = None.
Proof.
  destruct (warm_path (AdapterTest.rejecting 401) AdapterTest.URL 1000 "sp-token"
              (mkConfig (Some "https://pcm-core:3000/token")
                        (Some "https://pcm-core:3000/introspect"))
              "pep-token"
              (mkState (Some (mkConfig (Some "https://pcm-core:3000/token")
                                       (Some "https://pcm-core:3000/introspect")))
                       (Some "pep-token"))
              0%nat eq_refl eq_refl eq_refl eq_refl)
    as (Htrace & Hserved & Hresponse & Hconfig & Hcleared & _).
  split; [exact Htrace |]. split; [exact Hserved |]. split; [exact Hresponse |].
  split; [exact Hconfig |]. apply Hcleared. left. reflexivity.
Defined.

(* --------------------------------------------------------------------- *)
(** ** Thumbprints: base64, PEM and the escaped header *)
(* --------------------------------------------------------------------- *)

(** ** Base64 *)

Lemma sextet_cases (P : Z → Prop) :
  (∀ k, (k < 64)%nat → P (Z.of_nat k)) → ∀ n, 0 ≤ n < 64 → P n.
Proof.
  intros HP n Hn. rewrite <- (Z2Nat.id n) by lia. apply HP. lia.
Qed.

Ltac each_sextet :=
  let k := fresh "k" in let Hk := fresh "Hk" in
  apply sextet_cases; intros k Hk;
  do 64 (destruct k as [| k]; [vm_compute; repeat split; congruence |]); lia.

Lemma unbase64_b64_char n :
  0 ≤ n < 64 →
  Encoding.unbase64 (CertTest.b64_char n) = Some n
  ∧ Ascii.eqb (CertTest.b64_char n) "="%char = false.
Proof. revert n. each_sextet. Qed.

Lemma unbase64_b64url_char n :
  0 ≤ n < 64 →
  Encoding.unbase64 (Encoding.b64url_char n) = Some n
  ∧ Ascii.eqb (Encoding.b64url_char n) "="%char = false.
Proof. revert n. each_sextet. Qed.

Lemma regroup (a b c : Z) :
  is_byte a → is_byte b → is_byte c →
  (0 ≤ a / 4 < 64 ∧ 0 ≤ (a mod 4) * 16 + b / 16 < 64
   ∧ 0 ≤ (b mod 16) * 4 + c / 64 < 64 ∧ 0 ≤ c mod 64 < 64)
  ∧ (a / 4) * 4 + ((a mod 4) * 16 + b / 16) / 16 = a
  ∧ (((a mod 4) * 16 + b / 16) mod 16) * 16 + ((b mod 16) * 4 + c / 64) / 4 = b
  ∧ (((b mod 16) * 4 + c / 64) mod 4) * 64 + c mod 64 = c.
Proof.
  unfold is_byte. intros Ha Hb Hc.
  repeat split; Z.div_mod_to_equations; lia.
Qed.

Lemma sextets_cons c v rest :
  Encoding.unbase64 c = Some v ∧ Ascii.eqb c "="%char = false →
  Encoding.sextets (String c rest) = v :: Encoding.sextets rest.
Proof. intros [Hv He]. cbn [Encoding.sextets]. rewrite He, Hv. reflexivity. Qed.

Lemma tail_group (a b : Z) :
  is_byte a → is_byte b →
  (0 ≤ a / 4 < 64 ∧ 0 ≤ (a mod 4) * 16 < 64 ∧ 0 ≤ (a mod 4) * 16 + b / 16 < 64
   ∧ 0 ≤ (b mod 16) * 4 < 64)
  ∧ (a / 4) * 4 + ((a mod 4) * 16) / 16 = a
  ∧ (a / 4) * 4 + ((a mod 4) * 16 + b / 16) / 16 = a
  ∧ (((a mod 4) * 16 + b / 16) mod 16) * 16 + ((b mod 16) * 4) / 4 = b.
Proof.
  unfold is_byte. intros Ha Hb.
  repeat split; Z.div_mod_to_equations; lia.
Qed.

Section RoundTrip.
Variable ch : Z → ascii.
Hypothesis ch_ok : ∀ n, 0 ≤ n < 64 →
  Encoding.unbase64 (ch n) = Some n ∧ Ascii.eqb (ch n) "="%char = false.
(** An encoder over the alphabet [ch] with the padding [pad1] after a
    two-byte tail and [pad2] after a one-byte tail. *)
Variable enc : list Z → string.
Variables pad1 pad2 : string.
Hypothesis pad1_ok : Encoding.sextets pad1 = [].
Hypothesis pad2_ok : Encoding.sextets pad2 = [].
Hypothesis enc_nil : enc [] = EmptyString.
Hypothesis enc_one : ∀ a,
  enc [a] = String (ch (a / 4)) (String (ch ((a mod 4) * 16)) pad2).
Hypothesis enc_two : ∀ a b,
  enc [a; b] = String (ch (a / 4)) (String (ch ((a mod 4) * 16 + b / 16))
                 (String (ch ((b mod 16) * 4)) pad1)).
Hypothesis enc_three : ∀ a b c rest,
  enc (a :: b :: c :: rest)
  = String (ch (a / 4)) (String (ch ((a mod 4) * 16 + b / 16))
      (String (ch ((b mod 16) * 4 + c / 64)) (String (ch (c mod 64)) (enc rest)))).

Lemma unsextets_enc (n : nat) (bs : list Z) (f : nat) :
  (length bs ≤ n)%nat → Forall is_byte bs →
  (length (Encoding.sextets (enc bs)) ≤ f)%nat →
  Encoding.unsextets f (Encoding.sextets (enc bs)) = bs.
Proof.
  revert bs f. induction n as [n IH] using lt_wf_ind. intros bs f Hn Hbytes.
  destruct bs as [| a [| b [| c rest]]].
  - rewrite enc_nil. destruct f; reflexivity.
  - apply Forall_cons in Hbytes as [Ha _].
    destruct (tail_group a a Ha Ha) as ((R1 & R2 & _ & _) & E1 & _).
    rewrite enc_one, (sextets_cons _ _ _ (ch_ok _ R1)), (sextets_cons _ _ _ (ch_ok _ R2)),
      pad2_ok.
    cbn [length]. intros Hf. destruct f as [| f]; [lia |].
    cbn [Encoding.unsextets]. rewrite E1. reflexivity.
  - apply Forall_cons in Hbytes as [Ha Hbytes]. apply Forall_cons in Hbytes as [Hb _].
    destruct (tail_group a b Ha Hb) as ((R1 & _ & R2 & R3) & _ & E1 & E2).
    rewrite enc_two, (sextets_cons _ _ _ (ch_ok _ R1)), (sextets_cons _ _ _ (ch_ok _ R2)),
      (sextets_cons _ _ _ (ch_ok _ R3)), pad1_ok.
    cbn [length]. intros Hf. destruct f as [| f]; [lia |].
    cbn [Encoding.unsextets]. rewrite E1, E2. reflexivity.
  - apply Forall_cons in Hbytes as [Ha Hbytes]. apply Forall_cons in Hbytes as [Hb Hbytes].
    apply Forall_cons in Hbytes as [Hc Hrest].
    destruct (regroup a b c Ha Hb Hc) as ((R1 & R2 & R3 & R4) & E1 & E2 & E3).
    rewrite enc_three, (sextets_cons _ _ _ (ch_ok _ R1)), (sextets_cons _ _ _ (ch_ok _ R2)),
      (sextets_cons _ _ _ (ch_ok _ R3)), (sextets_cons _ _ _ (ch_ok _ R4)).
    cbn [length] in *. intros Hf. destruct f as [| f]; [lia |].
    cbn [Encoding.unsextets]. rewrite E1, E2, E3.
    rewrite (IH (length rest)); [reflexivity | lia | lia | exact Hrest | lia].
Qed.

Lemma from_base64_enc (bs : list Z) :
  Forall is_byte bs → Encoding.from_base64 (enc bs) = bs.
Proof.
  intros Hbytes. unfold Encoding.from_base64.
  apply (unsextets_enc (length bs)); auto.
Qed.
End RoundTrip.

Lemma from_base64_base64 (bs : list Z) :
  Forall is_byte bs → Encoding.from_base64 (CertTest.base64 bs) = bs.
Proof.
  apply (from_base64_enc CertTest.b64_char unbase64_b64_char CertTest.base64 "=" "==");
    reflexivity.
Qed.

Lemma from_base64_base64url (bs : list Z) :
  Forall is_byte bs → Encoding.from_base64 (Encoding.base64url bs) = bs.
Proof.
  apply (from_base64_enc Encoding.b64url_char unbase64_b64url_char Encoding.base64url "" "");
    reflexivity.
Qed.

Lemma be_bytes_range n x : Forall is_byte (SHA256.be_bytes n x).
Proof.
  induction n as [| n IH]; cbn [SHA256.be_bytes]; constructor; [| exact IH].
  unfold is_byte. apply Z.mod_pos_bound. lia.
Qed.

Lemma digest_bytes msg : Forall is_byte (SHA256.digest msg).
Proof.
  unfold SHA256.digest. generalize (fold_left SHA256.compress
    (SHA256.blocks (length (SHA256.pad msg)) (SHA256.pad msg)) SHA256.H0).
  intros h. induction h as [| x h IH]; cbn [List.map List.concat]; [constructor |].
  apply Forall_app. split; [apply be_bytes_range | exact IH].
Qed.

Lemma base64url_inj (x y : list Z) :
  Forall is_byte x → Forall is_byte y →
  Encoding.base64url x = Encoding.base64url y → x = y.
Proof.
  intros Hx Hy Heq.
  rewrite <- (from_base64_base64url x Hx), <- (from_base64_base64url y Hy), Heq.
  reflexivity.
Qed.

(** X9.  The certificate warning.  The comparison of [issueToken] between the
    thumbprint of the registered PEM and that of the peer's DER logs its
    warning exactly when the SHA-256 digests of the two certificates differ:
    the base64url encoding identifies no two digests. *)
Theorem thumbprints_compare (pem : string) (raw : list Z) :
  compareThumbprints (Some (certToX5tS256 (Pem pem))) (Some (certToX5tS256 (Der raw)))
  = if decide (SHA256.digest (pemToDer pem) = SHA256.digest raw)
    then [] else [MISMATCH_WARNING].
Proof.
  unfold compareThumbprints. rewrite !thumbprint_truthy. cbn [andb].
  unfold certToX5tS256.
  destruct (decide (SHA256.digest (pemToDer pem) = SHA256.digest raw)) as [-> | Hne].
  - rewrite String.eqb_refl. reflexivity.
  - destruct (String.eqb _ _) eqn:Heq; [| reflexivity].
    apply String.eqb_eq, base64url_inj in Heq; [contradiction | |]; apply digest_bytes.
Qed.

(** ** PEM texts *)

Lemma append_assoc (a b c : string) : (a +:+ b) +:+ c = a +:+ (b +:+ c).
Proof.
  induction a as [| x a IH]; [reflexivity |].
  change ((String x a +:+ b) +:+ c) with (String x ((a +:+ b) +:+ c)).
  rewrite IH. reflexivity.
Qed.

Lemma includes_append sep a b :
  JS.includes sep (a +:+ b) = JS.includes sep a || JS.includes sep b.
Proof.
  induction a as [| x a IH]; [reflexivity |].
  change (String x a +:+ b) with (String x (a +:+ b)).
  cbn [JS.includes]. rewrite IH, orb_assoc. reflexivity.
Qed.

Lemma all_chars_append p a b :
  all_chars p (a +:+ b) = all_chars p a && all_chars p b.
Proof.
  induction a as [| x a IH]; [reflexivity |].
  change (String x a +:+ b) with (String x (a +:+ b)).
  cbn [all_chars]. rewrite IH, andb_assoc. reflexivity.
Qed.

Lemma concat_cons (x : string) (xs : list string) :
  String.concat "" (x :: xs) = x +:+ String.concat "" xs.
Proof.
  destruct xs as [| y ys]; [symmetry; apply append_empty_r | reflexivity].
Qed.

Lemma plain_no_newline s : all_chars plainChar s = true → JS.includes "010" s = false.
Proof.
  induction s as [| c s IH]; [reflexivity |].
  cbn [all_chars JS.includes]. intros [Hc Hs]%andb_true_iff.
  rewrite (IH Hs), orb_false_r.
  destruct (Ascii.eqb_spec c "010"%char) as [-> | _]; [discriminate Hc | reflexivity].
Qed.

Lemma trimStart_plain c s : plainChar c = true → JS.trimStart (String c s) = String c s.
Proof.
  intros [Hc _]%andb_true_iff. apply negb_true_iff, orb_false_iff in Hc as [Hsp Hlow].
  apply Nat.leb_gt in Hlow.
  cbn [JS.trimStart]. rewrite Hsp.
  destruct s as [| b s]; [reflexivity |].
  replace (JS.is_space2 c b) with false; cycle 1.
  { unfold JS.is_space2. destruct (Nat.eqb_spec (nat_of_ascii c) 194); [lia | reflexivity]. }
  destruct s as [| d s]; [reflexivity |].
  replace (JS.is_space3 c b d) with false; [reflexivity |].
  unfold JS.is_space3.
  destruct (Nat.eqb_spec (nat_of_ascii c) 225); [lia |].
  destruct (Nat.eqb_spec (nat_of_ascii c) 226); [lia |].
  destruct (Nat.eqb_spec (nat_of_ascii c) 227); [lia |].
  destruct (Nat.eqb_spec (nat_of_ascii c) 239); [lia |].
  reflexivity.
Qed.

Lemma trimEnd_plain s cr :
  all_chars plainChar s = true → JS.trimEnd cr = EmptyString → JS.trimEnd (s +:+ cr) = s.
Proof.
  intros Hs Hcr. induction s as [| c s IH]; [exact Hcr |].
  cbn [all_chars] in Hs. apply andb_true_iff in Hs as [Hc Hs].
  change (String c s +:+ cr) with (String c (s +:+ cr)).
  cbn [JS.trimEnd]. unfold JS.blank. rewrite (trimStart_plain _ _ Hc), (IH Hs).
  reflexivity.
Qed.

Lemma trim_plain s cr :
  all_chars plainChar s = true → JS.trim cr = EmptyString → JS.trimEnd cr = EmptyString →
  JS.trim (s +:+ cr) = s.
Proof.
  intros Hs Hcr Hend. unfold JS.trim. destruct s as [| c s].
  - exact Hcr.
  - change (String c s +:+ cr) with (String c (s +:+ cr)).
    pose proof Hs as Hall.
    cbn [all_chars] in Hs. apply andb_true_iff in Hs as [Hc _].
    rewrite (trimStart_plain _ _ Hc).
    change (String c (s +:+ cr)) with (String c s +:+ cr).
    apply trimEnd_plain; assumption.
Qed.

Lemma plain_no_boundary s : all_chars plainChar s = true → JS.startsWith "-----" s = false.
Proof.
  destruct s as [| c s]; [reflexivity |].
  cbn [all_chars]. intros [[_ Hd]%andb_true_iff _]%andb_true_iff.
  apply negb_true_iff in Hd. unfold JS.startsWith. cbn [String.prefix].
  destruct (ascii_dec "-" c) as [<- | _]; [discriminate Hd | reflexivity].
Qed.

Lemma split_line (a cr b : string) :
  JS.includes "010" a = false → JS.includes "010" cr = false →
  JS.split "010" (a +:+ cr +:+ CertTest.LF +:+ b) = (a +:+ cr) :: JS.split "010" b.
Proof.
  intros Ha Hcr. unfold CertTest.LF.
  rewrite <- (split_app "010" (a +:+ cr) b)
    by (rewrite includes_append, Ha, Hcr; reflexivity).
  f_equal. rewrite !append_assoc. reflexivity.
Qed.

Lemma split_body (cr : string) (lines : list string) (tail : string) :
  JS.includes "010" cr = false →
  Forall (fun l => all_chars plainChar l = true) lines →
  JS.split "010" (String.concat "" (List.map (fun l => l +:+ (cr +:+ CertTest.LF)) lines)
                  +:+ tail)
  = (List.map (fun l => l +:+ cr) lines ++ JS.split "010" tail)%list.
Proof.
  intros Hcr Hlines. induction Hlines as [| l lines Hl _ IH]; [reflexivity |].
  cbn [List.map]. rewrite concat_cons, !append_assoc.
  rewrite split_line; [| apply plain_no_newline, Hl | exact Hcr].
  rewrite IH. reflexivity.
Qed.

Lemma base64Body_lines (cr : string) (lines : list string) (rest : list string) :
  JS.trim cr = EmptyString → JS.trimEnd cr = EmptyString →
  Forall (fun l => all_chars plainChar l = true) lines →
  base64Body (List.map (fun l => l +:+ cr) lines ++ rest)
  = String.concat "" lines +:+ base64Body rest.
Proof.
  intros Hcr Hend Hlines. induction Hlines as [| l lines Hl _ IH]; [reflexivity |].
  cbn [List.map app base64Body].
  rewrite (trim_plain _ _ Hl Hcr Hend), (plain_no_boundary _ Hl), IH, concat_cons,
    append_assoc.
  reflexivity.
Qed.

Section Alphabet.
Variable p : ascii → bool.
Variable ch : Z → ascii.
Hypothesis ch_plain : ∀ n, 0 ≤ n < 64 → p (ch n) = true.
Variable enc : list Z → string.
Variables pad1 pad2 : string.
Hypothesis pad1_plain : all_chars p pad1 = true.
Hypothesis pad2_plain : all_chars p pad2 = true.
Hypothesis enc_nil : enc [] = EmptyString.
Hypothesis enc_one : ∀ a,
  enc [a] = String (ch (a / 4)) (String (ch ((a mod 4) * 16)) pad2).
Hypothesis enc_two : ∀ a b,
  enc [a; b] = String (ch (a / 4)) (String (ch ((a mod 4) * 16 + b / 16))
                 (String (ch ((b mod 16) * 4)) pad1)).
Hypothesis enc_three : ∀ a b c rest,
  enc (a :: b :: c :: rest)
  = String (ch (a / 4)) (String (ch ((a mod 4) * 16 + b / 16))
      (String (ch ((b mod 16) * 4 + c / 64)) (String (ch (c mod 64)) (enc rest)))).

Lemma enc_plain (n : nat) (bs : list Z) :
  (length bs ≤ n)%nat → Forall is_byte bs → all_chars p (enc bs) = true.
Proof.
  revert bs. induction n as [n IH] using lt_wf_ind. intros bs Hn Hbytes.
  destruct bs as [| a [| b [| c rest]]].
  - rewrite enc_nil. reflexivity.
  - apply Forall_cons in Hbytes as [Ha _].
    destruct (tail_group a a Ha Ha) as ((R1 & R2 & _ & _) & _).
    rewrite enc_one. cbn [all_chars]. rewrite !ch_plain, pad2_plain by assumption.
    reflexivity.
  - apply Forall_cons in Hbytes as [Ha Hbytes]. apply Forall_cons in Hbytes as [Hb _].
    destruct (tail_group a b Ha Hb) as ((R1 & _ & R2 & R3) & _).
    rewrite enc_two. cbn [all_chars]. rewrite !ch_plain, pad1_plain by assumption.
    reflexivity.
  - apply Forall_cons in Hbytes as [Ha Hbytes]. apply Forall_cons in Hbytes as [Hb Hbytes].
    apply Forall_cons in Hbytes as [Hc Hrest].
    destruct (regroup a b c Ha Hb Hc) as ((R1 & R2 & R3 & R4) & _).
    rewrite enc_three. cbn [all_chars]. rewrite !ch_plain by assumption.
    cbn [length] in Hn. rewrite (IH (length rest)); [reflexivity | lia | lia | exact Hrest].
Qed.
End Alphabet.

Lemma b64_char_plain n : 0 ≤ n < 64 → plainChar (CertTest.b64_char n) = true.
Proof. revert n. each_sextet. Qed.

Lemma base64_plain bs : Forall is_byte bs → all_chars plainChar (CertTest.base64 bs) = true.
Proof.
  intros Hbs.
  apply (enc_plain plainChar CertTest.b64_char b64_char_plain CertTest.base64 "=" "==")
    with (length bs); auto.
Qed.

Lemma all_chars_concat p (lines : list string) :
  all_chars p (String.concat "" lines) = true →
  Forall (fun l => all_chars p l = true) lines.
Proof.
  induction lines as [| l lines IH]; [constructor |].
  rewrite concat_cons, all_chars_append. intros [Hl Hrest]%andb_true_iff.
  constructor; auto.
Qed.

(** The DER bytes [certToX5tS256] reads out of a PEM text. *)
Lemma pemToDer_pem (der : list Z) (lines : list string) (eol : string) :
  Forall is_byte der →
  eol = CertTest.LF ∨ eol = CertTest.CRLF →
  String.concat "" lines = CertTest.base64 der →
  pemToDer (CertTest.pem eol lines) = der.
Proof.
  intros Hder Heol Hlines.
  assert (Forall (fun l => all_chars plainChar l = true) lines) as Hplain
    by (apply all_chars_concat; rewrite Hlines; apply base64_plain, Hder).
  assert (∃ cr, eol = cr +:+ CertTest.LF ∧ JS.includes "010" cr = false
                ∧ JS.trim cr = EmptyString ∧ JS.trimEnd cr = EmptyString
                ∧ JS.startsWith "-----" (JS.trim ("-----BEGIN CERTIFICATE-----" +:+ cr)) = true
                ∧ JS.startsWith "-----" (JS.trim ("-----END CERTIFICATE-----" +:+ cr)) = true
                ∧ JS.includes "010" ("-----BEGIN CERTIFICATE-----") = false
                ∧ JS.includes "010" ("-----END CERTIFICATE-----") = false)
    as (cr & -> & Hcr & Htrim & Hend & Hbegin & Hfin & Hb & He).
  { destruct Heol as [-> | ->]; [exists "" | exists (String "013" "")];
      repeat split; reflexivity. }
  unfold pemToDer, CertTest.pem.
  rewrite !append_assoc, split_line by assumption.
  rewrite split_body by assumption.
  rewrite ?append_assoc.
  rewrite <- (append_empty_r CertTest.LF), split_line by assumption.
  cbn [base64Body]. rewrite Hbegin.
  rewrite base64Body_lines by assumption.
  cbn [base64Body JS.split]. rewrite Hfin.
  change (JS.startsWith "-----" (JS.trim "")) with false. cbn iota.
  change (JS.trim "") with "".
  rewrite !append_empty_r, Hlines.
  apply from_base64_base64, Hder.
Qed.

(** X10.  PEM and DER give the same thumbprint, as [crypto.test.js] checks
    on one input.  For every buffer, a PEM whose lines hold the standard
    base64 of the buffer, broken anywhere, with LF or CRLF line ends, has the
    thumbprint of the buffer itself. *)
Theorem pem_der_thumbprint (der : list Z) (lines : list string) (eol : string) :
  Forall is_byte der →
  eol = CertTest.LF ∨ eol = CertTest.CRLF →
  String.concat "" lines = CertTest.base64 der →
  certToX5tS256 (Pem (CertTest.pem eol lines)) = certToX5tS256 (Der der).
Proof.
  intros Hder Heol Hlines. unfold certToX5tS256.
  rewrite (pemToDer_pem der lines eol Hder Heol Hlines). reflexivity.
Qed.

Lemma pem_der_thumbprint_witness :
  certToX5tS256 (Pem (CertTest.pem CertTest.CRLF ["YWJj"; "ZGVm"]))
  = certToX5tS256 (Der [97; 98; 99; 100; 101; 102]).
Proof.
  apply (pem_der_thumbprint [97; 98; 99; 100; 101; 102] ["YWJj"; "ZGVm"] CertTest.CRLF).
  - repeat constructor; unfold is_byte; lia.
  - right. reflexivity.
  - vm_compute. reflexivity.
Defined.

(** ** The thumbprint *)

Lemma b64url_char_urlsafe n : 0 ≤ n < 64 → urlsafe (Encoding.b64url_char n) = true.
Proof. revert n. each_sextet. Qed.

(** X11.  The shape of a thumbprint.  For every input, PEM or DER,
    [certToX5tS256] returns 43 characters of the URL-safe alphabet: letters,
    digits, [-] and [_], and no padding. *)
Theorem thumbprint_shape (c : certInput) :
  String.length (certToX5tS256 c) = 43%nat
  ∧ all_chars urlsafe (certToX5tS256 c) = true.
Proof.
  split; [apply thumbprint_length |].
  unfold certToX5tS256.
  apply (enc_plain urlsafe Encoding.b64url_char b64url_char_urlsafe Encoding.base64url "" "")
    with (n := 32%nat); try reflexivity.
  - rewrite digest_length. lia.
  - apply digest_bytes.
Qed.

(** ** The escaped certificate header *)

Lemma decode_plain (c : ascii) (rest : string) :
  Ascii.eqb c "%"%char = false →
  Mtls.decode 0 0 0 (String c rest) = String c <$> Mtls.decode 0 0 0 rest.
Proof. intros Hc. cbn [Mtls.decode]. rewrite Hc. reflexivity. Qed.

Lemma decode_escape (h1 h2 : ascii) (a b : Z) (rest : string) :
  Mtls.hexval h1 = Some a → Mtls.hexval h2 = Some b → (16 * a + b <? 128) = true →
  Mtls.decode 0 0 0 (String "%" (String h1 (String h2 rest)))
  = String (Mtls.byte (16 * a + b)) <$> Mtls.decode 0 0 0 rest.
Proof.
  intros H1 H2 Hlt. cbn [Mtls.decode]. rewrite Ascii.eqb_refl, H1, H2, Hlt. reflexivity.
Qed.

(** Evaluates the test of [encodeURIComponent] on a given character. *)
Ltac by_character :=
  cbn [CertTest.encodeURIComponent];
  match goal with
  | |- context [CertTest.unreserved ?c] =>
      let b := eval vm_compute in (CertTest.unreserved c) in
      change (CertTest.unreserved c) with b; cbn iota
  end.

Lemma decode_encode (s : string) :
  all_chars is_ascii s = true →
  Mtls.decodeURIComponent (CertTest.encodeURIComponent s) = Some s.
Proof.
  unfold Mtls.decodeURIComponent.
  induction s as [| c s IH]; [reflexivity |].
  cbn [all_chars]. intros [Hc Hs]%andb_true_iff. specialize (IH Hs).
  destruct c as [[] [] [] [] [] [] [] []]; try discriminate Hc; by_character.
  all: first
    [ rewrite decode_plain by reflexivity; rewrite IH; reflexivity
    | match goal with
      | |- context [String "%" (String ?h1 (String ?h2 _))] =>
          let a := eval vm_compute in (Mtls.hexval h1) in
          let b := eval vm_compute in (Mtls.hexval h2) in
          match a with
          | Some ?x =>
              match b with
              | Some ?y =>
                  rewrite (decode_escape h1 h2 x y) by (vm_compute; reflexivity);
                  rewrite IH; vm_compute; reflexivity
              end
          end
      end ].
Qed.

Lemma replacePlus_encode (s : string) :
  Mtls.replacePlus (CertTest.encodeURIComponent s) = CertTest.encodeURIComponent s.
Proof.
  induction s as [| c s IH]; [reflexivity |].
  destruct c as [[] [] [] [] [] [] [] []]; by_character.
  all: cbn [Mtls.replacePlus];
    repeat match goal with
           | |- context [Ascii.eqb ?c "+"%char] =>
               let b := eval vm_compute in (Ascii.eqb c "+"%char) in
               change (Ascii.eqb c "+"%char) with b; cbn iota
           end;
    rewrite IH; reflexivity.
Qed.

Lemma encode_truthy (s : string) :
  s ≠ EmptyString → JS.truthy (Some (CertTest.encodeURIComponent s)) = true.
Proof.
  destruct s as [| c s]; [congruence |]. intros _.
  cbn [CertTest.encodeURIComponent]. destruct (CertTest.unreserved c); reflexivity.
Qed.

(** X12.  The escaped certificate of the gateway, as [mtls.test.js] checks
    on one input.  For every non-empty ASCII text, the thumbprint of its
    [encodeURIComponent] form is the thumbprint of the text: the decoding
    undoes the escaping, and no [+] of the base64 is turned into a space. *)
Theorem escaped_pem_thumbprint (pem : string) :
  all_chars is_ascii pem = true →
  pem ≠ EmptyString →
  Mtls.thumbprintFromEscapedPem (Some (CertTest.encodeURIComponent pem))
  = inr (Some (certToX5tS256 (Pem pem))).
Proof.
  intros Hascii Hne. unfold Mtls.thumbprintFromEscapedPem, Mtls.decodeEscapedPem.
  rewrite (encode_truthy pem Hne). cbn [default].
  unfold Datatypes.id. rewrite replacePlus_encode, (decode_encode pem Hascii).
  destruct pem; [congruence | reflexivity].
Qed.

(** The assertion of [mtls.test.js]. *)
Lemma escaped_pem_thumbprint_witness :
  Mtls.thumbprintFromEscapedPem (Some (CertTest.encodeURIComponent Seed.certificate))
  = inr (Some (certToX5tS256 (Pem Seed.certificate))).
Proof.
  apply (escaped_pem_thumbprint Seed.certificate); [vm_compute; reflexivity | discriminate].
Defined.

(* --------------------------------------------------------------------- *)
(** ** The FHIR routes and the approval *)
(* --------------------------------------------------------------------- *)

(** ** The write routes *)

Lemma insert_keyed {A} (idOf : A → option string) (m : gmap string A) (i : string) (x : A) :
  (∀ k v, m !! k = Some v → idOf v = Some k) → idOf x = Some i →
  ∀ k v, <[i := x]> m !! k = Some v → idOf v = Some k.
Proof.
  intros Hm Hx k v. rewrite lookup_insert. case_decide; [| apply Hm].
  intros [= <-]. subst. exact Hx.
Qed.

Lemma putOrganization_store st org id body :
  let st' := snd (Routes.putOrganization st org id body) in
  st' = st
  ∨ ∃ existing i updated,
      FHIRStore.Organization st !! id = Some existing
      ∧ Organization.id existing = Some i ∧ Organization.id updated = Some i
      ∧ is_Some (FHIRStore.Organization st !! i)
      ∧ (Routes.isPcmAdmin st org = false →
         org = Some id
         ∧ Organization.type updated = Organization.type existing
         ∧ Organization.partOf updated = Organization.partOf existing
         ∧ (Organization.active existing = Some false →
            Organization.active updated ≠ Some true)
         ∧ (Organization.active existing ≠ Some false ∨ Organization.active body ≠ Some true →
            Organization.active updated = Organization.active body))
      ∧ st' = FHIRStore.with_Organization (<[i := updated]> (FHIRStore.Organization st)) st.
Proof.
  unfold Routes.putOrganization.
  destruct (Routes.isPcmAdmin st org) eqn:Hadmin; cbn [negb andb].
  - destruct (FHIRStore.getOrganization st (Some id)) as [existing |] eqn:Hget;
      [| left; reflexivity].
    destruct (Routes.idMismatch _ _); [left; reflexivity |].
    unfold FHIRStore.updateOrganization. cbn [Organization.id].
    destruct (Organization.id existing) as [i |] eqn:Hid; [| left; reflexivity].
    case_bool_decide as Hin; [| left; reflexivity].
    right. cbn [snd].
    match goal with |- context [<[i := ?u]> _] => exists existing, i, u end.
    split; [exact Hget |]. split; [exact Hid |]. split; [reflexivity |].
    split; [exact Hin |]. split; [discriminate | reflexivity].
  - destruct (str_is org id) eqn:Horg; cbn [negb]; [| left; reflexivity].
    apply str_is_spec in Horg.
    destruct (FHIRStore.getOrganization st (Some id)) as [existing |] eqn:Hget;
      [| left; reflexivity].
    destruct (Routes.idMismatch _ _); [left; reflexivity |].
    unfold FHIRStore.updateOrganization. cbn [Organization.id].
    destruct (Organization.id existing) as [i |] eqn:Hid; [| left; reflexivity].
    case_bool_decide as Hin; [| left; reflexivity].
    right. cbn [snd].
    match goal with |- context [<[i := ?u]> _] => exists existing, i, u end.
    split; [exact Hget |]. split; [exact Hid |]. split; [reflexivity |].
    split; [exact Hin |]. split; [| reflexivity].
    intros _. cbn [Organization.type Organization.partOf Organization.active].
    repeat split; auto.
    + intros Hfalse. rewrite Hfalse. rewrite bool_decide_eq_true_2 by reflexivity.
      cbn [andb]. case_bool_decide as Ht; [discriminate | exact Ht].
    + intros [Hne | Hne].
      * rewrite (bool_decide_eq_false_2 _ Hne). reflexivity.
      * rewrite (bool_decide_eq_false_2 _ Hne), andb_false_r. reflexivity.
Qed.

(** The maps a write route leaves as they are. *)
Ltac by_cases :=
  repeat match goal with
         | |- context [if ?c then _ else _] => destruct c
         | |- context [match ?x with _ => _ end] => destruct x
         end;
  try reflexivity.

Lemma postHealthcareService_frame st org u resourceType incoming :
  let st' := snd (Routes.postHealthcareService st org u resourceType incoming) in
  FHIRStore.Organization st' = FHIRStore.Organization st
  ∧ FHIRStore.Endpoint st' = FHIRStore.Endpoint st
  ∧ FHIRStore.Consent st' = FHIRStore.Consent st.
Proof.
  unfold Routes.postHealthcareService.
  destruct (negb (str_is resourceType "HealthcareService")); [auto |].
  destruct (Routes.isPcmAdmin st org); [auto |].
  destruct (existsb _ _); [auto |].
  destruct (negb (JS.truthy org)); [auto |].
  destruct (Routes.parse incoming) as [body h0].
  destruct (Routes.createInstance _ u body h0) as [[canonical instance] h].
  destruct canonical; auto.
Qed.

Lemma serve_organizations st org r :
  (∀ id body, r ≠ Routes.PutOrganization id body) →
  FHIRStore.Organization (Routes.serve st org r) = FHIRStore.Organization st.
Proof.
  intros Hr. destruct r; cbn [Routes.serve].
  - exfalso. eapply Hr. reflexivity.
  - unfold Routes.postEndpoint, FHIRStore.addEndpoint. by_cases.
  - unfold Routes.putEndpoint. by_cases.
  - apply postHealthcareService_frame.
  - unfold Routes.putHealthcareService. by_cases.
  - unfold Routes.postConsent. by_cases.
  - unfold Routes.putConsent. by_cases.
Qed.

Lemma serve_consents st org r :
  (∀ u body, r ≠ Routes.PostConsent u body) →
  (∀ id body, r ≠ Routes.PutConsent id body) →
  FHIRStore.Consent (Routes.serve st org r) = FHIRStore.Consent st.
Proof.
  intros Hpost Hput. destruct r; cbn [Routes.serve].
  - destruct (putOrganization_store st org id body) as [-> | (? & ? & ? & _ & _ & _ & _ & _ & ->)];
      reflexivity.
  - unfold Routes.postEndpoint, FHIRStore.addEndpoint. by_cases.
  - unfold Routes.putEndpoint. by_cases.
  - apply postHealthcareService_frame.
  - unfold Routes.putHealthcareService. by_cases.
  - exfalso. eapply Hpost. reflexivity.
  - exfalso. eapply Hput. reflexivity.
Qed.

Lemma createInstance_ids callerOrgId u incoming h0 canonical instance h :
  Routes.createInstance callerOrgId u incoming h0 = (canonical, instance, h) →
  (∃ k, Routes.s_id instance = Some k)
  ∧ ∀ c, canonical = Some c → Routes.s_id c = Some (Routes.forCanonical u).
Proof.
  unfold Routes.createInstance.
  destruct (Routes.extensionsOf _ h0) as [extensions h1].
  destruct (List.find _ _).
  - destruct (Routes.metaOf _ _) as [imeta h6]. intros [= <- <- <-].
    split; [eexists; reflexivity | discriminate].
  - destruct (Routes.metaOf _ h1) as [cmeta h2].
    destruct (Routes.metaOf _ _) as [imeta h6]. intros [= <- <- <-].
    split; [eexists; reflexivity | intros c [= <-]; reflexivity].
Qed.

Lemma postHealthcareService_keyed st org u resourceType incoming :
  let st' := snd (Routes.postHealthcareService st org u resourceType incoming) in
  (∀ k h, FHIRStore.HealthcareService st !! k = Some h → HealthcareService.id h = Some k) →
  ∀ k h, FHIRStore.HealthcareService st' !! k = Some h → HealthcareService.id h = Some k.
Proof.
  cbn zeta. intros Hkeyed. unfold Routes.postHealthcareService.
  destruct (negb (str_is resourceType "HealthcareService")); [exact Hkeyed |].
  destruct (Routes.isPcmAdmin st org);
    [cbn [snd FHIRStore.addHealthcareService FHIRStore.with_HealthcareService
          FHIRStore.HealthcareService];
     apply insert_keyed; [exact Hkeyed | reflexivity] |].
  destruct (existsb _ _);
    [cbn [snd FHIRStore.addHealthcareService FHIRStore.with_HealthcareService
          FHIRStore.HealthcareService];
     apply insert_keyed; [exact Hkeyed | reflexivity] |].
  destruct (negb (JS.truthy org)); [exact Hkeyed |].
  destruct (Routes.parse incoming) as [body h0].
  destruct (Routes.createInstance _ u body h0) as [[canonical instance] h] eqn:Hcreate.
  apply createInstance_ids in Hcreate as [[key Hkey] Hcanonical].
  cbn [snd FHIRStore.addHealthcareService FHIRStore.with_HealthcareService
       FHIRStore.HealthcareService].
  apply insert_keyed.
  - destruct canonical as [c |]; [| exact Hkeyed].
    cbn [FHIRStore.addHealthcareService FHIRStore.with_HealthcareService
         FHIRStore.HealthcareService].
    apply insert_keyed; [exact Hkeyed |].
    cbn [Routes.read HealthcareService.id]. apply Hcanonical. reflexivity.
  - cbn [Routes.read HealthcareService.id]. rewrite Hkey. reflexivity.
Qed.

Lemma serve_keyed st org r : keyed st → keyed (Routes.serve st org r).
Proof.
  intros (Horg & Hep & Hhs & Hco). destruct r; cbn [Routes.serve].
  - destruct (putOrganization_store st org id body)
      as [-> | (existing & i & updated & _ & _ & Hid & _ & _ & ->)];
      [repeat split; assumption |].
    repeat split; try assumption.
    cbn [FHIRStore.with_Organization FHIRStore.Organization].
    apply insert_keyed; assumption.
  - unfold Routes.postEndpoint.
    destruct (negb _); [repeat split; assumption |].
    destruct (if Routes.isPcmAdmin st org then _ else _); [repeat split; assumption |].
    unfold FHIRStore.addEndpoint. cbn [snd]. repeat split; try assumption.
    cbn [FHIRStore.with_Endpoint FHIRStore.Endpoint].
    apply insert_keyed; [assumption | reflexivity].
  - unfold Routes.putEndpoint.
    destruct (FHIRStore.getEndpoint st (Some id)); [| repeat split; assumption].
    destruct (if Routes.isPcmAdmin st org then _ else _); [repeat split; assumption |].
    destruct (Routes.idMismatch _ _); [repeat split; assumption |].
    cbn [snd]. repeat split; try assumption.
    cbn [FHIRStore.updateEndpoint FHIRStore.with_Endpoint FHIRStore.Endpoint].
    apply insert_keyed; [assumption | reflexivity].
  - destruct (postHealthcareService_frame st org u resourceType body) as (E1 & E2 & E3).
    cbn zeta in *. unfold keyed. rewrite E1, E2, E3.
    repeat split; try assumption.
    apply postHealthcareService_keyed. assumption.
  - unfold Routes.putHealthcareService.
    destruct (FHIRStore.getHealthcareService st (Some id)); [| repeat split; assumption].
    destruct (Routes.isPcmAdmin st org).
    + destruct (Routes.idMismatch _ _); [repeat split; assumption |].
      cbn [snd]. repeat split; try assumption.
      cbn [FHIRStore.addHealthcareService FHIRStore.with_HealthcareService
           FHIRStore.HealthcareService].
      apply insert_keyed; [assumption | reflexivity].
    + destruct (existsb _ _); [repeat split; assumption |].
      destruct (negb _); [repeat split; assumption |].
      destruct (Routes.idMismatch _ _); [repeat split; assumption |].
      cbn [snd]. repeat split; try assumption.
      cbn [FHIRStore.addHealthcareService FHIRStore.with_HealthcareService
           FHIRStore.HealthcareService].
      apply insert_keyed; [assumption | reflexivity].
  - unfold Routes.postConsent.
    destruct (negb _); [repeat split; assumption |].
    destruct (negb _); [repeat split; assumption |].
    destruct (FHIRStore.getOrganization st org); [| repeat split; assumption].
    cbn [snd]. repeat split; try assumption.
    cbn [FHIRStore.addConsent FHIRStore.with_Consent FHIRStore.Consent].
    apply insert_keyed; [assumption | reflexivity].
  - unfold Routes.putConsent.
    destruct (FHIRStore.getConsent st (Some id)) as [existing |] eqn:Hget;
      [| repeat split; assumption].
    destruct (Routes.idMismatch _ _); [repeat split; assumption |].
    destruct (Routes.isPcmAdmin st org).
    + cbn [snd]. repeat split; try assumption.
      cbn [FHIRStore.addConsent FHIRStore.with_Consent FHIRStore.Consent].
      apply insert_keyed; [assumption | reflexivity].
    + destruct (negb _); [repeat split; assumption |].
      destruct (_ || _); [repeat split; assumption |].
      cbn [snd]. repeat split; try assumption.
      cbn [FHIRStore.addConsent FHIRStore.with_Consent FHIRStore.Consent].
      apply insert_keyed; [assumption |].
      cbn [Consent.set_status Consent.id]. apply Hco. exact Hget.
Qed.

Lemma bootstrap_keyed : keyed Seed.bootstrap.
Proof.
  unfold keyed, Seed.bootstrap.
  cbn [FHIRStore.Organization FHIRStore.Endpoint FHIRStore.HealthcareService
       FHIRStore.Consent].
  repeat split; intros k x;
    repeat (rewrite lookup_insert; case_decide; [intros [= <-]; subst; reflexivity |]);
    rewrite lookup_empty; discriminate.
Qed.

Lemma asked_keyed : keyed RouteTest.asked.
Proof. apply serve_keyed, bootstrap_keyed. Qed.

(** ** Approval *)

Lemma approve_redirect st id action l st' :
  keyed st → str_is action "decline" = false →
  Ui.handleApproval st id action = (Ui.Redirect l, st') →
  ∃ consent sources existingRefs,
    FHIRStore.Consent st !! id = Some consent
    ∧ Ui.sourcesOf (FHIRStore.getAllOrganization st) = Some sources
    ∧ Ui.referencesOf (Consent.actors consent) = Some existingRefs
    ∧ st' = FHIRStore.addConsent id (approved consent (addedActors sources existingRefs)) st.
Proof.
  intros (_ & _ & _ & Hkeyed) Haction. unfold Ui.handleApproval.
  destruct (FHIRStore.getConsent st (Some id)) as [consent |] eqn:Hget; [| discriminate].
  rewrite Haction.
  change (FHIRStore.getAllOrganization (FHIRStore.addConsent id _ st))
    with (FHIRStore.getAllOrganization st).
  destruct (Ui.sourcesOf _) as [sources |] eqn:Hsources; [| discriminate].
  change (Consent.actors (Consent.set_status (Some "active") consent))
    with (Consent.actors consent).
  destruct (Ui.referencesOf _) as [existingRefs |] eqn:Hrefs; [| discriminate].
  unfold FHIRStore.updateConsent.
  cbn [Ui.with_actors Consent.set_status Consent.id].
  rewrite (Hkeyed id consent Hget).
  case_bool_decide as Hin; [| discriminate].
  intros [= _ <-]. exists consent, sources, existingRefs.
  repeat split; auto.
  unfold FHIRStore.addConsent, FHIRStore.with_Consent. cbn.
  rewrite !insert_insert_eq. reflexivity.
Qed.

Lemma sourcesOf_spec orgs sources :
  Ui.sourcesOf orgs = Some sources →
  ∀ org, In org sources ↔ In org orgs ∧ Ui.isSource org = Some true.
Proof.
  revert sources. induction orgs as [| o orgs IH]; intros sources.
  - intros [= <-] org. cbn. tauto.
  - cbn [Ui.sourcesOf].
    destruct (Ui.isSource o) as [[|] |] eqn:Ho; destruct (Ui.sourcesOf orgs) as [l |];
      try discriminate; intros [= <-] org; specialize (IH l eq_refl org); cbn [In].
    + split.
      * intros [<- | Hin]; [auto | apply IH in Hin; tauto].
      * intros [[<- | Hin] Hs]; [auto | right; apply IH; auto].
    + split.
      * intros Hin. apply IH in Hin. tauto.
      * intros [[<- | Hin] Hs]; [congruence | apply IH; auto].
Qed.

Lemma getAllOrganization_In st org :
  In org (FHIRStore.getAllOrganization st)
  ↔ ∃ k, FHIRStore.Organization st !! k = Some org.
Proof.
  unfold FHIRStore.getAllOrganization. rewrite <- list_elem_of_In, list_elem_of_fmap.
  split.
  - intros ([k o] & -> & Hin). apply elem_of_map_to_list in Hin. eauto.
  - intros [k Hk]. exists (k, org). split; [reflexivity |].
    apply elem_of_map_to_list. exact Hk.
Qed.

Lemma referencesOf_In actors refs r :
  Ui.referencesOf actors = Some refs → r ∈ refs →
  ∃ a, In a actors ∧ is_Some (Actor.reference a) ∧ actorRef a = r.
Proof.
  unfold Ui.referencesOf. intros Hm%mapM_Some. induction Hm as [| a x actors refs Ha _ IH].
  - intros Hin. apply elem_of_nil in Hin. contradiction.
  - intros [-> | Hin]%elem_of_cons.
    + exists a. split; [left; reflexivity |]. unfold actorRef.
      destruct (Actor.reference a); [| discriminate]. injection Ha as <-. eauto.
    + destruct (IH Hin) as (b & Hb & Hrest). exists b. split; [right; exact Hb | exact Hrest].
Qed.

Lemma custodian_role org : hasRole "CST" (Ui.custodian org) = true.
Proof. reflexivity. Qed.

Lemma addedActors_In sources refs a :
  In a (addedActors sources refs)
  ↔ (∃ org, In org sources ∧ a = Ui.custodian org) ∧ actorRef a ∉ refs.
Proof.
  unfold addedActors. rewrite filter_In, in_map_iff, negb_true_iff, bool_decide_eq_false.
  split; intros [(org & H1 & H2) H3]; (split; [exists org |]); auto.
Qed.

(** X13.  What an approval does.  An approval (any action but [decline]) that
    ends in the redirect sets the status of the consent to [active], keeps
    its patient and its actors, and appends actors that each have the role
    CST and stand for an Organization of the type [source]; afterwards every
    such Organization is referenced by an actor.  Organizations, Endpoints
    and the other consents stay as they were. *)
Theorem approval_adds_custodians (st st' : FHIRStore.t) (id : string)
    (action : option string) (location : string) :
  keyed st →
  str_is action "decline" = false →
  Ui.handleApproval st id action = (Ui.Redirect location, st') →
  ∃ consent consent' added,
    FHIRStore.Consent st !! id = Some consent
    ∧ FHIRStore.Consent st' !! id = Some consent'
    ∧ Consent.status consent' = Some "active"
    ∧ Consent.patient consent' = Consent.patient consent
    ∧ Consent.actors consent' = (Consent.actors consent ++ added)%list
    ∧ (∀ a, In a added →
         hasRole "CST" a = true
         ∧ ∃ k org, FHIRStore.Organization st !! k = Some org
                    ∧ Ui.isSource org = Some true ∧ a = Ui.custodian org)
    ∧ (∀ k org, FHIRStore.Organization st !! k = Some org →
         Ui.isSource org = Some true →
         ∃ a, In a (Consent.actors consent')
              ∧ actorRef a = Some (Routes.orgRef (Organization.id org)))
    ∧ FHIRStore.Organization st' = FHIRStore.Organization st
    ∧ FHIRStore.Endpoint st' = FHIRStore.Endpoint st
    ∧ ∀ k, k ≠ id → FHIRStore.Consent st' !! k = FHIRStore.Consent st !! k.
Proof.
  intros Hkeyed Haction Happrove.
  destruct (approve_redirect st id action location st' Hkeyed Haction Happrove)
    as (consent & sources & refs & Hget & Hsources & Hrefs & ->).
  exists consent, (approved consent (addedActors sources refs)), (addedActors sources refs).
  cbn [FHIRStore.addConsent FHIRStore.with_Consent FHIRStore.Consent
       FHIRStore.Organization FHIRStore.Endpoint].
  rewrite lookup_insert_eq.
  split; [exact Hget |]. split; [reflexivity |]. split; [reflexivity |].
  split; [reflexivity |]. split; [reflexivity |].
  pose proof (sourcesOf_spec _ _ Hsources) as Hspec.
  split; [| split; [| split; [reflexivity | split; [reflexivity |]]]].
  - intros a [(org & Hin & ->) _]%addedActors_In. split; [reflexivity |].
    apply Hspec in Hin as [[k Hk]%getAllOrganization_In Hsrc]. eauto.
  - intros k org Hk Hsrc.
    assert (In org sources) as Hin
      by (apply Hspec; split; [apply getAllOrganization_In; eauto | exact Hsrc]).
    change (Consent.actors (approved consent (addedActors sources refs)))
      with (Consent.actors consent ++ addedActors sources refs)%list.
    destruct (decide (actorRef (Ui.custodian org) ∈ refs)) as [Hold | Hnew].
    + destruct (referencesOf_In _ _ _ Hrefs Hold) as (a & Ha & _ & Href).
      exists a. split; [apply in_or_app; left; exact Ha | exact Href].
    + exists (Ui.custodian org). split; [| reflexivity].
      apply in_or_app. right. apply addedActors_In. eauto.
  - intros k Hk. rewrite lookup_insert_ne by congruence. reflexivity.
Qed.

Lemma approval_adds_custodians_witness :
  ∃ consent consent' added,
    FHIRStore.Consent RouteTest.asked !! "c-new" = Some consent
    ∧ FHIRStore.Consent RouteTest.granted !! "c-new" = Some consent'
    ∧ Consent.status consent' = Some "active"
    ∧ Consent.patient consent' = Consent.patient consent
    ∧ Consent.actors consent' = (Consent.actors consent ++ added)%list
    ∧ (∀ a, In a added →
         hasRole "CST" a = true
         ∧ ∃ k org, FHIRStore.Organization RouteTest.asked !! k = Some org
                    ∧ Ui.isSource org = Some true ∧ a = Ui.custodian org)
    ∧ (∀ k org, FHIRStore.Organization RouteTest.asked !! k = Some org →
         Ui.isSource org = Some true →
         ∃ a, In a (Consent.actors consent')
              ∧ actorRef a = Some (Routes.orgRef (Organization.id org)))
    ∧ FHIRStore.Organization RouteTest.granted = FHIRStore.Organization RouteTest.asked
    ∧ FHIRStore.Endpoint RouteTest.granted = FHIRStore.Endpoint RouteTest.asked
    ∧ ∀ k, k ≠ "c-new" →
        FHIRStore.Consent RouteTest.granted !! k = FHIRStore.Consent RouteTest.asked !! k.
Proof.
  apply (approval_adds_custodians RouteTest.asked RouteTest.granted "c-new" None "/ui"
           asked_keyed); vm_compute; reflexivity.
Defined.

Lemma referencesOf_app actors refs added :
  Ui.referencesOf actors = Some refs →
  (∀ a, In a added → ∃ org, a = Ui.custodian org) →
  Ui.referencesOf (actors ++ added) = Some (refs ++ List.map actorRef added)%list.
Proof.
  unfold Ui.referencesOf. intros Hm%mapM_Some Hadded. apply mapM_Some.
  apply Forall2_app; [exact Hm |].
  induction added as [| a added IH]; [constructor |].
  cbn [List.map]. constructor.
  - destruct (Hadded a (or_introl eq_refl)) as [org ->]. reflexivity.
  - apply IH. intros b Hb. apply Hadded. right. exact Hb.
Qed.

Lemma filter_all_known (refs : list (option string)) (l : list Actor.t) :
  (∀ a, In a l → actorRef a ∈ refs) →
  List.filter (fun a => negb (bool_decide (actorRef a ∈ refs))) l = [].
Proof.
  induction l as [| a l IH]; [reflexivity |]. intros Hl.
  cbn [List.filter].
  rewrite (bool_decide_eq_true_2 _ (Hl a (or_introl eq_refl))). cbn [negb].
  apply IH. intros b Hb. apply Hl. right. exact Hb.
Qed.

Lemma addedActors_again sources refs :
  addedActors sources (refs ++ List.map actorRef (addedActors sources refs)) = [].
Proof.
  unfold addedActors at 1. apply filter_all_known. intros a Ha.
  destruct (decide (actorRef a ∈ refs)) as [Hold | Hnew].
  - apply elem_of_app. left. exact Hold.
  - apply elem_of_app. right. apply list_elem_of_In, in_map.
    apply addedActors_In. split; [| exact Hnew].
    apply in_map_iff in Ha as (org & <- & Hin). eauto.
Qed.

Lemma getAllOrganization_addConsent i c st :
  FHIRStore.getAllOrganization (FHIRStore.addConsent i c st)
  = FHIRStore.getAllOrganization st.
Proof. reflexivity. Qed.

(** X14.  Approving twice.  A second approval of the same consent gives the
    same redirect and leaves the store as the first one left it: no actor is
    added twice. *)
Theorem approval_idempotent (st st' : FHIRStore.t) (id : string)
    (action : option string) (location : string) :
  keyed st →
  str_is action "decline" = false →
  Ui.handleApproval st id action = (Ui.Redirect location, st') →
  Ui.handleApproval st' id action = (Ui.Redirect location, st').
Proof.
  intros Hkeyed Haction Happrove.
  assert (location = "/ui") as ->.
  { unfold Ui.handleApproval in Happrove. rewrite Haction in Happrove.
    repeat match type of Happrove with
           | context [match ?x with _ => _ end] => destruct x; try discriminate
           end.
    injection Happrove as <- _. reflexivity. }
  destruct (approve_redirect st id action _ st' Hkeyed Haction Happrove)
    as (consent & sources & refs & Hget & Hsources & Hrefs & ->).
  destruct Hkeyed as (_ & _ & _ & Hkeyed).
  set (added := addedActors sources refs).
  unfold Ui.handleApproval.
  cbn [FHIRStore.getConsent mbind option_bind FHIRStore.addConsent FHIRStore.with_Consent
       FHIRStore.Consent].
  rewrite lookup_insert_eq, Haction.
  change (Consent.set_status (Some "active") (approved consent added))
    with (approved consent added).
  change (Consent.actors (approved consent added)) with (Consent.actors consent ++ added)%list.
  change (Ui.with_actors (Consent.actors consent ++ added) (approved consent added))
    with (approved consent added).
  rewrite !getAllOrganization_addConsent, Hsources.
  rewrite (referencesOf_app _ refs added Hrefs)
    by (intros a [(org & _ & ->) _]%addedActors_In; eauto).
  fold (addedActors sources (refs ++ List.map actorRef added)).
  subst added. rewrite addedActors_again, app_nil_r.
  change (Ui.with_actors (Consent.actors consent ++ addedActors sources refs)
            (approved consent (addedActors sources refs)))
    with (approved consent (addedActors sources refs)).
  unfold FHIRStore.updateConsent.
  change (Consent.id (approved consent (addedActors sources refs))) with (Consent.id consent).
  rewrite (Hkeyed id consent Hget).
  unfold FHIRStore.addConsent.
  cbn [FHIRStore.Consent FHIRStore.with_Consent FHIRStore.Organization FHIRStore.Endpoint
       FHIRStore.HealthcareService FHIRStore.VerificationResult].
  rewrite !insert_insert_eq, lookup_insert_eq.
  rewrite bool_decide_eq_true_2 by eauto.
  rewrite ?insert_insert_eq. reflexivity.
Qed.

Lemma approval_idempotent_witness :
  Ui.handleApproval RouteTest.granted "c-new" None = (Ui.Redirect "/ui", RouteTest.granted).
Proof.
  apply (approval_idempotent RouteTest.asked RouteTest.granted "c-new" None "/ui"
           asked_keyed); vm_compute; reflexivity.
Defined.

Lemma addConsent_keyed st i c :
  keyed st → Consent.id c = Some i → keyed (FHIRStore.addConsent i c st).
Proof.
  intros (H1 & H2 & H3 & H4) Hc. repeat split; try assumption.
  cbn [FHIRStore.addConsent FHIRStore.with_Consent FHIRStore.Consent].
  apply insert_keyed; assumption.
Qed.

Lemma scenario_keyed : keyed Scenario.store.
Proof. repeat apply addConsent_keyed; [apply bootstrap_keyed | reflexivity | reflexivity]. Qed.

Lemma updateConsent_keyed st st' c :
  keyed st → FHIRStore.updateConsent c st = Some st' → keyed st'.
Proof.
  unfold FHIRStore.updateConsent. intros Hk.
  destruct (Consent.id c) as [i |] eqn:Hid; [| discriminate].
  case_bool_decide; [| discriminate]. intros [= <-].
  apply (addConsent_keyed st i c Hk Hid).
Qed.

Lemma handleApproval_keyed st id action :
  keyed st → keyed (snd (Ui.handleApproval st id action)).
Proof.
  intros Hk. unfold Ui.handleApproval.
  destruct (FHIRStore.getConsent st (Some id)) as [consent |] eqn:Hget; [| exact Hk].
  assert (Consent.id consent = Some id) as Hid by (apply Hk; exact Hget).
  destruct (str_is action "decline").
  - destruct (FHIRStore.updateConsent _ _) eqn:Hup; cbn [snd].
    + eapply updateConsent_keyed; [| exact Hup]. apply addConsent_keyed; assumption.
    + apply addConsent_keyed; assumption.
  - destruct (Ui.sourcesOf _); [| apply addConsent_keyed; assumption].
    destruct (Ui.referencesOf _);
      [| cbn [snd]; repeat apply addConsent_keyed; assumption].
    destruct (FHIRStore.updateConsent _ _) eqn:Hup; cbn [snd].
    + eapply updateConsent_keyed; [| exact Hup]. repeat apply addConsent_keyed; assumption.
    + repeat apply addConsent_keyed; assumption.
Qed.

Lemma serveAll_keyed st calls : keyed st → keyed (Routes.serveAll st calls).
Proof.
  revert st. induction calls as [| call calls IH]; intros st Hk; [exact Hk |].
  cbn [Routes.serveAll fold_left]. apply IH, serve_keyed, Hk.
Qed.

(** X15.  Invariant of the FHIR store.  If every resource sits under its own
    id, it does so after any series of write requests of the FHIR routes, by
    whatever callers and with whatever bodies, and after an approval or a
    decline on top of them. *)
Theorem store_stays_keyed (st : FHIRStore.t) (calls : list (option string * Routes.request))
    (id : string) (action : option string) :
  keyed st →
  keyed (Routes.serveAll st calls)
  ∧ keyed (snd (Ui.handleApproval (Routes.serveAll st calls) id action)).
Proof.
  intros Hk. pose proof (serveAll_keyed st calls Hk) as Hall.
  split; [exact Hall | apply handleApproval_keyed, Hall].
Qed.

Lemma store_stays_keyed_witness :
  keyed (Routes.serveAll Seed.bootstrap
           [(Some "org-sp", Routes.PostConsent RouteTest.u RouteTest.request)])
  ∧ keyed (snd (Ui.handleApproval
                  (Routes.serveAll Seed.bootstrap
                     [(Some "org-sp", Routes.PostConsent RouteTest.u RouteTest.request)])
                  "c-new" None)).
Proof.
  exact (store_stays_keyed Seed.bootstrap
           [(Some "org-sp", Routes.PostConsent RouteTest.u RouteTest.request)]
           "c-new" None bootstrap_keyed).
Defined.

Lemma isPcmAdmin_types st st' o :
  (∀ k, Organization.type <$> FHIRStore.Organization st' !! k
        = Organization.type <$> FHIRStore.Organization st !! k) →
  Routes.isPcmAdmin st' o = Routes.isPcmAdmin st o.
Proof.
  intros Htypes. unfold Routes.isPcmAdmin, FHIRStore.getOrganization.
  destruct o as [k |]; [| reflexivity]. cbn [mbind option_bind].
  specialize (Htypes k).
  destruct (FHIRStore.Organization st' !! k), (FHIRStore.Organization st !! k);
    cbn in Htypes; try discriminate; [| reflexivity].
  injection Htypes as ->. reflexivity.
Qed.

Lemma serve_types st org r :
  keyed st → Routes.isPcmAdmin st org = false →
  ∀ k, Organization.type <$> FHIRStore.Organization (Routes.serve st org r) !! k
       = Organization.type <$> FHIRStore.Organization st !! k.
Proof.
  intros (Hkeyed & _) Hadmin k.
  destruct r; try (rewrite serve_organizations by discriminate; reflexivity).
  cbn [Routes.serve].
  destruct (putOrganization_store st org id body)
    as [-> | (existing & i & updated & Hget & Hid & _ & _ & Hnon & ->)]; [reflexivity |].
  destruct (Hnon Hadmin) as (_ & Htype & _).
  rewrite (Hkeyed id existing Hget) in Hid. injection Hid as <-.
  cbn [FHIRStore.with_Organization FHIRStore.Organization].
  rewrite lookup_insert. case_decide; [subst k | reflexivity].
  rewrite Hget. cbn. rewrite Htype. reflexivity.
Qed.

Lemma serve_admins st org r o :
  keyed st → Routes.isPcmAdmin st org = false →
  Routes.isPcmAdmin (Routes.serve st org r) o = Routes.isPcmAdmin st o.
Proof. intros Hk Hadmin. apply isPcmAdmin_types, serve_types; assumption. Qed.

(** X16.  No escalation.  Whatever callers that are no PCM admins send to the
    write routes, in whatever order, nobody becomes a PCM admin and nobody
    stops being one. *)
Theorem no_escalation (st : FHIRStore.t) (calls : list (option string * Routes.request))
    (organization_id : option string) :
  keyed st → noAdmin st calls →
  Routes.isPcmAdmin (Routes.serveAll st calls) organization_id
  = Routes.isPcmAdmin st organization_id.
Proof.
  revert st. induction calls as [| call calls IH]; intros st Hk Hcalls; [reflexivity |].
  cbn [Routes.serveAll fold_left].
  assert (Routes.isPcmAdmin st (fst call) = false) as Hcall by (apply Hcalls; left; reflexivity).
  fold (Routes.serveAll (Routes.serve st (fst call) (snd call)) calls).
  rewrite IH.
  - apply serve_admins; assumption.
  - apply serve_keyed, Hk.
  - intros c Hc. rewrite serve_admins by assumption. apply Hcalls. right. exact Hc.
Qed.

Lemma no_escalation_witness :
  Routes.isPcmAdmin
    (Routes.serveAll Seed.bootstrap
       [(Some "org-sp", Routes.PutOrganization "org-sp" RouteTest.promote);
        (Some "org-sp", Routes.PostConsent RouteTest.u RouteTest.request)])
    (Some "org-sp")
  = Routes.isPcmAdmin Seed.bootstrap (Some "org-sp").
Proof.
  apply (no_escalation Seed.bootstrap _ (Some "org-sp") bootstrap_keyed).
  intros call [<- | [<- | []]]; vm_compute; reflexivity.
Defined.

Lemma serve_active st org r id c :
  keyed st → Routes.isPcmAdmin st org = false →
  FHIRStore.Consent (Routes.serve st org r) !! id = Some c →
  Consent.status c = Some "active" →
  FHIRStore.Consent st !! id = Some c.
Proof.
  intros Hk Hadmin.
  destruct r; try (rewrite serve_consents by discriminate; auto); cbn [Routes.serve].
  - unfold Routes.postConsent.
    destruct (negb _); [auto |]. destruct (negb _); [auto |].
    destruct (FHIRStore.getOrganization st org); [| auto].
    cbn [snd FHIRStore.addConsent FHIRStore.with_Consent FHIRStore.Consent].
    rewrite lookup_insert. case_decide; [| auto]. intros [= <-]. discriminate.
  - unfold Routes.putConsent.
    destruct (FHIRStore.getConsent st (Some id0)); [| auto].
    destruct (Routes.idMismatch _ _); [auto |]. rewrite Hadmin.
    destruct (negb _); [auto |]. destruct (_ || _); [auto |].
    cbn [snd FHIRStore.addConsent FHIRStore.with_Consent FHIRStore.Consent].
    rewrite lookup_insert. case_decide; [| auto]. intros [= <-]. discriminate.
Qed.

(** X17.  No activation through the API.  Whatever callers that are no PCM
    admins send to the write routes, a consent that is active afterwards was
    stored active, and unchanged, before. *)
Theorem no_activation (st : FHIRStore.t) (calls : list (option string * Routes.request))
    (id : string) (consent : Consent.t) :
  keyed st → noAdmin st calls →
  FHIRStore.Consent (Routes.serveAll st calls) !! id = Some consent →
  Consent.status consent = Some "active" →
  FHIRStore.Consent st !! id = Some consent.
Proof.
  revert st. induction calls as [| call calls IH]; intros st Hk Hcalls; [auto |].
  cbn [Routes.serveAll fold_left].
  assert (Routes.isPcmAdmin st (fst call) = false) as Hcall by (apply Hcalls; left; reflexivity).
  fold (Routes.serveAll (Routes.serve st (fst call) (snd call)) calls).
  intros Hlook Hactive.
  apply (serve_active st (fst call) (snd call)); try assumption.
  apply IH; try assumption.
  - apply serve_keyed, Hk.
  - intros c Hc. rewrite serve_admins by assumption. apply Hcalls. right. exact Hc.
Qed.

Lemma no_activation_witness :
  FHIRStore.Consent Scenario.store !! "c1"
  = Some (Seed.consent "c1" "active" "99887766"
            [Seed.actor "IRCP" "org-sp"; Seed.actor "CST" "org-vaccine-repo"]).
Proof.
  apply (no_activation Scenario.store
           [(Some "org-hospital-b-sp",
             Routes.PutConsent "c2" (Seed.consent "c2" "active" "222" []));
            (Some "org-hospital-b-sp", Routes.PostConsent RouteTest.u RouteTest.request)]
           "c1" _ scenario_keyed).
  - intros call [<- | [<- | []]]; vm_compute; reflexivity.
  - vm_compute. reflexivity.
  - reflexivity.
Defined.

(** ** Single routes *)

(** X18.  The guard of [PUT /Organization/:id].  One request of a caller that
    is no PCM admin never leaves an Organization active that was stored with
    [active: false], whatever the body says. *)
Theorem reactivation_guard (st : FHIRStore.t) (organization_id : option string)
    (id : string) (existing stored : Organization.t) (body : Organization.t) :
  Routes.isPcmAdmin st organization_id = false →
  FHIRStore.Organization st !! id = Some existing →
  Organization.active existing = Some false →
  FHIRStore.Organization (snd (Routes.putOrganization st organization_id id body)) !! id
  = Some stored →
  Organization.active stored ≠ Some true.
Proof.
  intros Hadmin Hget Hfalse.
  destruct (putOrganization_store st organization_id id body)
    as [-> | (existing' & i & updated & Hget' & _ & _ & _ & Hnon & ->)].
  - rewrite Hget. intros [= <-]. congruence.
  - rewrite Hget in Hget'. injection Hget' as <-.
    destruct (Hnon Hadmin) as (_ & _ & _ & Hguard & _).
    cbn [FHIRStore.with_Organization FHIRStore.Organization].
    rewrite lookup_insert. case_decide.
    + intros [= <-]. apply Hguard, Hfalse.
    + rewrite Hget. intros [= <-]. congruence.
Qed.

Lemma reactivation_guard_witness :
  Organization.active
    (Organization.mk (Some "org-sp") (Some false) (Some "Doctor's Consultation")
       (Some [Seed.orgType "service-provider"])
       (Some (Seed.ref "Organization/org-hospital-a-parent")) None)
  ≠ Some true.
Proof.
  apply (reactivation_guard RouteTest.store (Some "org-sp") "org-sp" RouteTest.dormant _
           RouteTest.promote); vm_compute; reflexivity.
Defined.

(** X19.  The guard passed in two steps.  An organization that is no PCM
    admin and was deactivated (or has any [active] value) sends its own
    Organization first without [active] and then with [active: true]: it is
    stored active afterwards, with its type unchanged.  The guard compares
    with [false] only, and the first request stores no [active] at all. *)
Theorem reactivation_in_two_steps (st : FHIRStore.t) (id : string)
    (existing body1 body2 : Organization.t) :
  keyed st →
  Routes.isPcmAdmin st (Some id) = false →
  FHIRStore.Organization st !! id = Some existing →
  Routes.idMismatch (Organization.id body1) id = false →
  Routes.idMismatch (Organization.id body2) id = false →
  Organization.active body1 = None →
  Organization.active body2 = Some true →
  let st1 := snd (Routes.putOrganization st (Some id) id body1) in
  let st2 := snd (Routes.putOrganization st1 (Some id) id body2) in
  ∃ stored, FHIRStore.Organization st2 !! id = Some stored
            ∧ Organization.active stored = Some true
            ∧ Organization.type stored = Organization.type existing.
Proof.
  intros Hk Hadmin Hget Hid1 Hid2 Hnone Htrue st1 st2.
  assert (Organization.id existing = Some id) as Hid by (apply Hk; exact Hget).
  assert (∃ o1, FHIRStore.Organization st1 !! id = Some o1
                ∧ Organization.id o1 = Some id
                ∧ Organization.active o1 = None
                ∧ Organization.type o1 = Organization.type existing
                ∧ Routes.isPcmAdmin st1 (Some id) = false) as (o1 & Hget1 & Hido1 & Hact1 & Hty1 & Hadmin1).
  { subst st1 st2. unfold Routes.putOrganization.
    rewrite Hadmin. cbn [negb andb str_is]. rewrite String.eqb_refl. cbn [negb].
    cbn [FHIRStore.getOrganization mbind option_bind]. rewrite Hget, Hid1.
    unfold FHIRStore.updateOrganization. cbn [Organization.id]. rewrite Hid.
    rewrite bool_decide_eq_true_2 by eauto. cbn [snd].
    eexists. split; [cbn [FHIRStore.with_Organization FHIRStore.Organization];
                     apply lookup_insert_eq |].
    cbn [Organization.id Organization.active Organization.type].
    rewrite Hnone, andb_false_r.
    repeat split; auto.
    rewrite <- Hadmin. apply isPcmAdmin_types. intros k.
    cbn [FHIRStore.with_Organization FHIRStore.Organization].
    rewrite lookup_insert. case_decide; [subst k; rewrite Hget |]; reflexivity. }
  subst st2. unfold Routes.putOrganization.
  rewrite Hadmin1. cbn [negb andb str_is]. rewrite String.eqb_refl. cbn [negb].
  cbn [FHIRStore.getOrganization mbind option_bind]. rewrite Hget1, Hid2.
  unfold FHIRStore.updateOrganization. cbn [Organization.id]. rewrite Hido1.
  rewrite bool_decide_eq_true_2 by eauto. cbn [snd].
  eexists. split; [cbn [FHIRStore.with_Organization FHIRStore.Organization];
                   apply lookup_insert_eq |].
  cbn [Organization.active Organization.type]. rewrite Hact1, Htrue, Hty1.
  split; reflexivity.
Qed.

Lemma reactivation_in_two_steps_witness :
  let st1 := snd (Routes.putOrganization RouteTest.store (Some "org-sp") "org-sp"
                    RouteTest.silent) in
  let st2 := snd (Routes.putOrganization st1 (Some "org-sp") "org-sp" RouteTest.promote) in
  ∃ stored, FHIRStore.Organization st2 !! "org-sp" = Some stored
            ∧ Organization.active stored = Some true
            ∧ Organization.type stored = Organization.type RouteTest.dormant.
Proof.
  apply (reactivation_in_two_steps RouteTest.store "org-sp" RouteTest.dormant
           RouteTest.silent RouteTest.promote); try (vm_compute; reflexivity).
  repeat split; intros k x; unfold RouteTest.store, Seed.bootstrap;
    cbn [FHIRStore.Organization FHIRStore.Endpoint FHIRStore.HealthcareService
         FHIRStore.Consent FHIRStore.addOrganization FHIRStore.with_Organization];
    repeat (rewrite lookup_insert; case_decide; [intros [= <-]; subst; reflexivity |]);
    rewrite lookup_empty; discriminate.
Defined.

(** X20.  Reading a consent.  To a caller with an organization that is no PCM
    admin, [GET /Consent/:id] answers with the stored consent when the caller
    is one of its actors, and otherwise exactly as it answers when no such
    consent is stored: 404 not-found. *)
Theorem consent_hidden_from_strangers (st : FHIRStore.t) (organization_id : option string)
    (id : string) (consent : Consent.t) :
  Routes.isPcmAdmin st organization_id = false →
  JS.truthy organization_id = true →
  FHIRStore.Consent st !! id = Some consent →
  (Routes.isParty organization_id (Consent.actors consent) = true →
   Routes.getConsent st organization_id id = Reply.mk 200 (Reply.Resource consent))
  ∧ (Routes.isParty organization_id (Consent.actors consent) = false →
     Routes.getConsent st organization_id id = Reply.mk 404 Reply.NotFound
     ∧ Routes.getConsent (FHIRStore.with_Consent (delete id (FHIRStore.Consent st)) st)
         organization_id id
       = Reply.mk 404 Reply.NotFound).
Proof.
  intros Hadmin Horg Hget. unfold Routes.getConsent.
  cbn [FHIRStore.getConsent mbind option_bind FHIRStore.with_Consent FHIRStore.Consent].
  rewrite Hget, Hadmin, Horg, lookup_delete_eq. cbn [negb].
  split; intros ->; auto.
Qed.

Lemma consent_hidden_from_strangers_witness :
  (Routes.isParty (Some "org-hospital-b-sp")
     (Consent.actors (Seed.consent "c1" "active" "99887766"
                        [Seed.actor "IRCP" "org-sp"; Seed.actor "CST" "org-vaccine-repo"]))
   = true →
   Routes.getConsent Scenario.store (Some "org-hospital-b-sp") "c1"
   = Reply.mk 200 (Reply.Resource
                     (Seed.consent "c1" "active" "99887766"
                        [Seed.actor "IRCP" "org-sp"; Seed.actor "CST" "org-vaccine-repo"])))
  ∧ (Routes.isParty (Some "org-hospital-b-sp")
       (Consent.actors (Seed.consent "c1" "active" "99887766"
                          [Seed.actor "IRCP" "org-sp"; Seed.actor "CST" "org-vaccine-repo"]))
     = false →
     Routes.getConsent Scenario.store (Some "org-hospital-b-sp") "c1"
     = Reply.mk 404 Reply.NotFound
     ∧ Routes.getConsent
         (FHIRStore.with_Consent (delete "c1" (FHIRStore.Consent Scenario.store))
            Scenario.store)
         (Some "org-hospital-b-sp") "c1"
       = Reply.mk 404 Reply.NotFound).
Proof.
  apply (consent_hidden_from_strangers Scenario.store (Some "org-hospital-b-sp") "c1");
    vm_compute; reflexivity.
Defined.






(** ** From the request of a consent to a token *)

Lemma lastSegment_orgRef (i : string) :
  JS.includes "/" i = false → lastSegment (Some (Routes.orgRef (Some i))) = Some i.
Proof.
  intros Hi. unfold lastSegment, Routes.orgRef. cbn [mbind option_bind default].
  change ("Organization/" +:+ Datatypes.id i) with ("Organization" +:+ String "/" i).
  rewrite split_app by reflexivity. rewrite (split_no_separator _ _ Hi). reflexivity.
Qed.

Lemma postConsent_created st org u body created st' :
  Routes.postConsent st org u body = (Reply.mk 201 (Reply.Resource created), st') →
  ∃ actorOrg key,
    FHIRStore.getOrganization st org = Some actorOrg
    ∧ Consent.id created = Some key
    ∧ Consent.status created = Some "proposed"
    ∧ Consent.patient created = Consent.patient body
    ∧ Consent.extension created = Consent.extension body
    ∧ Consent.actors created
      = [Actor.mk (Some Routes.requesterRole)
           (Some (Reference.mk (Some (Routes.orgRef (Organization.id actorOrg)))
                               (Organization.name actorOrg)))]
    ∧ st' = FHIRStore.addConsent key created st.
Proof.
  unfold Routes.postConsent.
  destruct (negb _); [discriminate |]. destruct (negb _); [discriminate |].
  destruct (FHIRStore.getOrganization st org) as [actorOrg |]; [| discriminate].
  intros [= <- <-]. exists actorOrg. eexists. repeat split.
Qed.

(** X22.  From request to token.  A consent a service provider has created
    through [POST /Consent] does not pass the B2B validation of [issueToken]
    (400, consent not active); once it is approved, it does, for the address
    of any Endpoint of any Organization of the type [source] other than the
    service provider, and the patient of the token is the patient of the
    request. *)
Theorem consent_lifecycle (st0 st1 st2 : FHIRStore.t) (s d : string)
    (u : Routes.consentUuids) (body created : Consent.t) (key : string)
    (action : option string) (location : string)
    (client : Client.t) (ext : Assertion.b2b) (ref resource : string)
    (ds : Organization.t) (eps : list Reference.t) (epRef : Reference.t)
    (endpoint : Endpoint.t) :
  keyed st0 →
  (* the service provider asks for a consent, and it is approved *)
  Routes.postConsent st0 (Some s) u body = (Reply.mk 201 (Reply.Resource created), st1) →
  Consent.id created = Some key →
  str_is action "decline" = false →
  Ui.handleApproval st1 key action = (Ui.Redirect location, st2) →
  (* the client of the service provider names the consent *)
  Client.organizationId client = s →
  JS.includes "/" s = false →
  lastSegment (Assertion.organization_id ext) = Some s →
  Assertion.consent_reference ext ≫= head = Some ref →
  JS.truthy (Some ref) = true →
  lastSegment (Some ref) = Some key →
  (* a data source other than the service provider lists the resource *)
  FHIRStore.Organization st0 !! d = Some ds →
  Ui.isSource ds = Some true →
  d ≠ s →
  JS.includes "/" d = false →
  Organization.endpoint ds = Some eps →
  In epRef eps →
  FHIRStore.getEndpoint st0 (lastSegment (Reference.reference epRef)) = Some endpoint →
  Endpoint.address endpoint = Some resource →
  b2bBinding st1 client resource ext
  = inl (Response.error 400 "invalid_grant" (Some "Consent not active"))
  ∧ b2bBinding st2 client resource ext = inr (patientContextOf body).
Proof.
  intros Hk Hpost Hkey Haction Happrove Hclient Hs Horg Href Htruthy Hlast
         Hds Hsource Hne Hd Heps Hin Hep Haddr.
  destruct (postConsent_created _ _ _ _ _ _ Hpost)
    as (actorOrg & key' & HactorOrg & Hkey' & Hstatus & Hpatient & _ & Hactors & ->).
  rewrite Hkey in Hkey'. injection Hkey' as <-.
  assert (Organization.id actorOrg = Some s) as Hsid by (apply Hk; exact HactorOrg).
  rewrite Hsid in Hactors.
  split.
  { unfold b2bBinding. rewrite Horg, Hclient. cbn [str_is]. rewrite String.eqb_refl.
    cbn [negb]. rewrite Href, Htruthy, Hlast.
    cbn [FHIRStore.getConsent mbind option_bind FHIRStore.addConsent FHIRStore.with_Consent
         FHIRStore.Consent].
    rewrite lookup_insert_eq, Hstatus. reflexivity. }
  assert (keyed (FHIRStore.addConsent key created st0)) as Hk1
    by (apply addConsent_keyed; assumption).
  destruct (approve_redirect _ _ _ _ _ Hk1 Haction Happrove)
    as (consent & sources & refs & Hget & Hsources & Hrefs & ->).
  cbn [FHIRStore.addConsent FHIRStore.with_Consent FHIRStore.Consent] in Hget.
  rewrite lookup_insert_eq in Hget. injection Hget as <-.
  rewrite getAllOrganization_addConsent in Hsources.
  rewrite Hactors in Hrefs. injection Hrefs as <-.
  set (actors' := (Consent.actors created ++ addedActors sources
                     [Some (Routes.orgRef (Some s))])%list).
  assert (In (Ui.custodian ds) actors') as Hcst.
  { apply in_or_app. right. apply addedActors_In. split.
    - exists ds. split; [| reflexivity].
      apply (sourcesOf_spec _ _ Hsources). split; [| exact Hsource].
      apply getAllOrganization_In. eauto.
    - intros Hmem. apply list_elem_of_singleton in Hmem.
      unfold Ui.custodian, actorRef in Hmem.
      cbn [Actor.reference Reference.reference mbind option_bind] in Hmem.
      rewrite (proj1 Hk d ds Hds) in Hmem.
      apply (f_equal lastSegment) in Hmem.
      rewrite !lastSegment_orgRef in Hmem by assumption. congruence. }
  assert (Organization.id ds = Some d) as Hdid by (apply Hk; exact Hds).
  set (st2 := FHIRStore.addConsent key _ (FHIRStore.addConsent key created st0)).
  assert (FHIRStore.getConsent st2 (Some key)
          = Some (approved created (addedActors sources [Some (Routes.orgRef (Some s))])))
    as Hget2 by apply lookup_insert_eq.
  assert (resourceMatchFound st2 resource actors' = true) as Hmatch.
  { apply resourceMatchFound_spec. exists (Ui.custodian ds), ds, eps, epRef, endpoint.
    split; [exact Hcst |]. split; [reflexivity |].
    split.
    { unfold Ui.custodian, actorRef. cbn [Actor.reference Reference.reference mbind option_bind].
      rewrite Hdid, lastSegment_orgRef by assumption. exact Hds. }
    repeat split; assumption. }
  assert (isActor client actors' = true) as Hparty.
  { apply isActor_spec. rewrite Hclient. eexists. split.
    - apply in_or_app. left. rewrite Hactors. left. reflexivity.
    - unfold actorRef. cbn [Actor.reference Reference.reference mbind option_bind].
      apply lastSegment_orgRef. exact Hs. }
  unfold b2bBinding. rewrite Horg, Hclient. cbn [str_is]. rewrite String.eqb_refl.
  cbn [negb]. rewrite Href, Htruthy, Hlast, Hget2.
  change (Consent.status (approved created _)) with (Some "active").
  change (Consent.actors (approved created ?a)) with (Consent.actors created ++ a)%list.
  fold actors'. cbn [str_is]. rewrite String.eqb_refl, Hmatch, Hparty. cbn [negb].
  f_equal. unfold patientContextOf.
  change (Consent.patient (approved created _)) with (Consent.patient created).
  rewrite Hpatient. reflexivity.
Qed.

Lemma consent_lifecycle_witness :
  b2bBinding RouteTest.asked spClient Seed.DS_ADDRESS (Seed.b2b "org-sp" ["c-new"])
  = inl (Response.error 400 "invalid_grant" (Some "Consent not active"))
  ∧ b2bBinding RouteTest.granted spClient Seed.DS_ADDRESS (Seed.b2b "org-sp" ["c-new"])
    = inr (patientContextOf RouteTest.request).
Proof.
  eapply (consent_lifecycle Seed.bootstrap RouteTest.asked RouteTest.granted
            "org-sp" "org-vaccine-repo" RouteTest.u RouteTest.request _ "c-new" None "/ui"
            spClient (Seed.b2b "org-sp" ["c-new"]) "http://pcm-url-base/Consent/c-new"
            Seed.DS_ADDRESS Seed.orgVaccineRepo [Seed.ref "Endpoint/endpoint-vaccine-repo"]
            (Seed.ref "Endpoint/endpoint-vaccine-repo") Seed.endpointVaccine
            bootstrap_keyed);
    try (vm_compute; reflexivity).
  - vm_compute. discriminate.
  - left. reflexivity.
Defined.

(** X23.  [POST /Endpoint] overwrites where [PUT /Endpoint/:id] refuses.  For
    an Endpoint managed by another organization, the update of a caller that
    is no PCM admin is refused with 403, while the creation of an Endpoint of
    the caller's own under the same id answers 201 and replaces the stored
    Endpoint. *)
Theorem post_replaces_endpoint (st : FHIRStore.t) (organization_id : option string)
    (uuid i : string) (existing body : Endpoint.t) :
  Routes.isPcmAdmin st organization_id = false →
  JS.truthy organization_id = true →
  FHIRStore.Endpoint st !! i = Some existing →
  getRefId (Endpoint.managingOrganization existing ≫= Reference.reference)
  ≠ organization_id →
  getRefId (Endpoint.managingOrganization body ≫= Reference.reference) = organization_id →
  Endpoint.id body = Some i →
  JS.truthy (Some i) = true →
  fst (Routes.putEndpoint st organization_id i body)
  = FhirResponse.mk 403 (FhirResponse.Forbidden "Access denied to this endpoint")
  ∧ fst (Routes.postEndpoint st organization_id uuid (Some "Endpoint") body)
    = FhirResponse.mk 201 (FhirResponse.OfEndpoint body)
  ∧ FHIRStore.Endpoint
      (snd (Routes.postEndpoint st organization_id uuid (Some "Endpoint") body)) !! i
    = Some body.
Proof.
  intros Hadmin Horg Hget Hother Hmine Hid Hi. split.
  - unfold Routes.putEndpoint.
    cbn [FHIRStore.getEndpoint mbind option_bind]. rewrite Hget, Hadmin.
    destruct (getRefId _) as [m |] eqn:Hm; [| reflexivity].
    destruct (str_is organization_id m) eqn:Hsame; [| reflexivity].
    apply str_is_spec in Hsame. congruence.
  - unfold Routes.postEndpoint. cbn [str_is]. rewrite String.eqb_refl, Hadmin, Hmine, Horg.
    rewrite bool_decide_eq_true_2 by reflexivity. cbn [negb orb].
    unfold FHIRStore.addEndpoint. rewrite Hid, Hi. cbn [default fst snd].
    destruct body as [bid baddr borg]. cbn [Endpoint.id] in Hid. subst bid.
    cbn [Endpoint.address Endpoint.managingOrganization FHIRStore.with_Endpoint
         FHIRStore.Endpoint].
    split; [reflexivity | apply lookup_insert_eq].
Qed.

Lemma post_replaces_endpoint_witness :
  fst (Routes.putEndpoint Seed.bootstrap (Some "org-sp") "endpoint-vaccine-repo"
         RouteTest.takeover)
  = FhirResponse.mk 403 (FhirResponse.Forbidden "Access denied to this endpoint")
  ∧ fst (Routes.postEndpoint Seed.bootstrap (Some "org-sp") "u-1" (Some "Endpoint")
           RouteTest.takeover)
    = FhirResponse.mk 201 (FhirResponse.OfEndpoint RouteTest.takeover)
  ∧ FHIRStore.Endpoint
      (snd (Routes.postEndpoint Seed.bootstrap (Some "org-sp") "u-1" (Some "Endpoint")
              RouteTest.takeover)) !! "endpoint-vaccine-repo"
    = Some RouteTest.takeover.
Proof.
  apply (post_replaces_endpoint Seed.bootstrap (Some "org-sp") "u-1" "endpoint-vaccine-repo"
           Seed.endpointVaccine RouteTest.takeover); try (vm_compute; reflexivity).
  vm_compute. discriminate.
Defined.

(** X24.  The limits of [PUT /HealthcareService/:id].  For a caller that is no
    PCM admin, the stored service keeps its provider whatever the body names;
    and when the store changes at all, the answer is 200, the stored service
    was no catalog entry, and its provider was the caller. *)
Theorem service_update_limits (st : FHIRStore.t) (organization_id : option string)
    (id : string) (existing body : HealthcareService.t) :
  Routes.isPcmAdmin st organization_id = false →
  FHIRStore.HealthcareService st !! id = Some existing →
  let reply := fst (Routes.putHealthcareService st organization_id id body) in
  let st' := snd (Routes.putHealthcareService st organization_id id body) in
  (∃ stored, FHIRStore.HealthcareService st' !! id = Some stored
             ∧ HealthcareService.providedBy stored = HealthcareService.providedBy existing)
  ∧ (st' ≠ st →
     Reply.status reply = 200
     ∧ existsb Routes.isCatalogTag
         (ensureArray (HealthcareService.meta existing ≫= Meta.tag)) = false
     ∧ ∃ o, organization_id = Some o
            ∧ getRefId (HealthcareService.providedBy existing ≫= Reference.reference)
              = Some o).
Proof.
  intros Hadmin Hget. unfold Routes.putHealthcareService.
  cbn [FHIRStore.getHealthcareService mbind option_bind]. rewrite Hget, Hadmin.
  destruct (existsb _ _) eqn:Hcat; cbn [fst snd]; [split; [eauto | congruence] |].
  destruct (Routes.sameOrganization _ _) eqn:Hsame; cbn [negb fst snd];
    [| split; [eauto | congruence]].
  destruct (Routes.idMismatch _ _); cbn [fst snd]; [split; [eauto | congruence] |].
  split.
  - eexists. split; [apply lookup_insert_eq | reflexivity].
  - intros _. split; [reflexivity |]. split; [reflexivity |].
    unfold Routes.sameOrganization in Hsame.
    destruct (getRefId _) as [a |]; [| discriminate].
    destruct organization_id as [b |]; [| discriminate].
    apply String.eqb_eq in Hsame as ->. eauto.
Qed.

Lemma service_update_limits_witness :
  let reply := fst (Routes.putHealthcareService RouteTest.services (Some "org-sp") "svc-sp"
                      RouteTest.moved) in
  let st' := snd (Routes.putHealthcareService RouteTest.services (Some "org-sp") "svc-sp"
                    RouteTest.moved) in
  (∃ stored, FHIRStore.HealthcareService st' !! "svc-sp" = Some stored
             ∧ HealthcareService.providedBy stored
               = HealthcareService.providedBy RouteTest.instance)
  ∧ (st' ≠ RouteTest.services →
     Reply.status reply = 200
     ∧ existsb Routes.isCatalogTag
         (ensureArray (HealthcareService.meta RouteTest.instance ≫= Meta.tag)) = false
     ∧ ∃ o, Some "org-sp" = Some o
            ∧ getRefId (HealthcareService.providedBy RouteTest.instance
                        ≫= Reference.reference) = Some o).
Proof.
  apply (service_update_limits RouteTest.services (Some "org-sp") "svc-sp"
           RouteTest.instance RouteTest.moved); vm_compute; reflexivity.
Defined.

(* --------------------------------------------------------------------- *)
(** ** The search of consents *)
(* --------------------------------------------------------------------- *)

Section SearchOfConsents.
Import ConsentSearch.

Lemma elem_of_add x y set : y ∈ add x set ↔ y ∈ set ∨ y = x.
Proof.
  unfold add. case_bool_decide.
  - split; [auto | intros [? | ->]; assumption].
  - rewrite elem_of_app, list_elem_of_singleton. tauto.
Qed.

Lemma add_NoDup x set : NoDup set → NoDup (add x set).
Proof.
  unfold add. case_bool_decide; [auto |]. intros Hnd.
  apply NoDup_app. split; [assumption |]. split; [| apply NoDup_singleton].
  intros y Hy ->%list_elem_of_singleton. contradiction.
Qed.

Lemma add_grows x set : ∃ more, add x set = (set ++ more)%list ∧ (length more ≤ 1)%nat.
Proof.
  unfold add. case_bool_decide.
  - exists []. rewrite app_nil_r. auto.
  - exists [x]. auto.
Qed.

Lemma elem_of_addRefId ref y set :
  y ∈ addRefId ref set ↔ y ∈ set ∨ (getRefId ref = Some y ∧ JS.truthy (Some y) = true).
Proof.
  unfold addRefId. destruct (getRefId ref) as [id |]; [| split; [auto | intros [? | [[=] _]]; auto]].
  destruct (JS.truthy (Some id)) eqn:Ht.
  - rewrite elem_of_add. split; [intros [? | ->]; auto | intros [? | [[= ->] _]]; auto].
  - split; [auto | intros [? | [[= ->] ?]]; [assumption | congruence]].
Qed.

Lemma addRefId_NoDup ref set : NoDup set → NoDup (addRefId ref set).
Proof.
  unfold addRefId. destruct (getRefId ref); [| auto].
  destruct (JS.truthy _); [apply add_NoDup | auto].
Qed.

Lemma addRefId_grows ref set :
  ∃ more, addRefId ref set = (set ++ more)%list ∧ (length more ≤ 1)%nat.
Proof.
  unfold addRefId. destruct (getRefId ref); [| exists []; rewrite app_nil_r; auto].
  destruct (JS.truthy _); [apply add_grows | exists []; rewrite app_nil_r; auto].
Qed.

Lemma elem_of_addRefIds {A} (f : A → option string) (l : list A) y set :
  y ∈ fold_left (fun set x => addRefId (f x) set) l set
  ↔ y ∈ set ∨ ∃ x, x ∈ l ∧ getRefId (f x) = Some y ∧ JS.truthy (Some y) = true.
Proof.
  revert set. induction l as [| x l IH]; intros set; cbn [fold_left].
  - split; [auto | intros [? | (x & Hx & _)]; [assumption | inversion Hx]].
  - rewrite IH, elem_of_addRefId. split.
    + intros [[? | ?] | (z & Hz & ?)]; [auto | right; exists x | right; exists z].
      * split; [left | assumption].
      * split; [right; assumption | assumption].
    + intros [? | (z & Hz & ?)]; [auto |].
      apply elem_of_cons in Hz as [-> | Hz]; [auto |]. right. eauto.
Qed.

Lemma addRefIds_NoDup {A} (f : A → option string) (l : list A) set :
  NoDup set → NoDup (fold_left (fun set x => addRefId (f x) set) l set).
Proof.
  revert set. induction l as [| x l IH]; intros set Hnd; cbn [fold_left]; [assumption |].
  apply IH, addRefId_NoDup, Hnd.
Qed.

Lemma elem_of_actorOrgIds_from consents id set :
  id ∈ fold_left (fun set consent =>
                    fold_left (fun set actor => addRefId (actorRef actor) set)
                              (Consent.actors consent) set) consents set
  ↔ id ∈ set ∨ ∃ consent actor, consent ∈ consents ∧ actor ∈ Consent.actors consent
                                ∧ getRefId (actorRef actor) = Some id
                                ∧ JS.truthy (Some id) = true.
Proof.
  revert set. induction consents as [| c cs IH]; intros set; cbn [fold_left].
  - split; [auto | intros [? | (c & _ & Hc & _)]; [assumption | inversion Hc]].
  - rewrite IH, elem_of_addRefIds. split.
    + intros [[? | (a & Ha & ?)] | (c' & a & Hc' & ?)]; [auto | right | right].
      * exists c, a. split; [left | auto].
      * exists c', a. split; [right; assumption | assumption].
    + intros [? | (c' & a & Hc' & Ha & ?)]; [auto |].
      apply elem_of_cons in Hc' as [-> | Hc']; [left; right; eauto | right; eauto 10].
Qed.

Lemma elem_of_actorOrgIds consents id :
  id ∈ actorOrgIds consents
  ↔ ∃ consent actor, consent ∈ consents ∧ actor ∈ Consent.actors consent
                     ∧ getRefId (actorRef actor) = Some id ∧ JS.truthy (Some id) = true.
Proof.
  unfold actorOrgIds. rewrite elem_of_actorOrgIds_from.
  split; [intros [Hnil | ?]; [inversion Hnil | assumption] | auto].
Qed.

Lemma actorOrgIds_NoDup consents : NoDup (actorOrgIds consents).
Proof.
  unfold actorOrgIds. generalize (NoDup_nil_2 (A := string)). generalize (@nil string).
  induction consents as [| c cs IH]; intros set Hnd; cbn [fold_left]; [assumption |].
  apply IH, addRefIds_NoDup, Hnd.
Qed.

Section Closure.
Variable st : FHIRStore.t.
Variable callerOrgId : option string.
Variables include iterate : option (array_or string).
Variable entries : list Bundle.entry.

Local Abbreviation iter := (ensureArray iterate).
Local Abbreviation shown := (visibleConsents callerOrgId entries).
Local Abbreviation allowedOrg := (ConsentSearch.allowedOrg st callerOrgId include iterate entries).
Local Abbreviation allowedEndpoint :=
  (ConsentSearch.allowedEndpoint st callerOrgId include iterate entries).
Local Abbreviation closedAt := (ConsentSearch.closedAt iterate).
Local Abbreviation invariant := (ConsentSearch.invariant st callerOrgId include iterate entries).
Local Abbreviation visitsLeft := (ConsentSearch.visitsLeft st).

Lemma visit_missing k a :
  FHIRStore.Organization st !! k = None → visit st iter k a = a.
Proof. intros Hk. unfold visit, FHIRStore.getOrganization. cbn. rewrite Hk. reflexivity. Qed.

Lemma visit_stored k org a :
  FHIRStore.Organization st !! k = Some org →
  (∃ more, orgIds (visit st iter k a) = (orgIds a ++ more)%list ∧ (length more ≤ 1)%nat)
  ∧ (NoDup (orgIds a) → NoDup (orgIds (visit st iter k a)))
  ∧ (∀ id, id ∈ orgIds (visit st iter k a)
           ↔ id ∈ orgIds a
             ∨ ("Organization:partof" ∈ iter
                ∧ getRefId (Organization.partOf org ≫= Reference.reference) = Some id
                ∧ JS.truthy (Some id) = true))
  ∧ (∀ id, id ∈ endpointIds (visit st iter k a)
           ↔ id ∈ endpointIds a
             ∨ ("Organization:endpoint" ∈ iter
                ∧ ∃ ep, ep ∈ default [] (Organization.endpoint org)
                        ∧ getRefId (Reference.reference ep) = Some id
                        ∧ JS.truthy (Some id) = true)).
Proof.
  intros Hk. unfold visit, FHIRStore.getOrganization. cbn [mbind option_bind].
  rewrite Hk. cbn [orgIds endpointIds].
  split; [| split; [| split]].
  - case_bool_decide; [apply addRefId_grows | exists []; rewrite app_nil_r; auto].
  - case_bool_decide; [apply addRefId_NoDup | auto].
  - intros id. case_bool_decide.
    + rewrite elem_of_addRefId. tauto.
    + tauto.
  - intros id. case_bool_decide.
    + rewrite elem_of_addRefIds. tauto.
    + tauto.
Qed.

Lemma closedAt_grows org a a' :
  (∀ id, id ∈ orgIds a → id ∈ orgIds a') →
  (∀ id, id ∈ endpointIds a → id ∈ endpointIds a') →
  closedAt org a → closedAt org a'.
Proof. intros Ho He [Hp Hq]. split; eauto. Qed.

Lemma unvisited_size (D V : gset string) k :
  k ∈ D → k ∉ V → size (D ∖ V) = S (size (D ∖ (V ∪ {[k]}))).
Proof.
  intros HD HV.
  replace (D ∖ V) with ({[k]} ∪ D ∖ (V ∪ {[k]})).
  - rewrite size_union, size_singleton; [reflexivity |].
    intros x ->%elem_of_singleton [_ Hx]%elem_of_difference.
    apply Hx, elem_of_union. right. apply elem_of_singleton. reflexivity.
  - apply set_eq. intros x.
    rewrite elem_of_union, !elem_of_difference, elem_of_union, !elem_of_singleton.
    destruct (decide (x = k)) as [-> | Hne]; tauto.
Qed.

Lemma visited_next (l : list string) i k :
  l !! i = Some k →
  (list_to_set (take (S i) l) : gset string) = list_to_set (take i l) ∪ {[k]}.
Proof.
  intros Hk. rewrite (take_S_r _ _ _ Hk), list_to_set_app_L. cbn [list_to_set foldr].
  rewrite union_empty_r_L. reflexivity.
Qed.

Lemma not_visited (l : list string) i k :
  NoDup l → l !! i = Some k → k ∉ (list_to_set (take i l) : gset string).
Proof.
  intros Hnd Hk. rewrite elem_of_list_to_set.
  intros (j & Hj & Hlt)%elem_of_take.
  pose proof (NoDup_lookup _ _ _ _ Hnd Hk Hj). lia.
Qed.

Hypothesis Hexpands : expands include iterate = true.

Lemma visit_invariant i k a :
  invariant i a → orgIds a !! i = Some k →
  invariant (S i) (visit st iter k a)
  ∧ (visitsLeft (S i) (visit st iter k a) < visitsLeft i a)%nat.
Proof.
  intros (Hnd & Hle & Hactors & Horgs & Heps & Hclosed) Hk.
  pose proof (lookup_lt_Some _ _ _ Hk) as Hlt.
  destruct (FHIRStore.Organization st !! k) as [org |] eqn:Hstored.
  - destruct (visit_stored k org a Hstored)
      as ((more & Hmore & Hlen) & Hnd' & Hin & Hin').
    assert (Hsame : ∀ j, (j < length (orgIds a))%nat →
                         orgIds (visit st iter k a) !! j = orgIds a !! j).
    { intros j Hj. rewrite Hmore. apply lookup_app_l, Hj. }
    split.
    + split; [auto |]. split; [rewrite Hmore, length_app; lia |].
      split; [intros id Hid; apply Hin; auto |].
      split; [| split].
      * intros id [Hid | (Hpart & Href & Ht)]%Hin; [auto |].
        apply (allowed_parent _ _ _ _ _ k org); auto.
        apply Horgs. eapply list_elem_of_lookup_2, Hk.
      * intros id [Hid | (Hep & ep & Hmem & Href & Ht)]%Hin'; [auto |].
        split; [assumption |]. split; [assumption |].
        exists k, org, ep. repeat split; auto.
        apply Horgs. eapply list_elem_of_lookup_2, Hk.
      * intros j k' org' Hj Hk' Hstored'.
        destruct (decide (j = i)) as [-> | Hne].
        -- rewrite Hsame, Hk in Hk' by assumption. injection Hk' as <-.
           rewrite Hstored in Hstored'. injection Hstored' as <-.
           split.
           ++ intros Hpart id Href Ht. apply Hin. auto.
           ++ intros Hep ep id Hmem Href Ht. apply Hin'. eauto 10.
        -- rewrite Hsame in Hk' by lia.
           apply (closedAt_grows org' a).
           ++ intros id Hid. apply Hin. auto.
           ++ intros id Hid. apply Hin'. auto.
           ++ apply (Hclosed j k'); [lia | assumption | assumption].
    + unfold ConsentSearch.visitsLeft.
      rewrite Hmore at 2. rewrite (take_app_le _ _ (S i)) by lia.
      rewrite (visited_next _ _ _ Hk).
      rewrite (unvisited_size (dom (FHIRStore.Organization st))
                              (list_to_set (take i (orgIds a))) k).
      * rewrite Hmore, length_app. lia.
      * apply elem_of_dom. eauto.
      * apply not_visited; assumption.
  - rewrite (visit_missing k a Hstored). split.
    + split; [assumption |]. split; [lia |].
      split; [assumption |]. split; [assumption |]. split; [assumption |].
      intros j k' org' Hj Hk' Hstored'.
      destruct (decide (j = i)) as [-> | Hne].
      * rewrite Hk in Hk'. injection Hk' as <-. congruence.
      * apply (Hclosed j k'); [lia | assumption | assumption].
    + unfold ConsentSearch.visitsLeft. rewrite (visited_next _ _ _ Hk).
      replace (dom (FHIRStore.Organization st) ∖ (list_to_set (take i (orgIds a)) ∪ {[k]}))
        with (dom (FHIRStore.Organization st) ∖ list_to_set (take i (orgIds a))).
      * lia.
      * apply not_elem_of_dom in Hstored. apply set_eq. intros x.
        rewrite !elem_of_difference, elem_of_union, elem_of_singleton.
        split; [intros [Hx Hv]; split; [assumption |] | intros [Hx Hv]; auto].
        intros [? | ->]; auto.
Qed.

Lemma forEach_invariant fuel : ∀ i a,
  invariant i a → (visitsLeft i a ≤ fuel)%nat →
  invariant (length (orgIds (forEach fuel st iter i a))) (forEach fuel st iter i a).
Proof.
  induction fuel as [| fuel IH]; intros i a Hinv Hfuel; cbn [forEach].
  - assert (i = length (orgIds a)) as <-; [| assumption].
    destruct Hinv as (_ & Hle & _). unfold ConsentSearch.visitsLeft in Hfuel. lia.
  - destruct (orgIds a !! i) as [k |] eqn:Hk.
    + destruct (visit_invariant i k a Hinv Hk) as [Hinv' Hless].
      apply IH; [assumption | lia].
    + assert (i = length (orgIds a)) as <-; [| assumption].
      destruct Hinv as (_ & Hle & _). apply lookup_ge_None in Hk. lia.
Qed.

Lemma invariant_complete a :
  invariant (length (orgIds a)) a →
  (∀ id, allowedOrg id ↔ id ∈ orgIds a) ∧ (∀ id, allowedEndpoint id ↔ id ∈ endpointIds a).
Proof.
  intros (_ & _ & Hactors & Horgs & Heps & Hclosed).
  assert (Hall : ∀ id, allowedOrg id → id ∈ orgIds a).
  { intros id Hid. induction Hid as [c actor id Hc Ha Href Ht
                                    | child org id _ IH _ Hpart Hstored Href Ht].
    - apply Hactors, elem_of_actorOrgIds. eauto 10.
    - apply list_elem_of_lookup_1 in IH as [j Hj].
      destruct (Hclosed j child org (lookup_lt_Some _ _ _ Hj) Hj Hstored) as [Hadded _].
      apply Hadded; assumption. }
  split; intros id; (split; [| auto]).
  - apply Hall.
  - intros (_ & Hep & owner & org & ep & Howner & Hstored & Hmem & Href & Ht).
    apply Hall, list_elem_of_lookup_1 in Howner as [j Hj].
    destruct (Hclosed j owner org (lookup_lt_Some _ _ _ Hj) Hj Hstored) as [_ Hadded].
    apply (Hadded Hep ep); assumption.
Qed.

Lemma invariant_start : invariant 0 (mkAllowed (actorOrgIds shown) []).
Proof.
  split; [apply actorOrgIds_NoDup |]. split; [cbn; lia |].
  split; [auto |]. split; [| split].
  - intros id (c & actor & Hc & Ha & Href & Ht)%elem_of_actorOrgIds.
    apply (allowed_actor _ _ _ _ _ c actor); assumption.
  - intros id Hid. inversion Hid.
  - intros j k org Hj. lia.
Qed.

Lemma visitsLeft_start a :
  (visitsLeft 0 a ≤ length (orgIds a) + size (FHIRStore.Organization st))%nat.
Proof.
  unfold ConsentSearch.visitsLeft. rewrite take_0. cbn [list_to_set foldr].
  rewrite difference_empty_L, size_dom. lia.
Qed.

End Closure.

Lemma allowedIds_spec st callerOrgId include iterate entries :
  let a := allowedIds st include iterate (visibleConsents callerOrgId entries) in
  (∀ id, allowedOrg st callerOrgId include iterate entries id ↔ id ∈ orgIds a)
  ∧ (∀ id, allowedEndpoint st callerOrgId include iterate entries id ↔ id ∈ endpointIds a).
Proof.
  unfold allowedIds. destruct (expands include iterate) eqn:Hexpands.
  - apply invariant_complete, forEach_invariant;
      [assumption | apply invariant_start | apply visitsLeft_start].
  - cbn [orgIds endpointIds]. split; intros id; split.
    + intros Hid. induction Hid as [c actor id Hc Ha Href Ht | ? ? ? _ _ Hyes]; [| congruence].
      apply elem_of_actorOrgIds. eauto 10.
    + intros (c & actor & Hc & Ha & Href & Ht)%elem_of_actorOrgIds.
      apply (allowed_actor _ _ _ _ _ c actor); assumption.
    + intros (Hyes & _). congruence.
    + intros Hid. inversion Hid.
Qed.

Lemma filter_sublist {A} (f : A → bool) (l : list A) : sublist (List.filter f l) l.
Proof.
  induction l as [| x l IH]; cbn [List.filter]; [constructor |].
  destruct (f x); constructor; assumption.
Qed.

Lemma visibleConsents_spec callerOrgId entries c :
  c ∈ visibleConsents callerOrgId entries
  ↔ Routes.isParty callerOrgId (Consent.actors c) = true
    ∧ ∃ e, e ∈ entries ∧ Bundle.resource e = FHIRStore.RConsent c.
Proof.
  unfold visibleConsents. rewrite list_elem_of_In, filter_In, <- list_elem_of_In.
  rewrite list_elem_of_omap. unfold consentOf. split.
  - intros [(e & He & Hres) Hparty]. split; [assumption |]. exists e. split; [assumption |].
    destruct (Bundle.resource e); congruence.
  - intros [Hparty (e & He & Hres)]. split; [| assumption].
    exists e. rewrite Hres. auto.
Qed.

(** X25.  The visibility of a search of consents.  To a caller with an
    organization that is no PCM admin, [GET /Consent] answers with entries of
    the search, in their order, and with exactly these: the Consents that name
    the caller in an actor; the Organizations that are actors of such a
    consent, or, when the query iterates over [Organization:partof], parents
    of such Organizations, to any depth; and, when the query iterates over
    [Organization:endpoint], the Endpoints of those Organizations.  The
    consents among the entries are those the store holds under their ids. *)
Theorem consent_search_visibility (st : FHIRStore.t) (organization_id : option string)
    (include iterate : option (array_or string)) (entries : list Bundle.entry) :
  Routes.isPcmAdmin st organization_id = false →
  JS.truthy organization_id = true →
  (∀ e c, In e entries → Bundle.resource e = FHIRStore.RConsent c →
          FHIRStore.getConsent st (Consent.id c) = Some c) →
  ∃ shown,
    getConsents st organization_id include iterate entries
    = Reply.mk 200 (Reply.Resource (Bundle.mk (length shown) shown))
    ∧ sublist shown entries
    ∧ ∀ e, In e shown
           ↔ In e entries ∧ visible st organization_id include iterate entries e.
Proof.
  intros Hadmin Hcaller Hstored. unfold getConsents. rewrite Hcaller, Hadmin. cbn [negb].
  eexists. split; [reflexivity |]. split; [apply filter_sublist |].
  destruct (allowedIds_spec st organization_id include iterate entries) as [Horgs Heps].
  intros e. rewrite filter_In.
  match goal with
  | |- _ ∧ ?p ↔ _ ∧ ?q => assert (In e entries → (p ↔ q)) as Hiff; [| tauto]
  end.
  intros He. unfold permitted, visible. destruct (Bundle.resource e) as [o | ep | h | v | c] eqn:Hres.
  - destruct (Organization.id o) as [id |].
    + rewrite bool_decide_eq_true, <- Horgs. split; [eauto | intros (? & [= <-] & ?); assumption].
    + split; [discriminate | intros (? & [=] & _)].
  - destruct (Endpoint.id ep) as [id |].
    + rewrite bool_decide_eq_true, <- Heps. split; [eauto | intros (? & [= <-] & ?); assumption].
    + split; [discriminate | intros (? & [=] & _)].
  - split; [discriminate | contradiction].
  - split; [discriminate | contradiction].
  - rewrite bool_decide_eq_true, list_elem_of_In, in_map_iff. split.
    + intros (c' & Hid & (Hparty & e' & He' & Hres')%list_elem_of_In%visibleConsents_spec).
      apply list_elem_of_In in He'.
      pose proof (Hstored e c He Hres) as Hc. pose proof (Hstored e' c' He' Hres') as Hc'.
      rewrite <- Hid, Hc' in Hc. injection Hc as <-. assumption.
    + intros Hparty. exists c. split; [reflexivity |].
      apply list_elem_of_In, visibleConsents_spec. split; [assumption |].
      exists e. split; [apply list_elem_of_In |]; assumption.
Qed.

Lemma consent_search_visibility_witness :
  ∃ shown,
    getConsents Scenario.store (Some "org-sp") SearchTest.include SearchTest.iterate
      SearchTest.entries
    = Reply.mk 200 (Reply.Resource (Bundle.mk (length shown) shown))
    ∧ sublist shown SearchTest.entries
    ∧ ∀ e, In e shown
           ↔ In e SearchTest.entries
             ∧ visible Scenario.store (Some "org-sp") SearchTest.include SearchTest.iterate
                 SearchTest.entries e.
Proof.
  apply (consent_search_visibility Scenario.store (Some "org-sp") SearchTest.include
           SearchTest.iterate SearchTest.entries); [reflexivity | reflexivity |].
  intros e c He Hres.
  repeat (destruct He as [<- | He]; [first [discriminate Hres | injection Hres as <-; reflexivity] |]).
  contradiction.
Defined.

End SearchOfConsents.

(* --------------------------------------------------------------------- *)
(** ** Discovery and the token request of the adapter *)
(* --------------------------------------------------------------------- *)

(** X26.  PCM accepts the token request that the adapter builds from PCM's
    discovery document.  Under whatever host and protocol PCM is reached, an
    adapter without a cached token that is answered the SMART configuration
    of that host posts to its [token_endpoint] with the base address as the
    [resource]; and PCM, receiving under the same host the assertion signed
    for that endpoint, issues a token of the scope [system/*.cruds] for the
    adapter's client with that base address as its audience. *)
Theorem discovered_token_request_accepted `{Platform} {S : Type}
    (pcm : call → S → reply * S) (s : S) (PCM_AUTH_URL protocol host : string)
    (cached : option string) (assertion pem : string) (peer : option (list Z))
    (tokens : TokenStore) (st : FHIRStore.t) (uuid : string) (now : Z) :
  protocol = "http" ∨ protocol = "https" →
  fst (pcm GetSmartConfiguration s) = Fulfilled (Discovery.smartConfiguration protocol host) →
  JS.truthy cached = false →
  let base := protocol +:+ "://" +:+ host in
  JS.truthy (Some assertion) = true →
  jwt_decode assertion = Decoded (Discovery.generateClientAssertion (base +:+ "/token")) →
  readFileSync "/app/certs/ds-gateway.crt" = Some pem →
  jwt_verify assertion pem
    ["https://" +:+ host +:+ "/token"; "http://" +:+ host +:+ "/token";
     "https://pcm-core:3000/token"; "http://pcm-core:3000/token"] = true →
  let out := postToken tokens st uuid now (Discovery.tokenRequest host peer assertion base) in
  List.map fst (snd (run pcm (getIntrospectionToken PCM_AUTH_URL (mkState None cached)) s))
  = [GetSmartConfiguration; PostToken (base +:+ "/token") base]
  ∧ IssueOutcome.response out
    = Response.mk 200 (Response.AccessToken uuid "Bearer" 30 "system/*.cruds")
  ∧ IssueOutcome.tokens out
    = <[uuid := Token.mk true Discovery.CLIENT_ID "system/*.cruds"
                  "http://pcm.fhir.health.gov.il/" base Discovery.CLIENT_ID
                  "org-vaccine-repo" None [] (Some (certToX5tS256 (Pem pem)))
                  (now + 30) now]> tokens.
Proof.
  intros Hprotocol Hdiscovery Hcold base Hassertion Hdecode Hcert Hverify out.
  split.
  - unfold getIntrospectionToken. cbn [introspectionToken]. rewrite Hcold.
    unfold getSmartConfiguration. cbn [smartConfig bind run].
    destruct (pcm GetSmartConfiguration s) as [r s1]. cbn [fst] in Hdiscovery. subst r.
    cbn [Discovery.smartConfiguration config_of token_endpoint bind run].
    fold base. rewrite stripToken_token. cbn [run].
    destruct (pcm (PostToken _ _) s1) as [[d | status] s2]; reflexivity.
  - subst out. unfold postToken, requireMtls, Discovery.tokenRequest.
    cbn [TokenRequest.socket_authorized]. unfold issueToken, authenticate.
    cbn [TokenRequest.grant_type TokenRequest.client_assertion_type
         TokenRequest.client_assertion TokenRequest.resource TokenRequest.host
         TokenRequest.peer_raw str_is default].
    rewrite Hassertion.
    assert (Hbase : JS.truthy (Some base) = true).
    { subst base. destruct Hprotocol as [-> | ->]; reflexivity. }
    rewrite Hbase. cbn [String.eqb Ascii.eqb Bool.eqb negb orb].
    unfold Datatypes.id. rewrite Hdecode.
    cbn [Discovery.generateClientAssertion Assertion.sub Assertion.iss Assertion.aud
         Assertion.hl7_b2b].
    change (JS.truthy (Some Discovery.CLIENT_ID)) with true. cbn [negb orb].
    change (List.find _ clients)
      with (Some (Client.mk Discovery.CLIENT_ID "Data Source Auth Adapter" ["introspection"]
                            "/app/certs/ds-gateway.crt" "org-vaccine-repo")).
    cbn [Client.certPath]. rewrite Hcert.
    rewrite bool_decide_eq_true_2 by reflexivity. cbn [negb].
    assert (Haud : isAllowedAudience (Some (Assertion.AudString (base +:+ "/token")))
                     ["https://" +:+ host +:+ "/token"; "http://" +:+ host +:+ "/token";
                      "https://pcm-core:3000/token"; "http://pcm-core:3000/token"] = true).
    { unfold isAllowedAudience, includes_str. subst base.
      destruct Hprotocol as [-> | ->]; cbn [existsb];
        rewrite ?String.eqb_refl, ?orb_true_r; reflexivity. }
    rewrite Haud, Hverify.
    cbn [negb Discovery.generateClientAssertion Assertion.hl7_b2b bindConsent
         buildFhirContext mbind option_bind JS.truthy Client.clientId Client.certPath
         Client.organizationId fmap option_fmap option_map].
    rewrite Hcert.
    split; reflexivity.
Qed.

Lemma discovered_token_request_accepted_witness :
  let platform := Seed.platform (Discovery.generateClientAssertion "https://pcm-core:3000/token") in
  let out := @postToken platform ∅ Seed.bootstrap "pep-token" 1000
               (Discovery.tokenRequest "pcm-core:3000" None "header.payload.signature"
                  "https://pcm-core:3000") in
  List.map fst (snd (run (AdapterTest.rejecting 401)
                         (getIntrospectionToken AdapterTest.URL (mkState None None)) 0%nat))
  = [GetSmartConfiguration; PostToken "https://pcm-core:3000/token" "https://pcm-core:3000"]
  ∧ IssueOutcome.response out
    = Response.mk 200 (Response.AccessToken "pep-token" "Bearer" 30 "system/*.cruds")
  ∧ IssueOutcome.tokens out
    = <["pep-token" := Token.mk true Discovery.CLIENT_ID "system/*.cruds"
                         "http://pcm.fhir.health.gov.il/" "https://pcm-core:3000"
                         Discovery.CLIENT_ID "org-vaccine-repo" None []
                         (Some (certToX5tS256 (Pem Seed.certificate))) (1000 + 30) 1000]> ∅.
Proof.
  exact (@discovered_token_request_accepted
           (Seed.platform (Discovery.generateClientAssertion "https://pcm-core:3000/token"))
           nat (AdapterTest.rejecting 401) 0%nat AdapterTest.URL "https" "pcm-core:3000" None
           "header.payload.signature" Seed.certificate None ∅ Seed.bootstrap "pep-token" 1000
           (or_intror eq_refl) eq_refl eq_refl eq_refl eq_refl eq_refl eq_refl).
Defined.

(* --------------------------------------------------------------------- *)
(** ** The context of a created service *)
(* --------------------------------------------------------------------- *)

Lemma pop_reference (type id : string) :
  JS.includes "/" type = false → JS.includes "/" id = false →
  JS.pop (JS.split "/" (type +:+ String "/" id)) = Some id.
Proof.
  intros Htype Hid. rewrite (split_app _ _ _ Htype), (split_no_separator _ _ Hid).
  reflexivity.
Qed.

Ltac heap :=
  cbn [Routes.parse Routes.createInstance Routes.extensionsOf Routes.metaOf Routes.retag
       Routes.read Routes.Heap.allocMeta Routes.Heap.allocArray Routes.Heap.empty
       Routes.Heap.elements Routes.Heap.push Routes.Heap.setTag Routes.Heap.tagOf
       Routes.Heap.metas Routes.Heap.arrays
       Routes.s_id Routes.s_active Routes.s_name Routes.s_providedBy Routes.s_identifier
       Routes.s_extension Routes.s_meta HealthcareService.id HealthcareService.active
       HealthcareService.name HealthcareService.meta HealthcareService.extension
       HealthcareService.identifier HealthcareService.providedBy Meta.tag
       length app lookup list_lookup default insert list_insert mjoin option_join
       fmap option_fmap option_map fst snd ensureArray];
  unfold Datatypes.id.

Lemma postHealthcareService_created st organization_id u incoming :
  let key := Routes.keyOf (Routes.forInstance u) (HealthcareService.id incoming) in
  let st' := snd (Routes.postHealthcareService st organization_id u
                    (Some "HealthcareService") incoming) in
  Routes.isPcmAdmin st organization_id = false →
  JS.truthy organization_id = true →
  existsb Routes.isCatalogTag (ensureArray (HealthcareService.meta incoming ≫= Meta.tag))
  = false →
  List.find (fun e => str_is (Extension.url e) EXT_BASED_ON_CANONICAL)
            (ensureArray (HealthcareService.extension incoming)) = None →
  Routes.forCanonical u ≠ key →
  ∃ instance canonical,
    FHIRStore.HealthcareService st' !! key = Some instance
    ∧ FHIRStore.HealthcareService st' !! Routes.forCanonical u = Some canonical
    ∧ HealthcareService.id instance = Some key
    ∧ HealthcareService.identifier instance = HealthcareService.identifier incoming
    ∧ HealthcareService.extension instance
      = Some (Arr (ensureArray (HealthcareService.extension incoming)
                   ++ [Routes.basedOn (Routes.forCanonical u)]))
    ∧ HealthcareService.id canonical = Some (Routes.forCanonical u)
    ∧ HealthcareService.identifier canonical
      = match HealthcareService.identifier incoming with
        | Some (Arr (_ :: _)) => HealthcareService.identifier incoming
        | _ => Some (Arr [Identifier.mk (Some CATALOG_ID_SYSTEM)
                                        (Some ("PCM-CAT-" +:+ Routes.forIdentifier u))])
        end.
Proof.
  intros key st' Hadmin Hcaller Hcatalog Hbased Hne. subst st'.
  unfold Routes.postHealthcareService.
  cbn [str_is String.eqb Ascii.eqb Bool.eqb negb]. rewrite Hadmin, Hcatalog, Hcaller.
  cbn [negb].
  destruct incoming as [id active name providedBy identifier extension meta].
  cbn [HealthcareService.id HealthcareService.identifier HealthcareService.extension
       HealthcareService.meta] in *.
  destruct meta as [[tag] |], extension as [[l | x] |];
    cbn [ensureArray] in Hbased.
  all: heap.
  all: rewrite ?Hbased.
  all: heap.
  all: cbn [FHIRStore.addHealthcareService FHIRStore.with_HealthcareService
            FHIRStore.HealthcareService].
  all: fold key.
  all: rewrite lookup_insert_eq, lookup_insert_ne, lookup_insert_eq by (intros E; apply Hne; symmetry; exact E).
  all: eexists _, _; split; [reflexivity |]; split; [reflexivity |].
  all: heap.
  all: repeat split.
  all: destruct identifier as [[[| i rest] | o] |]; reflexivity.
Qed.

Lemma find_app_none {A} (f : A → bool) (l : list A) (x : A) :
  List.find f l = None → List.find f (l ++ [x]) = (if f x then Some x else None).
Proof.
  induction l as [| y l IH]; cbn [List.find app]; [reflexivity |].
  destruct (f y); [discriminate | exact IH].
Qed.

(** X27.  The token context of a created service.  When a caller that is
    no PCM admin has created a service through [POST /HealthcareService]
    (no catalog tag, no canonical named), step 6 of [issueToken] gives a
    consent that names the service one HealthcareService entry under the
    catalog identifier system.  Its value is the value of the catalog
    identifier of the body, if it has one; else the [PCM-CAT-] identifier of
    the canonical that the handler created, if the body brought no
    identifier array with a first member; and else the logical id of the
    created instance. *)
Theorem created_service_context (st : FHIRStore.t) (organization_id : option string)
    (u : Routes.uuids) (incoming : HealthcareService.t) (consent : Consent.t)
    (ext : Extension.t) :
  let key := Routes.keyOf (Routes.forInstance u) (HealthcareService.id incoming) in
  let st' := snd (Routes.postHealthcareService st organization_id u
                    (Some "HealthcareService") incoming) in
  (* a caller that is no PCM admin creates a service of its own *)
  Routes.isPcmAdmin st organization_id = false →
  JS.truthy organization_id = true →
  existsb Routes.isCatalogTag (ensureArray (HealthcareService.meta incoming ≫= Meta.tag))
  = false →
  List.find (fun e => str_is (Extension.url e) EXT_BASED_ON_CANONICAL)
            (ensureArray (HealthcareService.extension incoming)) = None →
  (* the ids are words, and the two differ *)
  JS.truthy (Some (Routes.forInstance u)) = true →
  JS.includes "/" key = false →
  JS.includes "/" (Routes.forCanonical u) = false →
  Routes.forCanonical u ≠ key →
  (* the consent names the service *)
  Consent.extension consent
    ≫= List.find (fun e => str_is (Extension.url e) EXT_PCM_SERVICE) = Some ext →
  Extension.valueReference ext ≫= Reference.reference
  = Some ("HealthcareService" +:+ String "/" key) →
  serviceContext st' consent
  = Some [FhirContext.mk "HealthcareService" (Some CATALOG_ID_SYSTEM)
            match List.find (fun i => str_is (Identifier.system i) CATALOG_ID_SYSTEM)
                            (ensureArray (HealthcareService.identifier incoming)) with
            | Some i => or_str (Identifier.value i) (Some key)
            | None =>
                match HealthcareService.identifier incoming with
                | Some (Arr (_ :: _)) => Some key
                | _ => Some ("PCM-CAT-" +:+ Routes.forIdentifier u)
                end
            end].
Proof.
  intros key st' Hadmin Hcaller Hcatalog Hbased Huuid Hkey Hcanonical Hne Hext Href.
  assert (Hkeyt : JS.truthy (Some key) = true).
  { subst key. unfold Routes.keyOf.
    destruct (JS.truthy (HealthcareService.id incoming)) eqn:Hid; [| exact Huuid].
    destruct (HealthcareService.id incoming); [exact Hid | discriminate]. }
  destruct (postHealthcareService_created st organization_id u incoming
              Hadmin Hcaller Hcatalog Hbased Hne)
    as (instance & canonical & Hinstance & Hcanon & Hid & Hidentifier & Hextension
        & Hcid & Hcidentifier).
  fold key in Hinstance, Hid. fold st' in Hinstance, Hcanon.
  unfold serviceContext. rewrite Hext.
  destruct (Extension.valueReference ext) as [vr |]; [| discriminate].
  cbn [mbind option_bind] in Href. rewrite Href.
  rewrite (pop_reference "HealthcareService" key eq_refl Hkey).
  unfold FHIRStore.getHealthcareService. cbn [mbind option_bind].
  rewrite Hinstance, Hextension. cbn [findExtension].
  rewrite (find_app_none _ _ _ Hbased).
  unfold Routes.basedOn. cbn [Extension.url str_is]. rewrite String.eqb_refl.
  cbn [mbind option_bind Extension.valueReference Reference.reference].
  change (JS.truthy (Some ("HealthcareService/" +:+ Routes.forCanonical u))) with true.
  cbv iota.
  change ("HealthcareService/" +:+ Routes.forCanonical u)
    with ("HealthcareService" +:+ String "/" (Routes.forCanonical u)).
  unfold lastSegment. cbn [mbind option_bind].
  rewrite (pop_reference "HealthcareService" _ eq_refl Hcanonical).
  cbn [mbind option_bind]. rewrite Hcanon.
  unfold buildHealthcareServiceContext, findCatalogIdentifier.
  cbn [mbind option_bind]. rewrite Hidentifier, Hcidentifier, Hid, Hcid.
  destruct (List.find _ (ensureArray (HealthcareService.identifier incoming)))
    as [i |] eqn:Hfind.
  - assert (Hvalue : JS.truthy (or_str (or_str (Identifier.value i) (Some key))
                                       (Some (Routes.forCanonical u))) = true
                     ∧ or_str (or_str (Identifier.value i) (Some key))
                              (Some (Routes.forCanonical u))
                       = or_str (Identifier.value i) (Some key)).
    { unfold or_str. destruct (JS.truthy (Identifier.value i)) eqn:Hv.
      - rewrite Hv. auto.
      - rewrite Hkeyt. auto. }
    cbn [mbind option_bind]. destruct Hvalue as [-> ->]. reflexivity.
  - destruct (HealthcareService.identifier incoming) as [[[| i rest] | o] |] eqn:Hident.
    + cbn [ensureArray List.find Identifier.system str_is].
      rewrite String.eqb_refl. cbn [Identifier.value mbind option_bind or_str JS.truthy].
      reflexivity.
    + rewrite Hfind. cbn [mbind option_bind].
      change (or_str None (Some key)) with (Some key).
      unfold or_str. rewrite !Hkeyt. reflexivity.
    + cbn [ensureArray List.find Identifier.system str_is].
      rewrite String.eqb_refl. cbn [Identifier.value mbind option_bind or_str JS.truthy].
      reflexivity.
    + cbn [ensureArray List.find Identifier.system str_is].
      rewrite String.eqb_refl. cbn [Identifier.value mbind option_bind or_str JS.truthy].
      reflexivity.
Qed.

Lemma created_service_context_witness :
  serviceContext
    (snd (Routes.postHealthcareService Seed.bootstrap (Some "org-sp") ServiceTest.u
            (Some "HealthcareService") ServiceTest.withIdentifier))
    ContextTest.consent
  = Some [FhirContext.mk "HealthcareService" (Some CATALOG_ID_SYSTEM) (Some "u-instance")].
Proof.
  apply (created_service_context Seed.bootstrap (Some "org-sp") ServiceTest.u
           ServiceTest.withIdentifier ContextTest.consent
           (Extension.mk (Some EXT_PCM_SERVICE)
              (Some (Seed.ref "HealthcareService/u-instance"))));
    try reflexivity.
  discriminate.
Defined.
